(** * geo-mapper: the drawing state machine and the feature collection

    A shallow embedding of the drawing and feature-list logic of the React
    components of the repository, and the properties of its specification
    settled against it.

    The repository holds three versions of the map component:
    - [MapComponent]  : [src/components/map/MapComponent.tsx], the component
                        the page loads;
    - [Draft2]        : the earlier version with [MapFeature] records and an
                        edit panel ([unnamed/part_002]);
    - [Draft1]        : the earliest version, with the sidebar inlined (the
                        text that follows [FeatureList] in [FeatureList.tsx]);
    and [Home] ([src/app/page.tsx]), [FeatureProperties] (the edit form) and
    [FeatureList] (the list of the features beside the map).

    How React code is read here.  A component function is run once per render;
    every function it defines is a closure over the values of that render.  A
    [useState] cell is a field of the component state; [setX(v)] and
    [setX(prev => ...)] write the cell, the second form computing from the
    cell's latest content.  What a closure reads directly ([linePoints.length],
    [features.length], [drawingMode]) is what its render saw: that is the
    closure's [Scope].  A [useRef] cell ([map.current]) is shared and always
    read from the state.  An effect with dependency [[drawingMode]] runs again
    (its cleanup first) exactly when [drawingMode] is not the value of its last
    run.  The map is the mapbox-gl object: the part of it the component uses
    (click listeners, sources, layers) is modelled from the library's
    documented behaviour. *)

From Stdlib Require Import List String Ascii ZArith NArith QArith Lia Bool Arith.
From Stdlib Require Import DecimalString DecimalNat.
Import ListNotations.
Open Scope string_scope.
Open Scope list_scope.
Open Scope nat_scope.

Set Implicit Arguments.

(** ** Values shared by the three versions *)

(** A JavaScript number as far as this code can tell numbers apart: the code
    stores coordinates and never computes on them. *)
Inductive number : Type :=
| Finite (q : Q)
| NaN
| Infinity
| NegInfinity.

Definition isFinite (x : number) : bool :=
  match x with Finite _ => true | _ => false end.

(** [[e.lngLat.lng, e.lngLat.lat]] *)
Definition LngLat : Type := (number * number)%type.

Definition finite_point (p : LngLat) : bool := isFinite (fst p) && isFinite (snd p).

(** The value of [drawingMode] is [option Tool]; [None] is [null]. *)
Inductive Tool : Type := point | line | polygon.

Definition Tool_eqb (a b : Tool) : bool :=
  match a, b with
  | point, point | line, line | polygon, polygon => true
  | _, _ => false
  end.

(** [Object.is] on two values of [drawingMode], as React compares dependencies. *)
Definition deps_same (a b : option Tool) : bool :=
  match a, b with
  | None, None => true
  | Some x, Some y => Tool_eqb x y
  | _, _ => false
  end.

(** A click event that carries [lngLat], the one field the handlers read;
    on it [!e.lngLat] is false.  The events the map builds itself hold two
    finite numbers there ([mapboxgl.LngLat] refuses [NaN]); an event handed
    to [map.fire("click", ...)] holds whatever numbers its caller wrote.
    The event without [lngLat], which [map.fire] can pass as well, is
    [MapComponent.click_without_lngLat]. *)
Record MapMouseEvent : Type := { lngLat : LngLat }.

Definition click_at (p : LngLat) : MapMouseEvent := {| lngLat := p |}.

(** A decimal numeral inside a template string. *)
Definition decimal (n : nat) : string := NilEmpty.string_of_uint (Nat.to_uint n).
Definition decimalN (n : N) : string := NilEmpty.string_of_uint (N.to_uint n).

(** Exceptions the code can raise; [Error] is what mapbox-gl throws. *)
Inductive JsError : Type := TypeError | Error.

(** The completion of a call that may throw. *)
Inductive completion (A : Type) : Type :=
| Normal (a : A)
| Throw (e : JsError).
Arguments Throw {A} e.

Definition bind {A B : Type} (c : completion A) (k : A -> completion B) : completion B :=
  match c with
  | Normal a => k a
  | Throw e => Throw e
  end.

Notation "x <- c ;; k" := (bind c (fun x => k))
  (at level 61, c at next level, right associativity).

(** What a handler declared without a [return] value hands back. *)
Inductive undefined : Type := Undefined.

(** [xs.filter((_, i) => i !== index)] *)
Fixpoint filter_index {A : Type} (index : nat) (xs : list A) : list A :=
  match xs, index with
  | [], _ => []
  | _ :: rest, O => rest
  | x :: rest, S i => x :: filter_index i rest
  end.

(** [prev.slice(0, -1)] *)
Definition slice_0_minus1 {A : Type} (xs : list A) : list A := removelast xs.

(** [prev[prev.length - 1]], [undefined] on the empty array. *)
Definition last_element {A : Type} (xs : list A) : option A :=
  match rev xs with
  | [] => None
  | x :: _ => Some x
  end.

(** [ids.includes(s)] *)
Definition mem_string (s : string) (xs : list string) : bool :=
  existsb (String.eqb s) xs.

Definition remove_string (s : string) (xs : list string) : list string :=
  filter (fun x => negb (String.eqb s x)) xs.

(** [a || b] on two strings: the empty string is the falsy one. *)
Definition js_or (a b : string) : string :=
  if (a =? "")%string then b else a.

(** ** GeoJSON features, as [MapComponent.tsx] builds them *)

Module GeoJSON.

Inductive Geometry : Type :=
| Point (coordinates : LngLat)
| LineString (coordinates : list LngLat)
| Polygon (coordinates : list (list LngLat)).

(** [CustomFeature]: a GeoJSON feature with a string id and the two
    properties the component writes. *)
Record Properties : Type := { name : string; description : string }.

Record Feature : Type := {
  id : string;
  geometry : Geometry;
  properties : Properties
}.

(** [{...f, properties: p}] *)
Definition with_properties (f : Feature) (p : Properties) : Feature :=
  {| id := id f; geometry := geometry f; properties := p |}.

(** [feature.geometry.type] *)
Definition geometry_type (g : Geometry) : string :=
  match g with
  | Point _ => "Point"
  | LineString _ => "LineString"
  | Polygon _ => "Polygon"
  end.

End GeoJSON.

(** ** [FeatureProperties], the edit form *)

Module FeatureProperties.
Import GeoJSON.

Section WithParent.
(** The state of the parent component, which the two callbacks act on. *)
Variable State : Type.
Variable onUpdate : Feature -> State -> completion State.
Variable onClose : State -> State.

(** [handleSave], with the form's [name] and [description] cells; the
    spread of [feature.properties] is overwritten on both of its keys. *)
Definition handleSave (feature : option Feature) (name description : string)
    (st : State) : completion State :=
  match feature with
  | None => Normal st
  | Some f =>
      let updatedFeature :=
        with_properties f {| name := name; description := description |} in
      st1 <- onUpdate updatedFeature st ;;
      Normal (onClose st1)
  end.
End WithParent.

(** The two cells of the form, empty on its first render. *)
Record Form : Type := { form_name : string; form_description : string }.

Definition initial_form : Form := {| form_name := ""; form_description := "" |}.

(** The effect on [[feature]]: the cells take the name and the description
    of the feature the form is opened on. *)
Definition load (feature : option Feature) (form : Form) : Form :=
  match feature with
  | Some f =>
      {| form_name := js_or (name (properties f)) "";
         form_description := js_or (description (properties f)) "" |}
  | None => form
  end.

End FeatureProperties.

(** ** [FeatureList], the list of the features beside the map

    What the component puts on screen, as data: the count in the header, one
    row per feature, and the message shown for an empty list. *)

Module FeatureList.
Import GeoJSON.

Inductive Icon : Type := MapPin | LineChart | Square.

Definition getIcon (type : string) : option Icon :=
  if (type =? "Point")%string then Some MapPin
  else if (type =? "LineString")%string then Some LineChart
  else if (type =? "Polygon")%string then Some Square
  else None.

Record Row : Type := {
  key : string;
  highlighted : bool;
  icon : option Icon;
  label : string;
  description_shown : option string
}.

(** One [<div key={feature.id}>] of the list. *)
Definition row (selectedFeature : option Feature) (feature : Feature) : Row :=
  {| key := id feature;
     highlighted :=
       match selectedFeature with
       | Some s => (id s =? id feature)%string
       | None => false
       end;
     icon := getIcon (geometry_type (geometry feature));
     label := js_or (name (properties feature)) "Unnamed Feature";
     description_shown :=
       if (description (properties feature) =? "")%string then None
       else Some (description (properties feature)) |}.

Record View : Type := {
  header_count : nat;
  rows : list Row;
  empty_message : bool
}.

Definition render (features : list Feature) (selectedFeature : option Feature) : View :=
  {| header_count := List.length features;
     rows := map (row selectedFeature) features;
     empty_message := Nat.eqb (List.length features) 0 |}.

End FeatureList.

(** ** The mapbox-gl map, as the components use it

    The library is not part of the repository.  Its click listeners follow
    its [Evented] class: [on] appends a function object unless it is
    registered already, [off] removes the function object it is given, and a
    click calls the registered listeners in order.  Sources and layers are
    kept by id: adding a layer twice and removing an absent one change
    nothing.

    The functions below are those of a map whose style has loaded.  Until
    then [addSource] and [addLayer] throw ("Style is not done loading"),
    and no version of the component waits for the load; the sample runs
    are runs in which the style has loaded before the first click.
    [removeSource] throws when no source has the id it is given; the
    components reach it after [removeLayer] of the same id, and
    [MapComponent.handleFeatureDelete_call] gives the case in which
    [handleFeatureDelete] meets that exception. *)

Module Mapbox.

Section WithScope.
(** [Scope] is what a listener closure carries. *)
Variable Scope : Type.

(** A function object: its identity and the scope it closes over. *)
Record Listener : Type := { fn : nat; scope : Scope }.

Record Map : Type := {
  click_listeners : list Listener;
  sources : list string;
  layers : list string
}.

(** [new mapboxgl.Map(...)]: no click listener, no source or layer of the
    component's. *)
Definition new_Map : Map :=
  {| click_listeners := []; sources := []; layers := [] |}.

Definition same_fn (a b : Listener) : bool := Nat.eqb (fn a) (fn b).

Fixpoint remove_first (l : Listener) (ls : list Listener) : list Listener :=
  match ls with
  | [] => []
  | x :: rest => if same_fn l x then rest else x :: remove_first l rest
  end.

(** [map.on("click", l)]: a listener already registered is not added again. *)
Definition on_click (l : Listener) (m : Map) : Map :=
  let 'Build_Map ls srcs lyrs := m in
  Build_Map (if existsb (same_fn l) ls then ls else ls ++ [l]) srcs lyrs.

(** [map.off("click", l)]: removes that function object, when registered. *)
Definition off_click (l : Listener) (m : Map) : Map :=
  let 'Build_Map ls srcs lyrs := m in
  Build_Map (remove_first l ls) srcs lyrs.

(** [map.off("click")]: with no listener given, no registered listener
    matches and none is removed. *)
Definition off_click_no_listener (m : Map) : Map := m.

Definition getSource (s : string) (m : Map) : bool := mem_string s (sources m).
Definition getLayer (s : string) (m : Map) : bool := mem_string s (layers m).

Definition addSource (s : string) (m : Map) : Map :=
  let 'Build_Map ls srcs lyrs := m in
  Build_Map ls (srcs ++ [s]) lyrs.

(** [map.addLayer({id, source: sourceId, ...})]; a layer id already present
    is reported on the map's error event and nothing is added. *)
Definition addLayer (s : string) (m : Map) : Map :=
  let 'Build_Map ls srcs lyrs := m in
  Build_Map ls srcs (if mem_string s lyrs then lyrs else lyrs ++ [s]).

(** [map.addLayer({id, source: {type: "geojson", data}, ...})]: the inline
    source is registered under the layer's id. *)
Definition addLayer_inline (s : string) (m : Map) : Map :=
  let 'Build_Map ls srcs lyrs := m in
  if mem_string s lyrs then m
  else Build_Map ls (srcs ++ [s]) (lyrs ++ [s]).

Definition removeLayer (s : string) (m : Map) : Map :=
  let 'Build_Map ls srcs lyrs := m in
  Build_Map ls srcs (remove_string s lyrs).

Definition removeSource (s : string) (m : Map) : Map :=
  let 'Build_Map ls srcs lyrs := m in
  Build_Map ls (remove_string s srcs) lyrs.
End WithScope.

Arguments new_Map {Scope}.

End Mapbox.

(** ** [MapComponent.tsx] *)

Module MapComponent.
Import GeoJSON.

(** What the closures of one render read directly. *)
Record Scope : Type := {
  scope_drawingMode : option Tool;
  scope_features : list Feature;
  scope_linePoints : list LngLat;
  scope_polygonPoints : list LngLat
}.

Definition Listener : Type := Mapbox.Listener Scope.
Definition Map : Type := Mapbox.Map Scope.

(** The [useState] cells and the [map] ref of the component, and the
    bookkeeping of the run time: the last run of the [[drawingMode]] effect
    (its dependency and the listener its cleanup removes), the number of
    function objects created and the number of calls made to [uuidv4].
    The cells of the map view and of the search box ([lng], [lat], [zoom],
    [searchQuery], ...) are left out: no function below reads them. *)
Record State : Type := {
  map_current : option Map;
  drawingMode : option Tool;
  currentFeature : option Feature;
  features : list Feature;
  selectedFeature : option Feature;
  showProperties : bool;
  linePoints : list LngLat;
  polygonPoints : list LngLat;
  effect_deps : option Tool;
  effect_cleanup : option Listener;
  fn_count : nat;
  uuid_count : nat
}.

Definition scope_of (st : State) : Scope :=
  {| scope_drawingMode := drawingMode st;
     scope_features := features st;
     scope_linePoints := linePoints st;
     scope_polygonPoints := polygonPoints st |}.

(** The state of the first render, before any effect has run. *)
Definition initial : State :=
  {| map_current := None; drawingMode := None; currentFeature := None;
     features := []; selectedFeature := None; showProperties := false;
     linePoints := []; polygonPoints := [];
     effect_deps := None; effect_cleanup := None;
     fn_count := 0; uuid_count := 0 |}.

(** *** Writing one cell *)

Definition set_map (m : option Map) (st : State) : State :=
  let 'Build_State _ dm cf fs sf sp lp pp ed ec fc uc := st in
  Build_State m dm cf fs sf sp lp pp ed ec fc uc.

Definition setDrawingMode (v : option Tool) (st : State) : State :=
  let 'Build_State m _ cf fs sf sp lp pp ed ec fc uc := st in
  Build_State m v cf fs sf sp lp pp ed ec fc uc.

Definition setCurrentFeature (v : option Feature) (st : State) : State :=
  let 'Build_State m dm _ fs sf sp lp pp ed ec fc uc := st in
  Build_State m dm v fs sf sp lp pp ed ec fc uc.

Definition setFeatures (u : list Feature -> list Feature) (st : State) : State :=
  let 'Build_State m dm cf fs sf sp lp pp ed ec fc uc := st in
  Build_State m dm cf (u fs) sf sp lp pp ed ec fc uc.

Definition setSelectedFeature (v : option Feature) (st : State) : State :=
  let 'Build_State m dm cf fs _ sp lp pp ed ec fc uc := st in
  Build_State m dm cf fs v sp lp pp ed ec fc uc.

Definition setShowProperties (v : bool) (st : State) : State :=
  let 'Build_State m dm cf fs sf _ lp pp ed ec fc uc := st in
  Build_State m dm cf fs sf v lp pp ed ec fc uc.

Definition setLinePoints (u : list LngLat -> list LngLat) (st : State) : State :=
  let 'Build_State m dm cf fs sf sp lp pp ed ec fc uc := st in
  Build_State m dm cf fs sf sp (u lp) pp ed ec fc uc.

Definition setPolygonPoints (u : list LngLat -> list LngLat) (st : State) : State :=
  let 'Build_State m dm cf fs sf sp lp pp ed ec fc uc := st in
  Build_State m dm cf fs sf sp lp (u pp) ed ec fc uc.

Definition set_effect (deps : option Tool) (cleanup : option Listener)
    (st : State) : State :=
  let 'Build_State m dm cf fs sf sp lp pp _ _ fc uc := st in
  Build_State m dm cf fs sf sp lp pp deps cleanup fc uc.

Definition set_counts (fns uuids : nat) (st : State) : State :=
  let 'Build_State m dm cf fs sf sp lp pp ed ec _ _ := st in
  Build_State m dm cf fs sf sp lp pp ed ec fns uuids.

(** [map.current.f(...)] where [map.current] is known to be set. *)
Definition on_map (f : Map -> Map) (st : State) : State :=
  match map_current st with
  | Some m => set_map (Some (f m)) st
  | None => st
  end.

(** A new function object closing over the current render. *)
Definition new_listener (st : State) : Listener * State :=
  ({| Mapbox.fn := fn_count st; Mapbox.scope := scope_of st |},
   set_counts (S (fn_count st)) (uuid_count st) st).

Section WithUuid.
(** [uuidv4 k] is what the [k]-th call of [uuidv4()] returns. *)
Variable uuidv4 : nat -> string.

Definition call_uuidv4 (st : State) : string * State :=
  (uuidv4 (uuid_count st), set_counts (fn_count st) (S (uuid_count st)) st).

(** [addSource] and [addLayer] as the three [add...] functions guard them. *)
Definition add_to_map (sourceId layerId : string) (m : Map) : Map :=
  let m1 := if Mapbox.getSource sourceId m then m else Mapbox.addSource sourceId m in
  if Mapbox.getLayer layerId m1 then m1 else Mapbox.addLayer layerId m1.

Definition addPoint (sc : Scope) (e : MapMouseEvent) (st : State) : State :=
  match map_current st with
  | Some _ =>
      let c := lngLat e in
      let (featureId, st1) := call_uuidv4 st in
      let sourceId := ("source-" ++ featureId)%string in
      let layerId := ("layer-" ++ featureId)%string in
      let feature :=
        {| id := featureId;
           geometry := Point c;
           properties :=
             {| name := ("Point " ++ decimal (List.length (scope_features sc) + 1))%string;
                description := "New point feature" |} |} in
      let st2 := setFeatures (fun prev => prev ++ [feature]) st1 in
      on_map (add_to_map sourceId layerId) st2
  | None => st
  end.

Definition addLinePoint (sc : Scope) (e : MapMouseEvent) (st : State) : State :=
  match map_current st with
  | Some _ =>
      let coordinates := lngLat e in
      let st0 := setLinePoints (fun prev => prev ++ [coordinates]) st in
      if 0 <? List.length (scope_linePoints sc) then
        let (featureId, st1) := call_uuidv4 st0 in
        let sourceId := ("source-" ++ featureId)%string in
        let layerId := ("layer-" ++ featureId)%string in
        let feature :=
          {| id := featureId;
             geometry := LineString (scope_linePoints sc ++ [coordinates]);
             properties :=
               {| name := ("Line " ++ decimal (List.length (scope_features sc) + 1))%string;
                  description := "New line feature" |} |} in
        let st2 := setFeatures (fun prev => prev ++ [feature]) st1 in
        on_map (add_to_map sourceId layerId) st2
      else st0
  | None => st
  end.

Definition addPolygonPoint (sc : Scope) (e : MapMouseEvent) (st : State) : State :=
  match map_current st with
  | Some _ =>
      let coordinates := lngLat e in
      let st0 := setPolygonPoints (fun prev => prev ++ [coordinates]) st in
      if 0 <? List.length (scope_polygonPoints sc) then
        let (featureId, st1) := call_uuidv4 st0 in
        let sourceId := ("source-" ++ featureId)%string in
        let layerId := ("layer-" ++ featureId)%string in
        let feature :=
          {| id := featureId;
             geometry := Polygon [scope_polygonPoints sc ++ [coordinates]];
             properties :=
               {| name := ("Polygon " ++ decimal (List.length (scope_features sc) + 1))%string;
                  description := "New polygon feature" |} |} in
        let st2 := setFeatures (fun prev => prev ++ [feature]) st1 in
        on_map (add_to_map sourceId layerId) st2
      else st0
  | None => st
  end.

(** The body shared by [handleMapClick] and [handleDrawingClick]; [sc] is
    the render the function object was created in. *)
Definition handleDrawingClick (sc : Scope) (e : MapMouseEvent) (st : State) : State :=
  match scope_drawingMode sc, map_current st with
  | Some tool, Some _ =>
      match tool with
      | point => addPoint sc e st
      | line => addLinePoint sc e st
      | polygon => addPolygonPoint sc e st
      end
  | _, _ => st
  end.

Definition call_listener (e : MapMouseEvent) (st : State) (l : Listener) : State :=
  handleDrawingClick (Mapbox.scope l) e st.

(** The [[drawingMode]] effect after a render: nothing when the dependency
    is unchanged; otherwise the cleanup of the last run, then the effect. *)
Definition run_effects (st : State) : State :=
  if deps_same (drawingMode st) (effect_deps st) then st
  else
    let st1 :=
      match effect_cleanup st with
      | Some l => on_map (Mapbox.off_click l) st
      | None => st
      end in
    match map_current st1 with
    | None => set_effect (drawingMode st1) None st1
    | Some _ =>
        let (l, st2) := new_listener st1 in
        let st3 := on_map (Mapbox.off_click l) st2 in
        let st4 := on_map (Mapbox.on_click l) st3 in
        set_effect (drawingMode st4) (Some l) st4
    end.

(** Mounting: the first effect creates the map and registers
    [handleMapClick]; the second registers [handleDrawingClick]. *)
Definition mount (st : State) : State :=
  let st1 :=
    match map_current st with
    | Some _ => st
    | None =>
        let (l, st') := new_listener st in
        set_map (Some (Mapbox.on_click l Mapbox.new_Map)) st'
    end in
  match map_current st1 with
  | None => set_effect (drawingMode st1) None st1
  | Some _ =>
      let (l, st2) := new_listener st1 in
      let st3 := on_map (Mapbox.off_click l) st2 in
      let st4 := on_map (Mapbox.on_click l) st3 in
      set_effect (drawingMode st4) (Some l) st4
  end.

(** One click on the map: mapbox calls the listeners registered at that
    moment, in order; React then renders again. *)
Definition click (e : MapMouseEvent) (st : State) : State :=
  match map_current st with
  | None => st
  | Some m => run_effects (fold_left (call_listener e) (Mapbox.click_listeners m) st)
  end.

Definition handleToolSelect (tool : option Tool) (st : State) : State :=
  run_effects (setCurrentFeature None (setDrawingMode tool st)).
End WithUuid.

(** The body of [handleMapClick] and [handleDrawingClick] on an event that
    has no [lngLat]: past the guard [e.lngLat.lng] is read, a [TypeError],
    and nothing has been written by then. *)
Definition handleDrawingClick_without_lngLat (sc : Scope) (st : State)
    : completion State :=
  match scope_drawingMode sc, map_current st with
  | Some _, Some _ => Throw TypeError
  | _, _ => Normal st
  end.

(** [map.fire("click", {})]: the registered listeners are called in order;
    the exception of a listener leaves [fire], which catches none. *)
Definition click_without_lngLat (st : State) : completion State :=
  match map_current st with
  | None => Normal st
  | Some m =>
      st' <- fold_left
               (fun (c : completion State) (l : Listener) =>
                  s <- c ;; handleDrawingClick_without_lngLat (Mapbox.scope l) s)
               (Mapbox.click_listeners m) (Normal st) ;;
      Normal (run_effects st')
  end.

(** [clearAll]: the layer of a feature is looked up under the feature's id. *)
Definition clearAll (st : State) : State :=
  match map_current st with
  | None => st
  | Some _ =>
      let remove_layers (s : State) (feature : Feature) : State :=
        let featureId := id feature in
        on_map (fun m =>
                  if negb (featureId =? "")%string && Mapbox.getLayer featureId m
                  then Mapbox.removeSource featureId (Mapbox.removeLayer featureId m)
                  else m) s in
      let st1 := fold_left remove_layers (features st) st in
      run_effects (setDrawingMode None (setFeatures (fun _ => []) st1))
  end.

(** [removeFeature]: [features[index]] is [undefined] past the end, and
    reading its [id] throws. *)
Definition removeFeature (index : nat) (st : State) : completion State :=
  match map_current st with
  | None => Normal st
  | Some _ =>
      match nth_error (features st) index with
      | None => Throw TypeError
      | Some feature =>
          let featureId := id feature in
          let st1 :=
            on_map (fun m =>
                      if negb (featureId =? "")%string && Mapbox.getLayer featureId m
                      then Mapbox.removeSource featureId (Mapbox.removeLayer featureId m)
                      else m) st in
          Normal (run_effects (setFeatures (filter_index index) st1))
      end
  end.

Definition handleFeatureSelect (feature : Feature) (st : State) : State :=
  run_effects (setShowProperties true (setSelectedFeature (Some feature) st)).

(** [selectedFeature?.id?.toString() === id] *)
Definition selected_is (id0 : string) (st : State) : bool :=
  match selectedFeature st with
  | Some f => (id f =? id0)%string
  | None => false
  end.

Definition handleFeatureDelete (id0 : string) (st : State) : State :=
  match map_current st with
  | None => st
  | Some _ =>
      let st1 :=
        on_map (fun m =>
                  if Mapbox.getLayer id0 m
                  then Mapbox.removeSource id0 (Mapbox.removeLayer id0 m)
                  else m) st in
      let st2 := setFeatures (filter (fun f => negb (id f =? id0)%string)) st1 in
      run_effects
        (if selected_is id0 st
         then setShowProperties false (setSelectedFeature None st2)
         else st2)
  end.

(** [handleFeatureDelete] as a call that can throw.  [removeSource(id)] is
    reached when [id] names a layer, and mapbox-gl throws an [Error] ("There
    is no source with this ID") when no source has that id; the layers of
    this component are called ["layer-..."] and its sources ["source-..."].
    [handleFeatureDelete] above is the state the call leaves when it
    returns. *)
Definition handleFeatureDelete_call (id0 : string) (st : State) : completion State :=
  match map_current st with
  | None => Normal st
  | Some m =>
      if Mapbox.getLayer id0 m && negb (Mapbox.getSource id0 (Mapbox.removeLayer id0 m))
      then Throw Error
      else Normal (handleFeatureDelete id0 st)
  end.

(** [handleFeatureUpdate].  Every source this component registers holds one
    feature, so on a source named ["features"] [currentData.features] would
    be [undefined] and mapping over it throws. *)
Definition handleFeatureUpdate (updatedFeature : Feature) (st : State)
    : completion State :=
  match map_current st with
  | None => Normal st
  | Some m =>
      if (id updatedFeature =? "")%string then Normal st
      else if Mapbox.getSource "features" m then Throw TypeError
      else
        let st1 :=
          setFeatures
            (map (fun f =>
                    if (id f =? id updatedFeature)%string
                    then with_properties f (properties updatedFeature)
                    else f)) st in
        Normal (run_effects (setShowProperties false (setSelectedFeature None st1)))
  end.

(** The [onClose] the component hands to the edit form. *)
Definition onClose (st : State) : State :=
  run_effects (setSelectedFeature None (setShowProperties false st)).

(** The Save button of the edit form, which is on screen when
    [showProperties && selectedFeature]. *)
Definition save (name description : string) (st : State) : completion State :=
  if showProperties st
  then FeatureProperties.handleSave handleFeatureUpdate onClose
         (selectedFeature st) name description st
  else Normal st.

(** What a call of a handler hands back to its caller: every handler of the
    component is a function without return value. *)
Definition returned (c : completion State) : option undefined :=
  match c with
  | Normal _ => Some Undefined
  | Throw _ => None
  end.

End MapComponent.

(** ** [page.tsx] *)

Module Home.
Import GeoJSON.

Record State : Type := {
  features : list Feature;
  selectedFeature : option string
}.

Definition initial : State := {| features := []; selectedFeature := None |}.

Definition handleFeatureSelect (id0 : string) (st : State) : State :=
  {| features := features st; selectedFeature := Some id0 |}.

(** [selectedFeature === id] *)
Definition selected_is (id0 : string) (st : State) : bool :=
  match selectedFeature st with
  | Some s => (s =? id0)%string
  | None => false
  end.

Definition handleFeatureDelete (id0 : string) (st : State) : State :=
  {| features := filter (fun f => negb (id f =? id0)%string) (features st);
     selectedFeature := if selected_is id0 st then None else selectedFeature st |}.

Definition handleFeatureAdd (feature : Feature) (st : State) : State :=
  {| features := features st ++ [feature]; selectedFeature := selectedFeature st |}.

End Home.

(** ** The two earlier versions of the map component

    What the two versions share: the [MapFeature] record, the cells, and
    [addLinePoint], [addPolygonPoint], [handleToolSelect] and [clearAll],
    which read the same in both (the later version adds tests of
    [map.current] and of the source that cannot fail where they stand).
    Their selection and edit code is not modelled. *)

Module Drafts.

(** [MapFeature]: [{type, coordinates, id}].  The tag fixes the shape of
    [coordinates]: every ['point'] is built with one position and every
    ['line'] and ['polygon'] with an array of positions. *)
Inductive MapFeature : Type :=
| point_feature (coordinates : LngLat) (id : string)
| line_feature (coordinates : list LngLat) (id : string)
| polygon_feature (coordinates : list LngLat) (id : string).

Definition type (f : MapFeature) : Tool :=
  match f with
  | point_feature _ _ => point
  | line_feature _ _ => line
  | polygon_feature _ _ => polygon
  end.

Definition id (f : MapFeature) : string :=
  match f with
  | point_feature _ i | line_feature _ i | polygon_feature _ i => i
  end.

(** The positions of a feature, one for a point. *)
Definition coordinates (f : MapFeature) : list LngLat :=
  match f with
  | point_feature c _ => [c]
  | line_feature cs _ | polygon_feature cs _ => cs
  end.

(** A listener of these versions reads only [drawingMode] from its render. *)
Definition Listener : Type := Mapbox.Listener (option Tool).
Definition Map : Type := Mapbox.Map (option Tool).

Record State : Type := {
  map_current : option Map;
  drawingMode : option Tool;
  currentFeature : option GeoJSON.Feature;
  features : list MapFeature;
  effect_deps : option Tool;
  effect_cleanup : option Listener;
  fn_count : nat;
  uuid_count : nat
}.

Definition initial : State :=
  {| map_current := None; drawingMode := None; currentFeature := None;
     features := []; effect_deps := None; effect_cleanup := None;
     fn_count := 0; uuid_count := 0 |}.

Definition set_map (m : option Map) (st : State) : State :=
  let 'Build_State _ dm cf fs ed ec fc uc := st in
  Build_State m dm cf fs ed ec fc uc.

Definition setDrawingMode (v : option Tool) (st : State) : State :=
  let 'Build_State m _ cf fs ed ec fc uc := st in
  Build_State m v cf fs ed ec fc uc.

Definition setCurrentFeature (v : option GeoJSON.Feature) (st : State) : State :=
  let 'Build_State m dm _ fs ed ec fc uc := st in
  Build_State m dm v fs ed ec fc uc.

Definition set_features (fs : list MapFeature) (st : State) : State :=
  let 'Build_State m dm cf _ ed ec fc uc := st in
  Build_State m dm cf fs ed ec fc uc.

Definition set_effect (deps : option Tool) (cleanup : option Listener)
    (st : State) : State :=
  let 'Build_State m dm cf fs _ _ fc uc := st in
  Build_State m dm cf fs deps cleanup fc uc.

Definition set_counts (fns uuids : nat) (st : State) : State :=
  let 'Build_State m dm cf fs ed ec _ _ := st in
  Build_State m dm cf fs ed ec fns uuids.

Definition on_map (f : Map -> Map) (st : State) : State :=
  match map_current st with
  | Some m => set_map (Some (f m)) st
  | None => st
  end.

Definition new_listener (st : State) : Listener * State :=
  ({| Mapbox.fn := fn_count st; Mapbox.scope := drawingMode st |},
   set_counts (S (fn_count st)) (uuid_count st) st).

(** [setFeatures(prev => ...)] where the updater also calls the map: the
    updater gets the latest [features] and the map, and gives both back. *)
Definition setFeatures (u : list MapFeature -> option Map -> list MapFeature * option Map)
    (st : State) : State :=
  let (fs, m) := u (features st) (map_current st) in
  set_map m (set_features fs st).

(** [map.current?.f(...)] inside an updater. *)
Definition opt_map (f : Map -> Map) (m : option Map) : option Map :=
  match m with
  | Some x => Some (f x)
  | None => None
  end.

(** [map.current?.getLayer(id)] *)
Definition opt_getLayer (s : string) (m : option Map) : bool :=
  match m with
  | Some x => Mapbox.getLayer s x
  | None => false
  end.

(** The updater of [addLinePoint]; [now] is what [Date.now()] returns.  When
    the layer of the last feature exists its source gets the new data and
    no layer is added. *)
Definition addLinePoint_updater (now : N) (coordinates : LngLat)
    (prev : list MapFeature) (m : option Map) : list MapFeature * option Map :=
  match last_element prev with
  | Some (line_feature last_coordinates last_id) =>
      let lineCoordinates := last_coordinates ++ [coordinates] in
      let featureId := ("line-" ++ decimalN now)%string in
      let m1 :=
        if opt_getLayer last_id m then m
        else opt_map (Mapbox.addLayer_inline featureId) m in
      (slice_0_minus1 prev ++ [line_feature lineCoordinates featureId], m1)
  | _ =>
      let featureId := ("line-" ++ decimalN now)%string in
      (prev ++ [line_feature [coordinates] featureId],
       opt_map (Mapbox.addLayer_inline featureId) m)
  end.

Definition addPolygonPoint_updater (now : N) (coordinates : LngLat)
    (prev : list MapFeature) (m : option Map) : list MapFeature * option Map :=
  match last_element prev with
  | Some (polygon_feature last_coordinates last_id) =>
      let polygonCoordinates := last_coordinates ++ [coordinates] in
      let featureId := ("polygon-" ++ decimalN now)%string in
      let m1 :=
        if opt_getLayer last_id m then m
        else opt_map (Mapbox.addLayer_inline featureId) m in
      (slice_0_minus1 prev ++ [polygon_feature polygonCoordinates featureId], m1)
  | _ =>
      let featureId := ("polygon-" ++ decimalN now)%string in
      (prev ++ [polygon_feature [coordinates] featureId],
       opt_map (Mapbox.addLayer_inline featureId) m)
  end.

Definition addLinePoint (now : N) (coordinates : LngLat) (st : State) : State :=
  match map_current st with
  | None => st
  | Some _ => setFeatures (addLinePoint_updater now coordinates) st
  end.

Definition addPolygonPoint (now : N) (coordinates : LngLat) (st : State) : State :=
  match map_current st with
  | None => st
  | Some _ => setFeatures (addPolygonPoint_updater now coordinates) st
  end.

Definition handleToolSelect_cells (tool : option Tool) (st : State) : State :=
  setCurrentFeature None (setDrawingMode tool st).

(** [clearAll], before the render that follows it. *)
Definition clearAll_cells (st : State) : State :=
  match map_current st with
  | None => st
  | Some _ =>
      let remove_layers (s : State) (feature : MapFeature) : State :=
        on_map (fun m =>
                  if negb (id feature =? "")%string && Mapbox.getLayer (id feature) m
                  then Mapbox.removeSource (id feature) (Mapbox.removeLayer (id feature) m)
                  else m) s in
      let st1 := fold_left remove_layers (features st) st in
      setDrawingMode None (set_features [] st1)
  end.

(** [removeFeature], before the render that follows it: [features[index]]
    is [undefined] past the end, and reading its [id] throws. *)
Definition removeFeature_cells (index : nat) (st : State) : completion State :=
  match map_current st with
  | None => Normal st
  | Some _ =>
      match nth_error (features st) index with
      | None => Throw TypeError
      | Some feature =>
          let st1 :=
            on_map (fun m =>
                      if negb (id feature =? "")%string && Mapbox.getLayer (id feature) m
                      then Mapbox.removeSource (id feature) (Mapbox.removeLayer (id feature) m)
                      else m) st in
          Normal (set_features (filter_index index (features st1)) st1)
      end
  end.

End Drafts.

(** *** The version with [MapFeature] records and [uuidv4] point ids *)

Module Draft2.
Import Drafts.

Section WithUuid.
Variable uuidv4 : nat -> string.

Definition addPoint (coordinates : LngLat) (st : State) : State :=
  match map_current st with
  | None => st
  | Some _ =>
      let featureId := uuidv4 (uuid_count st) in
      let st1 := set_counts (fn_count st) (S (uuid_count st)) st in
      let st2 := on_map (Mapbox.addLayer_inline featureId) st1 in
      set_features (features st2 ++ [point_feature coordinates featureId]) st2
  end.

(** The body of [handleMapClick] and of [handleDrawingClick]. *)
Definition handleDrawingClick (scope_drawingMode : option Tool) (now : N)
    (e : MapMouseEvent) (st : State) : State :=
  match scope_drawingMode, map_current st with
  | Some tool, Some _ =>
      let coordinates := lngLat e in
      match tool with
      | point => addPoint coordinates st
      | line => addLinePoint now coordinates st
      | polygon => addPolygonPoint now coordinates st
      end
  | _, _ => st
  end.

Definition call_listener (now : N) (e : MapMouseEvent) (st : State)
    (l : Listener) : State :=
  handleDrawingClick (Mapbox.scope l) now e st.
End WithUuid.

(** The [[drawingMode]] effect: its cleanup removes the listener of its
    last run. *)
Definition run_effects (st : State) : State :=
  if deps_same (drawingMode st) (effect_deps st) then st
  else
    let st1 :=
      match effect_cleanup st with
      | Some l => on_map (Mapbox.off_click l) st
      | None => st
      end in
    match map_current st1 with
    | None => set_effect (drawingMode st1) None st1
    | Some _ =>
        let (l, st2) := new_listener st1 in
        let st3 := on_map (Mapbox.off_click l) st2 in
        let st4 := on_map (Mapbox.on_click l) st3 in
        set_effect (drawingMode st4) (Some l) st4
    end.

Definition mount (st : State) : State :=
  let st1 :=
    match map_current st with
    | Some _ => st
    | None =>
        let (l, st') := new_listener st in
        set_map (Some (Mapbox.on_click l Mapbox.new_Map)) st'
    end in
  match map_current st1 with
  | None => set_effect (drawingMode st1) None st1
  | Some _ =>
      let (l, st2) := new_listener st1 in
      let st3 := on_map (Mapbox.off_click l) st2 in
      let st4 := on_map (Mapbox.on_click l) st3 in
      set_effect (drawingMode st4) (Some l) st4
  end.

Definition click (uuidv4 : nat -> string) (now : N) (e : MapMouseEvent)
    (st : State) : State :=
  match map_current st with
  | None => st
  | Some m =>
      run_effects (fold_left (call_listener uuidv4 now e) (Mapbox.click_listeners m) st)
  end.

Definition handleToolSelect (tool : option Tool) (st : State) : State :=
  run_effects (handleToolSelect_cells tool st).

Definition clearAll (st : State) : State := run_effects (clearAll_cells st).

Definition removeFeature (index : nat) (st : State) : completion State :=
  st1 <- removeFeature_cells index st ;; Normal (run_effects st1).

End Draft2.

(** *** The earliest version, with [Date.now()] ids and two [[drawingMode]] effects *)

Module Draft1.
Import Drafts.

Definition addPoint (now : N) (coordinates : LngLat) (st : State) : State :=
  match map_current st with
  | None => st
  | Some _ =>
      let featureId := ("point-" ++ decimalN now)%string in
      let st1 := on_map (Mapbox.addLayer_inline featureId) st in
      set_features (features st1 ++ [point_feature coordinates featureId]) st1
  end.

(** The body of the three click handlers of this version. *)
Definition handleClick (scope_drawingMode : option Tool) (now : N)
    (e : MapMouseEvent) (st : State) : State :=
  match scope_drawingMode, map_current st with
  | Some tool, Some _ =>
      let coordinates := lngLat e in
      match tool with
      | point => addPoint now coordinates st
      | line => addLinePoint now coordinates st
      | polygon => addPolygonPoint now coordinates st
      end
  | _, _ => st
  end.

Definition call_listener (now : N) (e : MapMouseEvent) (st : State)
    (l : Listener) : State :=
  handleClick (Mapbox.scope l) now e st.

(** The second effect: [off('click')], then an anonymous listener; it
    returns no cleanup. *)
Definition drawing_mode_effect (st : State) : State :=
  match map_current st with
  | None => st
  | Some _ =>
      let st1 := on_map (@Mapbox.off_click_no_listener _) st in
      let (l, st2) := new_listener st1 in
      on_map (Mapbox.on_click l) st2
  end.

(** The third effect: [off('click')], then [handleClick], which its cleanup
    removes. *)
Definition tool_switching_effect (st : State) : State :=
  match map_current st with
  | None => set_effect (drawingMode st) None st
  | Some _ =>
      let (l, st1) := new_listener st in
      let st2 := on_map (@Mapbox.off_click_no_listener _) st1 in
      let st3 := on_map (Mapbox.on_click l) st2 in
      set_effect (drawingMode st3) (Some l) st3
  end.

(** After a render in which [drawingMode] changed: the cleanups of the last
    run, then the two effects in the order of the source. *)
Definition run_effects (st : State) : State :=
  if deps_same (drawingMode st) (effect_deps st) then st
  else
    let st1 :=
      match effect_cleanup st with
      | Some l => on_map (Mapbox.off_click l) st
      | None => st
      end in
    tool_switching_effect (drawing_mode_effect st1).

Definition mount (st : State) : State :=
  let st1 :=
    match map_current st with
    | Some _ => st
    | None =>
        let (l, st') := new_listener st in
        set_map (Some (Mapbox.on_click l Mapbox.new_Map)) st'
    end in
  tool_switching_effect (drawing_mode_effect st1).

(** One click; [now] is the millisecond [Date.now()] shows while the
    listeners run. *)
Definition click (now : N) (e : MapMouseEvent) (st : State) : State :=
  match map_current st with
  | None => st
  | Some m =>
      run_effects (fold_left (call_listener now e) (Mapbox.click_listeners m) st)
  end.

Definition handleToolSelect (tool : option Tool) (st : State) : State :=
  run_effects (handleToolSelect_cells tool st).

Definition clearAll (st : State) : State := run_effects (clearAll_cells st).

Definition removeFeature (index : nat) (st : State) : completion State :=
  st1 <- removeFeature_cells index st ;; Normal (run_effects st1).

End Draft1.

(** * Vocabulary of the properties *)

(** [f.id !== id0] on a GeoJSON feature *)
Definition other_id (id0 : string) (f : GeoJSON.Feature) : bool :=
  negb (GeoJSON.id f =? id0)%string.

(** The outcome the specification lets a caller of update and delete tell
    apart. *)
Inductive Outcome : Type := Done | NotFound.

(** The cells of [MapComponent] a render and its effects do not write. *)
Definition same_cells (a b : MapComponent.State) : Prop :=
  MapComponent.features a = MapComponent.features b /\
  MapComponent.selectedFeature a = MapComponent.selectedFeature b /\
  MapComponent.showProperties a = MapComponent.showProperties b /\
  MapComponent.linePoints a = MapComponent.linePoints b /\
  MapComponent.polygonPoints a = MapComponent.polygonPoints b /\
  MapComponent.drawingMode a = MapComponent.drawingMode b /\
  MapComponent.uuid_count a = MapComponent.uuid_count b.

(** [MapComponent] between two events, once mounted: the map holds two click
    listeners, the one of the mount effect, whose render had no tool, and the
    one of the last run of the [[drawingMode]] effect, whose render [sc] had
    the tool the component has now. *)
Definition bound (tool : option Tool) (sc : MapComponent.Scope)
    (st : MapComponent.State) : Prop :=
  exists m l0 l1,
    MapComponent.map_current st = Some m /\
    Mapbox.click_listeners m = [l0; l1] /\
    MapComponent.scope_drawingMode (Mapbox.scope l0) = None /\
    Mapbox.scope l1 = sc /\
    MapComponent.scope_drawingMode sc = tool /\
    MapComponent.drawingMode st = tool /\
    MapComponent.effect_deps st = tool /\
    MapComponent.effect_cleanup st = Some l1 /\
    Mapbox.fn l0 <> Mapbox.fn l1 /\
    Mapbox.fn l0 < MapComponent.fn_count st /\
    Mapbox.fn l1 < MapComponent.fn_count st.

(** The same for the version with [MapFeature] records, whose listeners
    close over [drawingMode] alone. *)
Definition drafts_bound (tool : option Tool) (st : Drafts.State) : Prop :=
  exists m l0 l1,
    Drafts.map_current st = Some m /\
    Mapbox.click_listeners m = [l0; l1] /\
    Mapbox.scope l0 = None /\
    Mapbox.scope l1 = tool /\
    Drafts.drawingMode st = tool /\
    Drafts.effect_deps st = tool /\
    Drafts.effect_cleanup st = Some l1 /\
    Mapbox.fn l0 <> Mapbox.fn l1 /\
    Mapbox.fn l0 < Drafts.fn_count st /\
    Mapbox.fn l1 < Drafts.fn_count st.

(** The states that version reaches from its mount by tool selections and
    map clicks, each click with the time it is handled at. *)
Inductive draft2_run (uuidv4 : nat -> string) : Drafts.State -> Prop :=
| draft2_run_mount :
    draft2_run uuidv4 (Draft2.mount Drafts.initial)
| draft2_run_handleToolSelect (tool : option Tool) (st : Drafts.State) :
    draft2_run uuidv4 st ->
    draft2_run uuidv4 (Draft2.handleToolSelect tool st)
| draft2_run_click (now : N) (e : MapMouseEvent) (st : Drafts.State) :
    draft2_run uuidv4 st ->
    draft2_run uuidv4 (Draft2.click uuidv4 now e st).

(** The click listeners on the map of a state. *)
Definition listeners_of (st : MapComponent.State) : list MapComponent.Listener :=
  match MapComponent.map_current st with
  | Some m => Mapbox.click_listeners m
  | None => []
  end.

(** The cells and bookkeeping a click handler does not write. *)
Definition same_binding (a b : MapComponent.State) : Prop :=
  listeners_of a = listeners_of b /\
  (MapComponent.map_current a = None <-> MapComponent.map_current b = None) /\
  MapComponent.drawingMode a = MapComponent.drawingMode b /\
  MapComponent.effect_deps a = MapComponent.effect_deps b /\
  MapComponent.effect_cleanup a = MapComponent.effect_cleanup b /\
  MapComponent.fn_count a = MapComponent.fn_count b /\
  MapComponent.selectedFeature a = MapComponent.selectedFeature b /\
  MapComponent.showProperties a = MapComponent.showProperties b.

(** The states [MapComponent] reaches from its mount by tool selections and
    map clicks. *)
Inductive drawing_run (uuidv4 : nat -> string) : MapComponent.State -> Prop :=
| run_mount :
    drawing_run uuidv4 (MapComponent.mount MapComponent.initial)
| run_handleToolSelect (tool : option Tool) (st : MapComponent.State) :
    drawing_run uuidv4 st ->
    drawing_run uuidv4 (MapComponent.handleToolSelect tool st)
| run_click (e : MapMouseEvent) (st : MapComponent.State) :
    drawing_run uuidv4 st ->
    drawing_run uuidv4 (MapComponent.click uuidv4 e st).

(** The layers and the sources on the map of a state. *)
Definition layers_of (st : MapComponent.State) : list string :=
  match MapComponent.map_current st with
  | Some m => Mapbox.layers m
  | None => []
  end.

Definition sources_of (st : MapComponent.State) : list string :=
  match MapComponent.map_current st with
  | Some m => Mapbox.sources m
  | None => []
  end.

(** The listeners and the bookkeeping of the [[drawingMode]] effect, which
    only a run of the effect writes. *)
Definition same_listeners (a b : MapComponent.State) : Prop :=
  listeners_of a = listeners_of b /\
  (MapComponent.map_current a = None <-> MapComponent.map_current b = None) /\
  MapComponent.effect_deps a = MapComponent.effect_deps b /\
  MapComponent.effect_cleanup a = MapComponent.effect_cleanup b /\
  MapComponent.fn_count a = MapComponent.fn_count b.

(** [uuidv4] never returns the same string twice. *)
Definition distinct_uuids (uuidv4 : nat -> string) : Prop :=
  forall j k, uuidv4 j = uuidv4 k -> j = k.

(** [s] is [prefix] followed by the result of a call of [uuidv4] the
    component has made. *)
Definition issued (uuidv4 : nat -> string) (st : MapComponent.State)
    (prefix s : string) : Prop :=
  exists k, k < MapComponent.uuid_count st /\ s = (prefix ++ uuidv4 k)%string.

(** The states [MapComponent] reaches from a state [st0] by any of its
    handlers: tool selections, map clicks, selecting a feature of the list,
    deleting by id, saving or closing the edit form, [clearAll] and
    [removeFeature]. *)
Inductive ui_from (uuidv4 : nat -> string) (st0 : MapComponent.State)
    : MapComponent.State -> Prop :=
| ui_start :
    ui_from uuidv4 st0 st0
| ui_handleToolSelect (tool : option Tool) (st : MapComponent.State) :
    ui_from uuidv4 st0 st ->
    ui_from uuidv4 st0 (MapComponent.handleToolSelect tool st)
| ui_click (e : MapMouseEvent) (st : MapComponent.State) :
    ui_from uuidv4 st0 st ->
    ui_from uuidv4 st0 (MapComponent.click uuidv4 e st)
| ui_handleFeatureSelect (f : GeoJSON.Feature) (st : MapComponent.State) :
    ui_from uuidv4 st0 st ->
    In f (MapComponent.features st) ->
    ui_from uuidv4 st0 (MapComponent.handleFeatureSelect f st)
| ui_handleFeatureDelete (id0 : string) (st : MapComponent.State) :
    ui_from uuidv4 st0 st ->
    ui_from uuidv4 st0 (MapComponent.handleFeatureDelete id0 st)
| ui_save (name description : string) (st st' : MapComponent.State) :
    ui_from uuidv4 st0 st ->
    MapComponent.save name description st = Normal st' ->
    ui_from uuidv4 st0 st'
| ui_onClose (st : MapComponent.State) :
    ui_from uuidv4 st0 st ->
    ui_from uuidv4 st0 (MapComponent.onClose st)
| ui_clearAll (st : MapComponent.State) :
    ui_from uuidv4 st0 st ->
    ui_from uuidv4 st0 (MapComponent.clearAll st)
| ui_removeFeature (index : nat) (st st' : MapComponent.State) :
    ui_from uuidv4 st0 st ->
    MapComponent.removeFeature index st = Normal st' ->
    ui_from uuidv4 st0 st'.

(** The states the component reaches from its mount. *)
Definition ui_run (uuidv4 : nat -> string) : MapComponent.State -> Prop :=
  ui_from uuidv4 (MapComponent.mount MapComponent.initial).

(** What these handlers keep true between two events. *)
Record ui_invariant (uuidv4 : nat -> string) (st : MapComponent.State) : Prop := {
  inv_bound : exists tool sc, bound tool sc st;
  inv_panel :
    MapComponent.showProperties st = true <-> MapComponent.selectedFeature st <> None;
  inv_ids :
    forall f, In f (MapComponent.features st) -> issued uuidv4 st "" (GeoJSON.id f);
  inv_distinct :
    distinct_uuids uuidv4 -> NoDup (map GeoJSON.id (MapComponent.features st));
  inv_layers : forall s, In s (layers_of st) -> issued uuidv4 st "layer-" s;
  inv_sources : forall s, In s (sources_of st) -> issued uuidv4 st "source-" s
}.

(** What a handler that selects no tool and creates no feature leaves alone:
    the listeners, the tool and the calls of [uuidv4]; it adds no layer and
    no source. *)
Definition removes_only (a b : MapComponent.State) : Prop :=
  same_listeners a b /\
  MapComponent.drawingMode a = MapComponent.drawingMode b /\
  MapComponent.uuid_count a = MapComponent.uuid_count b /\
  incl (layers_of a) (layers_of b) /\
  incl (sources_of a) (sources_of b).

(** [uuidv4] never returns a string that starts like a layer id of the
    component followed by one of its results. *)
Definition uuids_unlike_layer_ids (uuidv4 : nat -> string) : Prop :=
  forall j k, uuidv4 j <> ("layer-" ++ uuidv4 k)%string.

(** A run of clicks on the map. *)
Definition clicks (uuidv4 : nat -> string) (es : list MapMouseEvent)
    (st : MapComponent.State) : MapComponent.State :=
  fold_left (fun s e => MapComponent.click uuidv4 e s) es st.

(** The listeners, the layers and the sources on the map of a state of the
    two earlier versions. *)
Definition drafts_listeners_of (st : Drafts.State) : list Drafts.Listener :=
  match Drafts.map_current st with
  | Some m => Mapbox.click_listeners m
  | None => []
  end.

Definition drafts_layers_of (st : Drafts.State) : list string :=
  match Drafts.map_current st with
  | Some m => Mapbox.layers m
  | None => []
  end.

Definition drafts_sources_of (st : Drafts.State) : list string :=
  match Drafts.map_current st with
  | Some m => Mapbox.sources m
  | None => []
  end.

Definition drafts_same_listeners (a b : Drafts.State) : Prop :=
  drafts_listeners_of a = drafts_listeners_of b /\
  (Drafts.map_current a = None <-> Drafts.map_current b = None) /\
  Drafts.effect_deps a = Drafts.effect_deps b /\
  Drafts.effect_cleanup a = Drafts.effect_cleanup b /\
  Drafts.fn_count a = Drafts.fn_count b.

(** The earliest version between two events: the click listeners end with
    the two its effects registered in their last run, both closed over the
    tool of that run; the second is the one the cleanup will remove, and it
    is the newest function object on the map. *)
Definition draft1_listening (st : Drafts.State) : Prop :=
  exists m older la lh,
    Drafts.map_current st = Some m /\
    Mapbox.click_listeners m = older ++ [la; lh] /\
    Mapbox.scope la = Drafts.effect_deps st /\
    Mapbox.scope lh = Drafts.effect_deps st /\
    Drafts.effect_cleanup st = Some lh /\
    (forall l, In l (older ++ [la]) -> Mapbox.fn l < Mapbox.fn lh) /\
    Mapbox.fn lh < Drafts.fn_count st.

(** The states the earliest version reaches from its mount by the buttons
    of its sidebar (the tools, None, Clear All, Remove) and map clicks. *)
Inductive draft1_run : Drafts.State -> Prop :=
| draft1_run_mount :
    draft1_run (Draft1.mount Drafts.initial)
| draft1_run_handleToolSelect (tool : option Tool) (st : Drafts.State) :
    draft1_run st ->
    draft1_run (Draft1.handleToolSelect tool st)
| draft1_run_click (now : N) (e : MapMouseEvent) (st : Drafts.State) :
    draft1_run st ->
    draft1_run (Draft1.click now e st)
| draft1_run_clearAll (st : Drafts.State) :
    draft1_run st ->
    draft1_run (Draft1.clearAll st)
| draft1_run_removeFeature (index : nat) (st st' : Drafts.State) :
    draft1_run st ->
    Draft1.removeFeature index st = Normal st' ->
    draft1_run st'.

(** [new] is [old] with elements added at its end. *)
Definition grows_from (A : Type) (old new : list A) : Prop :=
  exists more, new = old ++ more.

(** ** Sample runs *)

Module Sample.

(** A run of [uuidv4]: the [k]-th call returns ["uuid-k"]. *)
Definition uuidv4 (k : nat) : string := ("uuid-" ++ decimal k)%string.

Definition at_ (lng lat : Z) : MapMouseEvent :=
  click_at (Finite (inject_Z lng), Finite (inject_Z lat)).

Definition pos (lng lat : Z) : LngLat :=
  (Finite (inject_Z lng), Finite (inject_Z lat)).

(** [MapComponent]: the Point tool, one click at (10, 20). *)
Definition one_point : MapComponent.State :=
  MapComponent.click uuidv4 (at_ 10 20)
    (MapComponent.handleToolSelect (Some point)
       (MapComponent.mount MapComponent.initial)).

Definition the_point : GeoJSON.Feature :=
  {| GeoJSON.id := "uuid-0";
     GeoJSON.geometry := GeoJSON.Point (pos 10 20);
     GeoJSON.properties :=
       {| GeoJSON.name := "Point 1";
          GeoJSON.description := "New point feature" |} |}.

(** ... then a second point, and the first one selected in the list. *)
Definition two_points_selected : MapComponent.State :=
  MapComponent.handleFeatureSelect the_point
    (MapComponent.click uuidv4 (at_ 30 40) one_point).

(** [MapComponent], mounted, with the Point tool selected. *)
Definition point_tool : MapComponent.State :=
  MapComponent.handleToolSelect (Some point)
    (MapComponent.mount MapComponent.initial).

(** A click whose longitude is [NaN] and whose latitude is [Infinity]. *)
Definition non_finite_click : MapMouseEvent := click_at (NaN, Infinity).

(** [MapComponent]: the Line tool, clicks at (0,0), (1,1) and (2,2). *)
Definition line_three_clicks : MapComponent.State :=
  MapComponent.click uuidv4 (at_ 2 2)
    (MapComponent.click uuidv4 (at_ 1 1)
       (MapComponent.click uuidv4 (at_ 0 0)
          (MapComponent.handleToolSelect (Some line)
             (MapComponent.mount MapComponent.initial)))).

(** [MapComponent]: the Polygon tool, clicks at (0,0), (1,1) and (2,2). *)
Definition polygon_three_clicks : MapComponent.State :=
  MapComponent.click uuidv4 (at_ 2 2)
    (MapComponent.click uuidv4 (at_ 1 1)
       (MapComponent.click uuidv4 (at_ 0 0)
          (MapComponent.handleToolSelect (Some polygon)
             (MapComponent.mount MapComponent.initial)))).

(** The version with [MapFeature] records, mounted, with the Line tool. *)
Definition draft2_line_tool : Drafts.State :=
  Draft2.handleToolSelect (Some line) (Draft2.mount Drafts.initial).

(** The earliest version, mounted, with the Point tool selected once. *)
Definition draft1_point_tool : Drafts.State :=
  Draft1.handleToolSelect (Some point) (Draft1.mount Drafts.initial).

(** ... and after the tools Point, Line, Point were selected in turn. *)
Definition draft1_point_line_point : Drafts.State :=
  Draft1.handleToolSelect (Some point)
    (Draft1.handleToolSelect (Some line) draft1_point_tool).

(** The version with [MapFeature] records: the Line tool, clicks at (0,0)
    and (1,1). *)
Definition draft2_line_one_click : Drafts.State :=
  Draft2.click uuidv4 1000%N (at_ 0 0) draft2_line_tool.

Definition draft2_line_two_clicks : Drafts.State :=
  Draft2.click uuidv4 2000%N (at_ 1 1) draft2_line_one_click.

(** ... then the Point tool and the Line tool again, and a click at (2,2). *)
Definition draft2_away_and_back : Drafts.State :=
  Draft2.click uuidv4 3000%N (at_ 2 2)
    (Draft2.handleToolSelect (Some line)
       (Draft2.handleToolSelect (Some point) draft2_line_two_clicks)).

(** [MapComponent]: the Line tool, clicks at (0,0) and (1,1). *)
Definition line_two_clicks : MapComponent.State :=
  MapComponent.click uuidv4 (at_ 1 1)
    (MapComponent.click uuidv4 (at_ 0 0)
       (MapComponent.handleToolSelect (Some line)
          (MapComponent.mount MapComponent.initial))).

(** ... then the Point tool and the Line tool again, and a click at (2,2). *)
Definition away_and_back : MapComponent.State :=
  MapComponent.click uuidv4 (at_ 2 2)
    (MapComponent.handleToolSelect (Some line)
       (MapComponent.handleToolSelect (Some point) line_two_clicks)).

(** ... or [clearAll], the Line tool again, and a click at (5,5). *)
Definition cleared : MapComponent.State := MapComponent.clearAll line_two_clicks.

Definition click_after_clearAll : MapComponent.State :=
  MapComponent.click uuidv4 (at_ 5 5)
    (MapComponent.handleToolSelect (Some line) cleared).

(** The point a second click at (30, 40) creates. *)
Definition second_point : GeoJSON.Feature :=
  {| GeoJSON.id := "uuid-1";
     GeoJSON.geometry := GeoJSON.Point (pos 30 40);
     GeoJSON.properties :=
       {| GeoJSON.name := "Point 2";
          GeoJSON.description := "New point feature" |} |}.

(** [Home] with the point in its list and selected. *)
Definition home_selected : Home.State :=
  {| Home.features := [the_point]; Home.selectedFeature := Some "uuid-0" |}.

Definition map_of (st : MapComponent.State) : MapComponent.Map :=
  match MapComponent.map_current st with
  | Some m => m
  | None => Mapbox.new_Map
  end.

End Sample.

(** * Properties *)

(** ** Lists and strings *)

Lemma last_element_snoc (A : Type) (xs : list A) (x : A) :
  last_element (xs ++ [x]) = Some x.
Proof.
  unfold last_element. rewrite rev_app_distr. reflexivity.
Qed.

Lemma slice_0_minus1_snoc (A : Type) (xs : list A) (x : A) :
  slice_0_minus1 (xs ++ [x]) = xs.
Proof.
  unfold slice_0_minus1. apply removelast_last.
Qed.

Lemma filter_index_split (A : Type) (index : nat) (xs : list A) (x : A) :
  nth_error xs index = Some x ->
  exists before after,
    xs = before ++ x :: after /\ List.length before = index /\
    filter_index index xs = before ++ after.
Proof.
  revert index. induction xs as [|y rest IH]; intros [|i] H; simpl in *;
    try discriminate.
  - injection H as ->. exists [], rest. auto.
  - destruct (IH i H) as (before & after & -> & Hlen & Heq).
    exists (y :: before), after. simpl. rewrite Heq, Hlen. auto.
Qed.

Lemma filter_index_beyond (A : Type) (index : nat) (xs : list A) :
  List.length xs <= index -> filter_index index xs = xs.
Proof.
  revert index. induction xs as [|y rest IH]; intros [|i] H; simpl in *;
    try reflexivity; try lia.
  rewrite IH by lia. reflexivity.
Qed.

Section FilterById.
Import GeoJSON.

Lemma filter_absent (id0 : string) (fs : list Feature) :
  (forall f, In f fs -> id f <> id0) -> filter (other_id id0) fs = fs.
Proof.
  induction fs as [|f rest IH]; intros H; simpl; [reflexivity|].
  unfold other_id at 1.
  destruct (String.eqb_spec (id f) id0) as [E|E].
  - exfalso. apply (H f); [left; reflexivity | exact E].
  - simpl. rewrite IH; [reflexivity|]. intros g Hg. apply H. right. exact Hg.
Qed.

Lemma filter_no_match (id0 : string) (fs : list Feature) :
  forall f, In f (filter (other_id id0) fs) -> id f <> id0.
Proof.
  intros f Hf. apply filter_In in Hf. destruct Hf as [_ Hf].
  unfold other_id in Hf. destruct (String.eqb_spec (id f) id0); [discriminate|assumption].
Qed.

(** With pairwise distinct ids, filtering an id out removes one entry and
    keeps the rest where it was. *)
Lemma filter_unique (id0 : string) (fs : list Feature) (f : Feature) :
  NoDup (map id fs) -> In f fs -> id f = id0 ->
  exists before after,
    fs = before ++ f :: after /\ filter (other_id id0) fs = before ++ after.
Proof.
  intros Hnd Hin Hid.
  destruct (in_split f fs Hin) as (before & after & ->).
  exists before, after. split; [reflexivity|].
  rewrite map_app in Hnd. simpl in Hnd.
  assert (Hb : forall g, In g before -> id g <> id0).
  { intros g Hg E. apply NoDup_remove_2 in Hnd. apply Hnd.
    apply in_or_app. left. rewrite Hid, <- E. apply in_map. exact Hg. }
  assert (Ha : forall g, In g after -> id g <> id0).
  { intros g Hg E. apply NoDup_remove_2 in Hnd. apply Hnd.
    apply in_or_app. right. rewrite Hid, <- E. apply in_map. exact Hg. }
  rewrite filter_app. simpl. unfold other_id at 2.
  rewrite Hid, String.eqb_refl. simpl.
  rewrite (@filter_absent id0 before Hb), (@filter_absent id0 after Ha). reflexivity.
Qed.
End FilterById.

Lemma map_update_absent (upd : GeoJSON.Feature) (fs : list GeoJSON.Feature) :
  (forall f, In f fs -> GeoJSON.id f <> GeoJSON.id upd) ->
  map (fun f => if (GeoJSON.id f =? GeoJSON.id upd)%string
                then GeoJSON.with_properties f (GeoJSON.properties upd) else f) fs
  = fs.
Proof.
  induction fs as [|f rest IH]; intros H; simpl; [reflexivity|].
  destruct (String.eqb_spec (GeoJSON.id f) (GeoJSON.id upd)) as [E|_].
  - exfalso. apply (H f); [left; reflexivity | exact E].
  - rewrite IH; [reflexivity|]. intros g Hg. apply H. right. exact Hg.
Qed.

(** ** [MapComponent.tsx]: what a render leaves alone *)

Section MapComponentCells.
Import GeoJSON MapComponent.

Lemma run_effects_cells (st : State) : same_cells (run_effects st) st.
Proof.
  destruct st as [mc dm cf fs sf sp lp pp ed ec fc uc].
  unfold same_cells, run_effects, on_map, new_listener. simpl.
  destruct (deps_same dm ed); [repeat split; reflexivity|].
  destruct ec as [l|]; destruct mc as [m|]; simpl; repeat split; reflexivity.
Qed.

Lemma run_effects_features (st : State) : features (run_effects st) = features st.
Proof. apply run_effects_cells. Qed.

Lemma run_effects_selectedFeature (st : State) :
  selectedFeature (run_effects st) = selectedFeature st.
Proof. apply run_effects_cells. Qed.

Lemma run_effects_showProperties (st : State) :
  showProperties (run_effects st) = showProperties st.
Proof. apply run_effects_cells. Qed.

Lemma run_effects_linePoints (st : State) :
  linePoints (run_effects st) = linePoints st.
Proof. apply run_effects_cells. Qed.

Lemma run_effects_polygonPoints (st : State) :
  polygonPoints (run_effects st) = polygonPoints st.
Proof. apply run_effects_cells. Qed.

Lemma run_effects_drawingMode (st : State) :
  drawingMode (run_effects st) = drawingMode st.
Proof. apply run_effects_cells. Qed.

(** The features [handleFeatureDelete] leaves are the others, in order. *)
Lemma handleFeatureDelete_features (id0 : string) (st : State) (m : Map) :
  map_current st = Some m ->
  features (handleFeatureDelete id0 st) = filter (other_id id0) (features st).
Proof.
  intros Hm. unfold handleFeatureDelete. rewrite Hm.
  rewrite run_effects_features.
  destruct st as [mc dm cf fs sf sp lp pp ed ec fc uc]. simpl in Hm. subst mc.
  unfold on_map. simpl.
  destruct (selected_is id0 _); reflexivity.
Qed.
End MapComponentCells.

(** ** Deleting and editing features *)

Section DeleteAndEdit.
Import GeoJSON MapComponent.

Lemma handleFeatureDelete_selection (id0 : string) (st : State) (m : Map) :
  map_current st = Some m ->
  (selected_is id0 st = true ->
     selectedFeature (handleFeatureDelete id0 st) = None /\
     showProperties (handleFeatureDelete id0 st) = false) /\
  (selected_is id0 st = false ->
     selectedFeature (handleFeatureDelete id0 st) = selectedFeature st /\
     showProperties (handleFeatureDelete id0 st) = showProperties st).
Proof.
  intros Hm. unfold handleFeatureDelete. rewrite Hm.
  rewrite run_effects_selectedFeature, run_effects_showProperties.
  destruct st as [mc dm cf fs sf sp lp pp ed ec fc uc]. simpl in Hm. subst mc.
  split; intros Hs; rewrite Hs; unfold on_map; simpl; split; reflexivity.
Qed.

(** [handleFeatureUpdate] on a mounted map, with an id that is not the empty
    string and no source called ["features"]: it returns, and the list is
    the old one with the properties replaced under the matching id. *)
Lemma handleFeatureUpdate_features (upd : Feature) (st : State) (m : Map) :
  map_current st = Some m ->
  id upd <> "" ->
  Mapbox.getSource "features" m = false ->
  exists st',
    handleFeatureUpdate upd st = Normal st' /\
    features st' =
      map (fun f => if (id f =? id upd)%string
                    then with_properties f (properties upd) else f)
          (features st) /\
    selectedFeature st' = None /\ showProperties st' = false.
Proof.
  intros Hm Hid Hsrc. unfold handleFeatureUpdate. rewrite Hm, Hsrc.
  destruct (String.eqb_spec (id upd) "") as [E|_]; [contradiction|].
  eexists. split; [reflexivity|].
  rewrite run_effects_features, run_effects_selectedFeature,
    run_effects_showProperties.
  destruct st as [mc dm cf fs sf sp lp pp ed ec fc uc].
  simpl. repeat split; reflexivity.
Qed.

Lemma onClose_features (st : State) : features (onClose st) = features st.
Proof.
  unfold onClose. rewrite run_effects_features.
  destruct st as [mc dm cf fs sf sp lp pp ed ec fc uc]. reflexivity.
Qed.

Lemma map_update_nth (upd : Feature) (fs : list Feature) (i : nat) (f : Feature) :
  nth_error fs i = Some f ->
  nth_error
    (map (fun f => if (id f =? id upd)%string
                   then with_properties f (properties upd) else f) fs) i
  = Some (if (id f =? id upd)%string
          then with_properties f (properties upd) else f).
Proof.
  intros H. rewrite nth_error_map, H. reflexivity.
Qed.
End DeleteAndEdit.

(** ** [MapComponent.tsx]: one click *)

Section MapComponentClick.
Import GeoJSON MapComponent.
Variable uuidv4 : nat -> string.

Lemma deps_same_refl (t : option Tool) : deps_same t t = true.
Proof. destruct t as [[]|]; reflexivity. Qed.

Lemma deps_same_eq (a b : option Tool) : deps_same a b = true -> a = b.
Proof.
  destruct a as [[]|], b as [[]|]; simpl; intros H; try discriminate; reflexivity.
Qed.

Lemma run_effects_idle (st : State) :
  effect_deps st = drawingMode st -> run_effects st = st.
Proof.
  intros H. unfold run_effects. rewrite H, deps_same_refl. reflexivity.
Qed.

Lemma add_to_map_listeners (a b : string) (m : Map) :
  Mapbox.click_listeners (add_to_map a b m) = Mapbox.click_listeners m.
Proof.
  destruct m as [ls srcs lyrs].
  unfold add_to_map, Mapbox.getSource, Mapbox.getLayer, Mapbox.addSource,
    Mapbox.addLayer. simpl.
  destruct (mem_string a srcs); simpl; destruct (mem_string b lyrs); reflexivity.
Qed.

Lemma same_binding_refl (st : State) : same_binding st st.
Proof. unfold same_binding. repeat split; auto. Qed.

Lemma addPoint_binding (sc : Scope) (e : MapMouseEvent) (st : State) :
  same_binding (addPoint uuidv4 sc e st) st.
Proof.
  destruct st as [[m|] dm cf fs sf sp lp pp ed ec fc uc];
    [|apply same_binding_refl].
  unfold same_binding, listeners_of, addPoint, on_map, call_uuidv4. simpl.
  rewrite add_to_map_listeners. repeat split; try reflexivity; discriminate.
Qed.

Lemma addLinePoint_binding (sc : Scope) (e : MapMouseEvent) (st : State) :
  same_binding (addLinePoint uuidv4 sc e st) st.
Proof.
  destruct st as [[m|] dm cf fs sf sp lp pp ed ec fc uc];
    [|apply same_binding_refl].
  unfold same_binding, listeners_of, addLinePoint, on_map, call_uuidv4. simpl.
  destruct (0 <? List.length (scope_linePoints sc)); simpl;
    rewrite ?add_to_map_listeners; repeat split; try reflexivity; discriminate.
Qed.

Lemma addPolygonPoint_binding (sc : Scope) (e : MapMouseEvent) (st : State) :
  same_binding (addPolygonPoint uuidv4 sc e st) st.
Proof.
  destruct st as [[m|] dm cf fs sf sp lp pp ed ec fc uc];
    [|apply same_binding_refl].
  unfold same_binding, listeners_of, addPolygonPoint, on_map, call_uuidv4. simpl.
  destruct (0 <? List.length (scope_polygonPoints sc)); simpl;
    rewrite ?add_to_map_listeners; repeat split; try reflexivity; discriminate.
Qed.

Lemma handleDrawingClick_binding (sc : Scope) (e : MapMouseEvent) (st : State) :
  same_binding (handleDrawingClick uuidv4 sc e st) st.
Proof.
  unfold handleDrawingClick.
  destruct (scope_drawingMode sc) as [[]|]; destruct (map_current st) eqn:Hm;
    try apply same_binding_refl.
  - apply addPoint_binding.
  - apply addLinePoint_binding.
  - apply addPolygonPoint_binding.
Qed.

(** A listener whose render had no tool does nothing. *)
Lemma handleDrawingClick_no_tool (sc : Scope) (e : MapMouseEvent) (st : State) :
  scope_drawingMode sc = None -> handleDrawingClick uuidv4 sc e st = st.
Proof.
  intros H. unfold handleDrawingClick. rewrite H. reflexivity.
Qed.

(** In a bound state a click is one call of the bound listener. *)
Lemma click_bound (tool : option Tool) (sc : Scope) (e : MapMouseEvent) (st : State) :
  bound tool sc st ->
  click uuidv4 e st = handleDrawingClick uuidv4 sc e st /\
  bound tool sc (click uuidv4 e st).
Proof.
  intros (m & l0 & l1 & Hm & Hls & H0 & H1 & Hsc & Hmode & Hdeps & Hclean & Hne & Hlt0 & Hlt1).
  assert (Hclick : click uuidv4 e st = handleDrawingClick uuidv4 sc e st).
  { unfold click. rewrite Hm, Hls. simpl. unfold call_listener.
    rewrite (handleDrawingClick_no_tool _ e st H0), H1.
    destruct (handleDrawingClick_binding sc e st) as (_ & _ & Hd & He & _).
    apply run_effects_idle. rewrite Hd, He, Hmode, Hdeps. reflexivity. }
  split; [exact Hclick|]. rewrite Hclick.
  destruct (handleDrawingClick_binding sc e st)
    as (Hl & Hnone & Hd & He & Hc & Hf & _).
  unfold listeners_of in Hl. rewrite Hm, Hls in Hl.
  destruct (map_current (handleDrawingClick uuidv4 sc e st)) as [m'|] eqn:Hm'.
  - exists m', l0, l1. rewrite Hd, He, Hc, Hf. repeat split; assumption.
  - exfalso. destruct Hnone as [Hnone _]. specialize (Hnone eq_refl).
    rewrite Hm in Hnone. discriminate.
Qed.
End MapComponentClick.

(** ** [MapComponent.tsx]: the listeners bound to the map *)

Section MapComponentBinding.
Import GeoJSON MapComponent.

Lemma bound_mount : bound None (scope_of initial) (mount initial).
Proof.
  unfold bound. do 3 eexists.
  repeat split; try reflexivity; simpl; auto.
Qed.

Lemma same_fn_false (a b : Listener) :
  Mapbox.fn a <> Mapbox.fn b -> Mapbox.same_fn a b = false.
Proof.
  intros H. unfold Mapbox.same_fn. apply Nat.eqb_neq. exact H.
Qed.

Lemma same_fn_true (a : Listener) : Mapbox.same_fn a a = true.
Proof. unfold Mapbox.same_fn. apply Nat.eqb_refl. Qed.

(** Selecting a tool leaves the mount listener and binds one listener for
    the tool selected: the old one stays when the tool is the one the
    component has, otherwise it is removed and a new one, closed over the
    current render, is registered. *)
Lemma bound_handleToolSelect (tool tool' : option Tool) (sc : Scope) (st : State) :
  bound tool sc st ->
  exists sc',
    bound tool' sc' (handleToolSelect tool' st) /\
    (tool' = tool -> sc' = sc) /\
    (tool' <> tool ->
       scope_linePoints sc' = linePoints st /\
       scope_polygonPoints sc' = polygonPoints st /\
       scope_features sc' = features st) /\
    same_cells (handleToolSelect tool' st) (setDrawingMode tool' st).
Proof.
  intros (m & l0 & l1 & Hm & Hls & H0 & H1 & Hsc & Hmode & Hdeps & Hclean & Hne & Hlt0 & Hlt1).
  destruct st as [mc dm cf fs sf sp lp pp ed ec fc uc]. simpl in *. subst mc ed ec.
  destruct m as [ls srcs lyrs]. simpl in Hls. subst ls.
  unfold handleToolSelect, run_effects. simpl.
  destruct (deps_same tool' tool) eqn:Hs.
  - apply deps_same_eq in Hs. subst tool'.
    exists sc. split; [|split; [|split]].
    + do 3 eexists. simpl. repeat split; try reflexivity; assumption.
    + reflexivity.
    + intros Hcontra. exfalso. apply Hcontra. reflexivity.
    + repeat split; reflexivity.
  - assert (E01 : (Mapbox.fn l1 =? Mapbox.fn l0) = false)
      by (apply Nat.eqb_neq; auto).
    assert (Ec0 : (fc =? Mapbox.fn l0) = false) by (apply Nat.eqb_neq; lia).
    unfold on_map, new_listener. simpl.
    do 4 (unfold Mapbox.same_fn; simpl; rewrite ?E01, ?Nat.eqb_refl, ?Ec0; simpl).
    eexists. split; [|split; [|split]].
    + do 3 eexists. simpl. repeat split; try reflexivity; simpl; try assumption; lia.
    + intros ->. rewrite deps_same_refl in Hs. discriminate.
    + intros _. simpl. repeat split; reflexivity.
    + repeat split; reflexivity.
Qed.
End MapComponentBinding.

(** ** Clicks and their coordinates *)

Section ClickCoordinates.
Import GeoJSON MapComponent.
Variable uuidv4 : nat -> string.

Lemma addPoint_features (sc : Scope) (e : MapMouseEvent) (st : State) (m : Map) :
  map_current st = Some m ->
  features (addPoint uuidv4 sc e st) =
    features st ++
    [{| id := uuidv4 (uuid_count st);
        geometry := Point (lngLat e);
        properties :=
          {| name := ("Point " ++ decimal (List.length (scope_features sc) + 1))%string;
             description := "New point feature" |} |}].
Proof.
  intros Hm. destruct st as [mc dm cf fs sf sp lp pp ed ec fc uc].
  simpl in Hm. subst mc. reflexivity.
Qed.

(** What [addLinePoint] writes: the point goes to [linePoints]; the list of
    features is untouched when the closure saw no point, and otherwise gains
    one [LineString] made of the points the closure saw and the new one. *)
Lemma addLinePoint_cells (sc : Scope) (e : MapMouseEvent) (st : State) (m : Map) :
  map_current st = Some m ->
  linePoints (addLinePoint uuidv4 sc e st) = linePoints st ++ [lngLat e] /\
  polygonPoints (addLinePoint uuidv4 sc e st) = polygonPoints st /\
  features (addLinePoint uuidv4 sc e st) =
    features st ++
    match scope_linePoints sc with
    | [] => []
    | _ :: _ =>
        [{| id := uuidv4 (uuid_count st);
            geometry := LineString (scope_linePoints sc ++ [lngLat e]);
            properties :=
              {| name := ("Line " ++ decimal (List.length (scope_features sc) + 1))%string;
                 description := "New line feature" |} |}]
    end.
Proof.
  intros Hm. destruct st as [mc dm cf fs sf sp lp pp ed ec fc uc].
  simpl in Hm. subst mc. unfold addLinePoint. simpl.
  destruct (scope_linePoints sc) as [|c cs]; simpl.
  - rewrite app_nil_r. repeat split; reflexivity.
  - repeat split; reflexivity.
Qed.

Lemma addPolygonPoint_cells (sc : Scope) (e : MapMouseEvent) (st : State) (m : Map) :
  map_current st = Some m ->
  polygonPoints (addPolygonPoint uuidv4 sc e st) = polygonPoints st ++ [lngLat e] /\
  linePoints (addPolygonPoint uuidv4 sc e st) = linePoints st /\
  features (addPolygonPoint uuidv4 sc e st) =
    features st ++
    match scope_polygonPoints sc with
    | [] => []
    | _ :: _ =>
        [{| id := uuidv4 (uuid_count st);
            geometry := Polygon [scope_polygonPoints sc ++ [lngLat e]];
            properties :=
              {| name := ("Polygon " ++ decimal (List.length (scope_features sc) + 1))%string;
                 description := "New polygon feature" |} |}]
    end.
Proof.
  intros Hm. destruct st as [mc dm cf fs sf sp lp pp ed ec fc uc].
  simpl in Hm. subst mc. unfold addPolygonPoint. simpl.
  destruct (scope_polygonPoints sc) as [|c cs]; simpl.
  - rewrite app_nil_r. repeat split; reflexivity.
  - repeat split; reflexivity.
Qed.
End ClickCoordinates.

(** ** [MapComponent.tsx]: listeners and features per click *)

Lemma drawing_run_bound (uuidv4 : nat -> string) (st : MapComponent.State) :
  drawing_run uuidv4 st -> exists tool sc, bound tool sc st.
Proof.
  induction 1 as [|tool st _ (tool0 & sc & Hb)|e st _ (tool0 & sc & Hb)].
  - exists None, (MapComponent.scope_of MapComponent.initial). apply bound_mount.
  - destruct (bound_handleToolSelect tool Hb) as (sc' & Hb' & _).
    exists tool, sc'. exact Hb'.
  - exists tool0, sc. apply (click_bound uuidv4 e Hb).
Qed.

(** In [MapComponent], whatever tools were selected before, the map holds
    two click listeners, and one click adds the features of one tool: none
    without a tool, one Point with the Point tool, at most one feature with
    the Line or Polygon tool, after the features that were there. *)
Lemma mapcomponent_click_count (uuidv4 : nat -> string) (st : MapComponent.State)
    (e : MapMouseEvent) :
  drawing_run uuidv4 st ->
  List.length (listeners_of st) = 2 /\
  exists added,
    MapComponent.features (MapComponent.click uuidv4 e st)
      = MapComponent.features st ++ added /\
    match MapComponent.drawingMode st with
    | None => added = []
    | Some point => List.length added = 1
    | Some _ => List.length added <= 1
    end.
Proof.
  intros Hrun. destruct (drawing_run_bound Hrun) as (tool & sc & Hb).
  destruct (click_bound uuidv4 e Hb) as [Hclick _].
  destruct Hb as (m & l0 & l1 & Hm & Hls & _ & _ & Hsc & Hmode & _).
  split; [unfold listeners_of; rewrite Hm, Hls; reflexivity|].
  rewrite Hclick, Hmode. unfold MapComponent.handleDrawingClick. rewrite Hsc, Hm.
  destruct tool as [[]|].
  - eexists. split; [apply (addPoint_features uuidv4 sc e st Hm)|reflexivity].
  - eexists. split; [apply (addLinePoint_cells uuidv4 sc e st Hm)|].
    destruct (MapComponent.scope_linePoints sc); simpl; lia.
  - eexists. split; [apply (addPolygonPoint_cells uuidv4 sc e st Hm)|].
    destruct (MapComponent.scope_polygonPoints sc); simpl; lia.
  - exists []. split; [rewrite app_nil_r; reflexivity|reflexivity].
Qed.

(** [clearAll] on a mounted map: the list is emptied and no tool is left
    selected; [linePoints] and [polygonPoints] are not written. *)
Lemma clearAll_cells (st : MapComponent.State) (m : MapComponent.Map) :
  MapComponent.map_current st = Some m ->
  MapComponent.features (MapComponent.clearAll st) = [] /\
  MapComponent.drawingMode (MapComponent.clearAll st) = None /\
  MapComponent.linePoints (MapComponent.clearAll st) = MapComponent.linePoints st /\
  MapComponent.polygonPoints (MapComponent.clearAll st) = MapComponent.polygonPoints st.
Proof.
  intros Hm. unfold MapComponent.clearAll. rewrite Hm.
  rewrite run_effects_features, run_effects_drawingMode, run_effects_linePoints,
    run_effects_polygonPoints.
  set (remove_layers := fun (s : MapComponent.State) (feature : GeoJSON.Feature) => _).
  assert (Hfold : forall fs s,
            MapComponent.linePoints (fold_left remove_layers fs s)
              = MapComponent.linePoints s /\
            MapComponent.polygonPoints (fold_left remove_layers fs s)
              = MapComponent.polygonPoints s).
  { induction fs as [|f rest IH]; intros s; simpl; [split; reflexivity|].
    destruct (IH (remove_layers s f)) as [Hl Hp]. rewrite Hl, Hp.
    subst remove_layers. simpl.
    destruct s as [[mm|] dm cf fs0 sf sp lp pp ed ec fc uc]; split; reflexivity. }
  destruct (Hfold (MapComponent.features st) st) as [Hl Hp].
  destruct (fold_left remove_layers (MapComponent.features st) st)
    as [mc dm cf fs sf sp lp pp ed ec fc uc].
  simpl in *. repeat split; assumption.
Qed.

(** ** Building a line or a polygon click by click *)

Section Draft2Clicks.
Import Drafts.
Variable uuidv4 : nat -> string.

Lemma addLayer_inline_listeners (s : string) (m : Map) :
  Mapbox.click_listeners (Mapbox.addLayer_inline s m) = Mapbox.click_listeners m.
Proof.
  destruct m as [ls srcs lyrs]. unfold Mapbox.addLayer_inline.
  destruct (mem_string s lyrs); reflexivity.
Qed.

(** The updaters leave the map mounted, with the listeners it had. *)
Lemma addLinePoint_updater_map (now : N) (c : LngLat) (prev : list MapFeature) (m : Map) :
  exists m',
    snd (addLinePoint_updater now c prev (Some m)) = Some m' /\
    Mapbox.click_listeners m' = Mapbox.click_listeners m.
Proof.
  unfold addLinePoint_updater.
  destruct (last_element prev) as [[? ?|cs i|? ?]|]; simpl;
    try (eexists; split; [reflexivity|apply addLayer_inline_listeners]).
  destruct (Mapbox.getLayer i m).
  - exists m. split; reflexivity.
  - eexists. split; [reflexivity|apply addLayer_inline_listeners].
Qed.

Lemma addPolygonPoint_updater_map (now : N) (c : LngLat) (prev : list MapFeature) (m : Map) :
  exists m',
    snd (addPolygonPoint_updater now c prev (Some m)) = Some m' /\
    Mapbox.click_listeners m' = Mapbox.click_listeners m.
Proof.
  unfold addPolygonPoint_updater.
  destruct (last_element prev) as [[? ?|? ?|cs i]|]; simpl;
    try (eexists; split; [reflexivity|apply addLayer_inline_listeners]).
  destruct (Mapbox.getLayer i m).
  - exists m. split; reflexivity.
  - eexists. split; [reflexivity|apply addLayer_inline_listeners].
Qed.

(** With the Line tool bound, a click is one run of the updater of
    [addLinePoint] on the list. *)
Lemma draft2_click_line (now : N) (e : MapMouseEvent) (st : State) :
  drafts_bound (Some line) st ->
  features (Draft2.click uuidv4 now e st) =
    fst (addLinePoint_updater now (lngLat e) (features st) (map_current st)) /\
  drafts_bound (Some line) (Draft2.click uuidv4 now e st).
Proof.
  intros (m & l0 & l1 & Hm & Hls & H0 & H1 & Hmode & Hdeps & Hclean & Hne & Hlt0 & Hlt1).
  destruct st as [mc dm cf fs ed ec fc uc]. simpl in *. subst mc dm ed ec.
  destruct l0 as [f0 s0], l1 as [f1 s1]. simpl in *. subst s0 s1.
  unfold Draft2.click. simpl. rewrite Hls. simpl.
  unfold Draft2.call_listener, Draft2.handleDrawingClick, addLinePoint, setFeatures.
  simpl.
  destruct (addLinePoint_updater_map now (lngLat e) fs m) as (m' & Hm' & Hls').
  destruct (addLinePoint_updater now (lngLat e) fs (Some m)) as [fs' om'].
  simpl in Hm'. subst om'. simpl.
  split; [reflexivity|].
  exists m'. eexists. eexists. simpl.
  split; [reflexivity|]. split; [rewrite Hls', Hls; reflexivity|].
  simpl. repeat split; try reflexivity; assumption.
Qed.

(** The first click of a line, on a list that does not end with a line. *)
Lemma draft2_line_starts (now : N) (e : MapMouseEvent) (st : State) :
  drafts_bound (Some line) st ->
  (forall cs i, last_element (features st) <> Some (line_feature cs i)) ->
  features (Draft2.click uuidv4 now e st) =
    features st ++ [line_feature [lngLat e] ("line-" ++ decimalN now)%string].
Proof.
  intros Hb Hlast. destruct (draft2_click_line now e Hb) as [Hclick _].
  rewrite Hclick. unfold addLinePoint_updater.
  destruct (last_element (features st)) as [[? ?|cs i|? ?]|]; try reflexivity.
  exfalso. apply (Hlast cs i). reflexivity.
Qed.

End Draft2Clicks.

(** ** The version with [MapFeature] records: the listeners bound to the map *)

Section Draft2Binding.
Import Drafts.
Variable uuidv4 : nat -> string.

Lemma drafts_bound_mount : drafts_bound None (Draft2.mount initial).
Proof.
  unfold drafts_bound. do 3 eexists.
  repeat split; try reflexivity; simpl; auto.
Qed.

(** What a listener of that version leaves alone. *)
Lemma draft2_handle_binding (tool : option Tool) (now : N) (e : MapMouseEvent)
    (st : State) (m : Map) :
  map_current st = Some m ->
  exists m',
    map_current (Draft2.handleDrawingClick uuidv4 tool now e st) = Some m' /\
    Mapbox.click_listeners m' = Mapbox.click_listeners m /\
    drawingMode (Draft2.handleDrawingClick uuidv4 tool now e st) = drawingMode st /\
    effect_deps (Draft2.handleDrawingClick uuidv4 tool now e st) = effect_deps st /\
    effect_cleanup (Draft2.handleDrawingClick uuidv4 tool now e st) = effect_cleanup st /\
    fn_count (Draft2.handleDrawingClick uuidv4 tool now e st) = fn_count st.
Proof.
  intros Hm. destruct st as [mc dm cf fs ed ec fc uc]. simpl in Hm. subst mc.
  unfold Draft2.handleDrawingClick. destruct tool as [[]|]; simpl.
  - unfold Draft2.addPoint. simpl. eexists. split; [reflexivity|].
    split; [apply addLayer_inline_listeners|]. repeat split; reflexivity.
  - unfold addLinePoint, setFeatures. simpl.
    destruct (addLinePoint_updater_map now (lngLat e) fs m) as (m' & Hm' & Hls').
    destruct (addLinePoint_updater now (lngLat e) fs (Some m)) as [fs' om'].
    simpl in Hm'. subst om'. simpl.
    exists m'. repeat split; try reflexivity. exact Hls'.
  - unfold addPolygonPoint, setFeatures. simpl.
    destruct (addPolygonPoint_updater_map now (lngLat e) fs m) as (m' & Hm' & Hls').
    destruct (addPolygonPoint_updater now (lngLat e) fs (Some m)) as [fs' om'].
    simpl in Hm'. subst om'. simpl.
    exists m'. repeat split; try reflexivity. exact Hls'.
  - exists m. repeat split; reflexivity.
Qed.

Lemma draft2_run_effects_idle (st : State) :
  effect_deps st = drawingMode st -> Draft2.run_effects st = st.
Proof.
  intros H. unfold Draft2.run_effects. rewrite H, deps_same_refl. reflexivity.
Qed.

(** A click keeps the two listeners, whatever the tool. *)
Lemma draft2_click_bound (tool : option Tool) (now : N) (e : MapMouseEvent)
    (st : State) :
  drafts_bound tool st ->
  Draft2.click uuidv4 now e st = Draft2.handleDrawingClick uuidv4 tool now e st /\
  drafts_bound tool (Draft2.click uuidv4 now e st).
Proof.
  intros (m & l0 & l1 & Hm & Hls & H0 & H1 & Hmode & Hdeps & Hclean & Hne & Hlt0 & Hlt1).
  destruct (draft2_handle_binding tool now e st Hm)
    as (m' & Hm' & Hls' & Hd & He & Hc & Hf).
  assert (Hclick : Draft2.click uuidv4 now e st
                   = Draft2.handleDrawingClick uuidv4 tool now e st).
  { unfold Draft2.click. rewrite Hm, Hls. simpl. unfold Draft2.call_listener.
    rewrite H0, H1.
    replace (Draft2.handleDrawingClick uuidv4 None now e st) with st by reflexivity.
    apply draft2_run_effects_idle. rewrite Hd, He, Hmode, Hdeps. reflexivity. }
  split; [exact Hclick|]. rewrite Hclick.
  exists m', l0, l1. rewrite Hd, He, Hc, Hf, Hls', Hls.
  repeat split; assumption.
Qed.

Lemma drafts_bound_handleToolSelect (tool tool' : option Tool) (st : State) :
  drafts_bound tool st -> drafts_bound tool' (Draft2.handleToolSelect tool' st).
Proof.
  intros (m & l0 & l1 & Hm & Hls & H0 & H1 & Hmode & Hdeps & Hclean & Hne & Hlt0 & Hlt1).
  destruct st as [mc dm cf fs ed ec fc uc]. simpl in *. subst mc ed ec.
  destruct m as [ls srcs lyrs]. simpl in Hls. subst ls.
  unfold Draft2.handleToolSelect, handleToolSelect_cells, Draft2.run_effects. simpl.
  destruct (deps_same tool' tool) eqn:Hs.
  - apply deps_same_eq in Hs. subst tool'.
    do 3 eexists. simpl. repeat split; try reflexivity; assumption.
  - assert (E01 : (Mapbox.fn l1 =? Mapbox.fn l0) = false)
      by (apply Nat.eqb_neq; auto).
    assert (Ec0 : (fc =? Mapbox.fn l0) = false) by (apply Nat.eqb_neq; lia).
    unfold on_map, new_listener. simpl.
    do 4 (unfold Mapbox.same_fn; simpl; rewrite ?E01, ?Nat.eqb_refl, ?Ec0; simpl).
    do 3 eexists. simpl. repeat split; try reflexivity; simpl; try assumption; lia.
Qed.

(** Selecting a tool writes no feature: the last feature of the list stays
    the shape the next click of its tool extends. *)
Lemma draft2_handleToolSelect_features (tool : option Tool) (st : State) :
  features (Draft2.handleToolSelect tool st) = features st.
Proof.
  destruct st as [mc dm cf fs ed ec fc uc].
  unfold Draft2.handleToolSelect, handleToolSelect_cells, Draft2.run_effects,
    on_map, new_listener. simpl.
  destruct (deps_same tool ed); [reflexivity|].
  destruct ec as [l|]; destruct mc as [m|]; reflexivity.
Qed.

(** A click on a line in progress replaces it by a line with the id of the
    moment of the click, whatever id it had. *)
Lemma draft2_append_restamps_id (now : N) (e : MapMouseEvent) (st : State)
    (before : list MapFeature) (cs : list LngLat) (i : string) :
  drafts_bound (Some line) st ->
  features st = before ++ [line_feature cs i] ->
  features (Draft2.click uuidv4 now e st) =
    before ++ [line_feature (cs ++ [lngLat e]) ("line-" ++ decimalN now)%string].
Proof.
  intros Hb Hfs. destruct (draft2_click_line uuidv4 now e Hb) as [Hclick _].
  rewrite Hclick. unfold addLinePoint_updater.
  rewrite Hfs, last_element_snoc, slice_0_minus1_snoc. reflexivity.
Qed.

Lemma draft2_run_bound (st : State) :
  draft2_run uuidv4 st -> exists tool, drafts_bound tool st.
Proof.
  induction 1 as [|tool st _ (tool0 & Hb)|now e st _ (tool0 & Hb)].
  - exists None. apply drafts_bound_mount.
  - exists tool. apply (drafts_bound_handleToolSelect tool Hb).
  - exists tool0. apply (draft2_click_bound now e Hb).
Qed.
End Draft2Binding.

(** * The claims of the specification *)

(** C1.  In [MapComponent], after the Line tool is selected and the map is
    clicked at (0,0), (1,1) and (2,2), the list holds no feature at all,
    though [linePoints] holds the three points: the bound listener still
    sees the [linePoints] of the render it was created in, which is empty,
    so the guard [linePoints.length > 0] of [addLinePoint] never passes.
    The Polygon tool does the same with [polygonPoints]. *)
Theorem C1_three_clicks_draw_no_line :
  MapComponent.features Sample.line_three_clicks = [] /\
  MapComponent.linePoints Sample.line_three_clicks
    = [Sample.pos 0 0; Sample.pos 1 1; Sample.pos 2 2] /\
  MapComponent.features Sample.polygon_three_clicks = [] /\
  MapComponent.polygonPoints Sample.polygon_three_clicks
    = [Sample.pos 0 0; Sample.pos 1 1; Sample.pos 2 2].
Proof.
  repeat split; vm_compute; reflexivity.
Qed.

(** C2.  The earliest version binds a second listener at every change of
    tool and never removes it: after the Point tool is selected once, four
    listeners are on the map, two of them for the Point tool, and one click
    creates two features; after Point, Line, Point, six listeners are on the
    map and one click under the Point tool creates four features, three
    points and a line. *)
Theorem C2_draft1_one_click_many_features :
  Drafts.features Sample.draft1_point_tool = [] /\
  option_map (fun m => map (@Mapbox.scope _) (Mapbox.click_listeners m))
    (Drafts.map_current Sample.draft1_point_tool)
    = Some [None; None; Some point; Some point] /\
  Drafts.features (Draft1.click 1000%N (Sample.at_ 10 20) Sample.draft1_point_tool)
    = [Drafts.point_feature (Sample.pos 10 20) "point-1000";
       Drafts.point_feature (Sample.pos 10 20) "point-1000"] /\
  option_map (fun m => map (@Mapbox.scope _) (Mapbox.click_listeners m))
    (Drafts.map_current Sample.draft1_point_line_point)
    = Some [None; None; Some point; Some line; Some point; Some point] /\
  Drafts.features (Draft1.click 1000%N (Sample.at_ 10 20) Sample.draft1_point_line_point)
    = [Drafts.point_feature (Sample.pos 10 20) "point-1000";
       Drafts.line_feature [Sample.pos 10 20] "line-1000";
       Drafts.point_feature (Sample.pos 10 20) "point-1000";
       Drafts.point_feature (Sample.pos 10 20) "point-1000"].
Proof.
  repeat split; vm_compute; reflexivity.
Qed.

(** C3.  Selecting a tool does not end the shape in progress.  In the version
    with [MapFeature] records, a line drawn with two clicks, then the Point
    tool, then the Line tool again: the next click extends the old line, the
    list still holds one feature.  In [MapComponent] the same run leaves the
    two points in [linePoints] through both tool changes, and the click after
    them creates a LineString that starts with the two old points. *)
Theorem C3_tool_change_resumes_shape :
  Drafts.features Sample.draft2_line_two_clicks
    = [Drafts.line_feature [Sample.pos 0 0; Sample.pos 1 1] "line-2000"] /\
  Drafts.features Sample.draft2_away_and_back
    = [Drafts.line_feature [Sample.pos 0 0; Sample.pos 1 1; Sample.pos 2 2] "line-3000"] /\
  MapComponent.linePoints
    (MapComponent.handleToolSelect (Some line)
       (MapComponent.handleToolSelect (Some point) Sample.line_two_clicks))
    = [Sample.pos 0 0; Sample.pos 1 1] /\
  In (GeoJSON.LineString [Sample.pos 0 0; Sample.pos 1 1; Sample.pos 2 2])
     (map GeoJSON.geometry (MapComponent.features Sample.away_and_back)).
Proof.
  split; [vm_compute; reflexivity|].
  split; [vm_compute; reflexivity|].
  split; [vm_compute; reflexivity|].
  assert (H : map GeoJSON.geometry (MapComponent.features Sample.away_and_back)
              = [GeoJSON.LineString [Sample.pos 0 0; Sample.pos 1 1; Sample.pos 2 2]])
    by (vm_compute; reflexivity).
  rewrite H. left. reflexivity.
Qed.


(** An event without [lngLat] stops the listener of a selected tool at
    [e.lngLat.lng]; without a tool both listeners return at their guard. *)
Lemma click_without_lngLat_bound (tool : option Tool) (sc : MapComponent.Scope)
    (st : MapComponent.State) :
  bound tool sc st ->
  MapComponent.click_without_lngLat st
  = match tool with
    | Some _ => Throw TypeError
    | None => Normal st
    end.
Proof.
  intros (m & l0 & l1 & Hm & Hls & H0 & H1 & Hsc & Hmode & Hdeps & _).
  unfold MapComponent.click_without_lngLat. rewrite Hm, Hls. cbn [fold_left bind].
  unfold MapComponent.handleDrawingClick_without_lngLat at 1. rewrite H0. cbn [bind].
  unfold MapComponent.handleDrawingClick_without_lngLat. rewrite H1, Hsc, Hm.
  destruct tool as [t|]; [reflexivity|]. cbn [bind].
  rewrite run_effects_idle; [reflexivity|].
  rewrite Hmode, Hdeps. reflexivity.
Qed.




(** C6, as stated, fails.  What [handleFeatureDelete] and
    [handleFeatureUpdate] hand back for an id that is not in the list is what
    they hand back for an id that is, so no reading of it tells [NotFound]
    from [Done]; and there is an id that is not in the list, the id of the
    point's layer, on which [handleFeatureDelete] throws.  The list holds the
    one point ["uuid-0"]. *)
Lemma C6_no_outcome_reported :
  (~ exists report : option undefined -> Outcome,
       report (MapComponent.returned
                 (MapComponent.handleFeatureDelete_call "nonexistent" Sample.one_point))
         = NotFound /\
       report (MapComponent.returned
                 (MapComponent.handleFeatureDelete_call "uuid-0" Sample.one_point))
         = Done) /\
  (~ exists report : option undefined -> Outcome,
       report (MapComponent.returned
                 (MapComponent.handleFeatureUpdate
                    (GeoJSON.with_properties
                       {| GeoJSON.id := "nonexistent";
                          GeoJSON.geometry := GeoJSON.Point (Sample.pos 0 0);
                          GeoJSON.properties :=
                            {| GeoJSON.name := ""; GeoJSON.description := "" |} |}
                       {| GeoJSON.name := "x"; GeoJSON.description := "y" |})
                    Sample.one_point))
         = NotFound /\
       report (MapComponent.returned
                 (MapComponent.handleFeatureUpdate
                    (GeoJSON.with_properties Sample.the_point
                       {| GeoJSON.name := "x"; GeoJSON.description := "y" |})
                    Sample.one_point))
         = Done) /\
  map GeoJSON.id (MapComponent.features Sample.one_point) = ["uuid-0"] /\
  MapComponent.handleFeatureDelete_call "layer-uuid-0" Sample.one_point = Throw Error.
Proof.
  split; [|split; [|split; vm_compute; reflexivity]];
    intros (report & Hmissing & Hpresent).
  - assert (Hsame :
      MapComponent.returned
        (MapComponent.handleFeatureDelete_call "uuid-0" Sample.one_point)
      = Some Undefined) by (vm_compute; reflexivity).
    rewrite Hsame in Hpresent. clear Hsame.
    assert (Hsame :
      MapComponent.returned
        (MapComponent.handleFeatureDelete_call "nonexistent" Sample.one_point)
      = Some Undefined) by (vm_compute; reflexivity).
    rewrite Hsame in Hmissing. rewrite Hmissing in Hpresent. discriminate.
  - assert (Hsame :
      MapComponent.returned
        (MapComponent.handleFeatureUpdate
           (GeoJSON.with_properties Sample.the_point
              {| GeoJSON.name := "x"; GeoJSON.description := "y" |})
           Sample.one_point) = Some Undefined) by (vm_compute; reflexivity).
    rewrite Hsame in Hpresent. clear Hsame.
    assert (Hsame :
      MapComponent.returned
        (MapComponent.handleFeatureUpdate
           (GeoJSON.with_properties
              {| GeoJSON.id := "nonexistent";
                 GeoJSON.geometry := GeoJSON.Point (Sample.pos 0 0);
                 GeoJSON.properties :=
                   {| GeoJSON.name := ""; GeoJSON.description := "" |} |}
              {| GeoJSON.name := "x"; GeoJSON.description := "y" |})
           Sample.one_point) = Some Undefined) by (vm_compute; reflexivity).
    rewrite Hsame in Hmissing. rewrite Hmissing in Hpresent. discriminate.
Qed.

(** C6, amended.  When no feature of the list has id [id0], and [id0] names
    no layer of the map (which has no source called ["features"]),
    [handleFeatureDelete id0] and [handleFeatureUpdate] of a feature with id
    [id0] return without an exception and leave the list as it is;
    [handleFeatureDelete] leaves the layers and the sources of the map as
    they are too. *)
Theorem C6_missing_id_leaves_list :
  forall (st : MapComponent.State) (id0 : string),
    (forall m, MapComponent.map_current st = Some m ->
               Mapbox.getSource "features" m = false /\
               Mapbox.getLayer id0 m = false) ->
    (forall f, In f (MapComponent.features st) -> GeoJSON.id f <> id0) ->
    (exists st',
       MapComponent.handleFeatureDelete_call id0 st = Normal st' /\
       MapComponent.features st' = MapComponent.features st /\
       layers_of st' = layers_of st /\
       sources_of st' = sources_of st) /\
    forall upd, GeoJSON.id upd = id0 ->
      exists st', MapComponent.handleFeatureUpdate upd st = Normal st' /\
                  MapComponent.features st' = MapComponent.features st.
Proof.
  intros st id0 Hmap Habs.
  destruct (MapComponent.map_current st) as [m|] eqn:Hm.
  - destruct (Hmap m eq_refl) as [Hsrc Hlayer]. split.
    + exists (MapComponent.handleFeatureDelete id0 st). split; [|split].
      * unfold MapComponent.handleFeatureDelete_call. rewrite Hm, Hlayer. reflexivity.
      * rewrite (handleFeatureDelete_features id0 st Hm).
        apply filter_absent. exact Habs.
      * assert (Hrender : forall s,
                  layers_of (MapComponent.run_effects s) = layers_of s /\
                  sources_of (MapComponent.run_effects s) = sources_of s).
        { intros [[[ls srcs lyrs]|] dm cf fs sf sp lp pp ed ec fc uc];
            unfold MapComponent.run_effects, MapComponent.on_map,
              MapComponent.new_listener, layers_of, sources_of; simpl;
            destruct (deps_same dm ed); try (split; reflexivity);
            destruct ec as [l|]; simpl; split; reflexivity. }
        unfold MapComponent.handleFeatureDelete. rewrite Hm.
        match goal with
        | |- layers_of (MapComponent.run_effects ?s) = _ /\ _ =>
            destruct (Hrender s) as [Hl Hs]; rewrite Hl, Hs
        end.
        destruct st as [mc dm cf fs sf sp lp pp ed ec fc uc]. simpl in Hm. subst mc.
        unfold MapComponent.on_map, MapComponent.selected_is, layers_of, sources_of.
        simpl. rewrite Hlayer.
        destruct (match sf with
                  | Some f => (GeoJSON.id f =? id0)%string
                  | None => false
                  end); split; reflexivity.
    + intros upd Hid.
      destruct (String.eqb_spec (GeoJSON.id upd) "") as [E|E].
      * unfold MapComponent.handleFeatureUpdate. rewrite Hm.
        rewrite (proj2 (String.eqb_eq _ _) E).
        exists st. split; reflexivity.
      * destruct (@handleFeatureUpdate_features upd st m Hm E Hsrc)
          as (st' & Hrun & Hfs & _).
        exists st'. split; [exact Hrun|].
        rewrite Hfs. apply map_update_absent. rewrite Hid. exact Habs.
  - unfold MapComponent.handleFeatureDelete_call, MapComponent.handleFeatureUpdate.
    rewrite Hm. split.
    + exists st. repeat split; reflexivity.
    + intros upd _. exists st. split; reflexivity.
Qed.

(** C6 amended, on the sample run: delete and update of the id
    ["nonexistent"] against the list that holds the point ["uuid-0"]. *)
Lemma C6_missing_id_leaves_list_witness :
  (exists st',
     MapComponent.handleFeatureDelete_call "nonexistent" Sample.one_point = Normal st' /\
     MapComponent.features st' = MapComponent.features Sample.one_point /\
     layers_of st' = layers_of Sample.one_point /\
     sources_of st' = sources_of Sample.one_point) /\
  exists st',
    MapComponent.handleFeatureUpdate
      {| GeoJSON.id := "nonexistent";
         GeoJSON.geometry := GeoJSON.Point (Sample.pos 0 0);
         GeoJSON.properties := {| GeoJSON.name := "x"; GeoJSON.description := "y" |} |}
      Sample.one_point = Normal st' /\
    MapComponent.features st' = MapComponent.features Sample.one_point.
Proof.
  assert (Hmap : MapComponent.map_current Sample.one_point
                 = Some (Sample.map_of Sample.one_point))
    by (vm_compute; reflexivity).
  assert (Hfs : MapComponent.features Sample.one_point = [Sample.the_point])
    by (vm_compute; reflexivity).
  assert (Hsrc : forall m, MapComponent.map_current Sample.one_point = Some m ->
                           Mapbox.getSource "features" m = false /\
                           Mapbox.getLayer "nonexistent" m = false).
  { intros m Hm. rewrite Hmap in Hm. injection Hm as <-.
    split; vm_compute; reflexivity. }
  assert (Habs : forall f, In f (MapComponent.features Sample.one_point) ->
                           GeoJSON.id f <> "nonexistent").
  { intros f Hf. rewrite Hfs in Hf. destruct Hf as [<-|[]].
    apply String.eqb_neq. vm_compute. reflexivity. }
  destruct (@C6_missing_id_leaves_list Sample.one_point "nonexistent" Hsrc Habs)
    as (Hdel & Hupd).
  split; [exact Hdel|].
  exact (Hupd {| GeoJSON.id := "nonexistent";
                 GeoJSON.geometry := GeoJSON.Point (Sample.pos 0 0);
                 GeoJSON.properties :=
                   {| GeoJSON.name := "x"; GeoJSON.description := "y" |} |}
              eq_refl).
Defined.

(** C7.  In [MapComponent], on a mounted map, [handleFeatureDelete id0] leaves
    no feature with id [id0] in the list; when the selected feature has id
    [id0] the selection becomes absent and the properties panel closes; when
    another feature or none is selected, selection and panel stay as they
    were.  [Home.handleFeatureDelete] does the same with its list and its
    selected id. *)
Theorem C7_delete_clears_selection :
  forall (st : MapComponent.State) (m : MapComponent.Map) (id0 : string),
    MapComponent.map_current st = Some m ->
    let st' := MapComponent.handleFeatureDelete id0 st in
    (forall f, In f (MapComponent.features st') -> GeoJSON.id f <> id0) /\
    (forall F, MapComponent.selectedFeature st = Some F -> GeoJSON.id F = id0 ->
       MapComponent.selectedFeature st' = None /\
       MapComponent.showProperties st' = false) /\
    (forall F, MapComponent.selectedFeature st = Some F -> GeoJSON.id F <> id0 ->
       MapComponent.selectedFeature st' = Some F /\
       MapComponent.showProperties st' = MapComponent.showProperties st) /\
    (MapComponent.selectedFeature st = None ->
       MapComponent.selectedFeature st' = None /\
       MapComponent.showProperties st' = MapComponent.showProperties st) /\
    (forall (h : Home.State),
       let h' := Home.handleFeatureDelete id0 h in
       (forall f, In f (Home.features h') -> GeoJSON.id f <> id0) /\
       (Home.selectedFeature h = Some id0 -> Home.selectedFeature h' = None) /\
       (Home.selectedFeature h <> Some id0 ->
          Home.selectedFeature h' = Home.selectedFeature h)).
Proof.
  intros st m id0 Hm st'.
  destruct (handleFeatureDelete_selection id0 st Hm) as [Hsel Hother].
  split; [|split; [|split; [|split]]].
  - subst st'. rewrite (handleFeatureDelete_features id0 st Hm).
    apply filter_no_match.
  - intros F HF Hid. apply Hsel. unfold MapComponent.selected_is.
    rewrite HF. apply String.eqb_eq. exact Hid.
  - intros F HF Hid. rewrite <- HF. apply Hother.
    unfold MapComponent.selected_is. rewrite HF. apply String.eqb_neq. exact Hid.
  - intros HN. rewrite <- HN at 1. apply Hother.
    unfold MapComponent.selected_is. rewrite HN. reflexivity.
  - intros h h'. split; [|split].
    + apply filter_no_match.
    + intros Hs. subst h'. unfold Home.handleFeatureDelete, Home.selected_is.
      simpl. rewrite Hs, String.eqb_refl. reflexivity.
    + intros Hs. subst h'. unfold Home.handleFeatureDelete, Home.selected_is.
      simpl. destruct (Home.selectedFeature h) as [s|]; [|reflexivity].
      destruct (String.eqb_spec s id0) as [E|E]; [|reflexivity].
      exfalso. apply Hs. rewrite E. reflexivity.
Qed.

(** C7 on the sample runs: two points drawn, the first selected; deleting it
    empties the selection and closes the panel, deleting the second leaves
    selection and panel; with nothing selected a delete selects nothing; and
    [Home] with the point selected, the same two deletes. *)
Lemma C7_delete_clears_selection_witness :
  MapComponent.map_current Sample.two_points_selected
    = Some (Sample.map_of Sample.two_points_selected) /\
  MapComponent.selectedFeature Sample.two_points_selected = Some Sample.the_point /\
  (MapComponent.selectedFeature
     (MapComponent.handleFeatureDelete "uuid-0" Sample.two_points_selected) = None /\
   MapComponent.showProperties
     (MapComponent.handleFeatureDelete "uuid-0" Sample.two_points_selected) = false) /\
  (MapComponent.selectedFeature
     (MapComponent.handleFeatureDelete "uuid-1" Sample.two_points_selected)
     = Some Sample.the_point /\
   MapComponent.showProperties
     (MapComponent.handleFeatureDelete "uuid-1" Sample.two_points_selected)
     = MapComponent.showProperties Sample.two_points_selected) /\
  (MapComponent.selectedFeature Sample.one_point = None /\
   MapComponent.selectedFeature
     (MapComponent.handleFeatureDelete "uuid-0" Sample.one_point) = None) /\
  Home.selectedFeature (Home.handleFeatureDelete "uuid-0" Sample.home_selected) = None /\
  Home.selectedFeature (Home.handleFeatureDelete "uuid-1" Sample.home_selected)
    = Home.selectedFeature Sample.home_selected.
Proof.
  assert (Hm : MapComponent.map_current Sample.two_points_selected
               = Some (Sample.map_of Sample.two_points_selected))
    by (vm_compute; reflexivity).
  assert (HF : MapComponent.selectedFeature Sample.two_points_selected
               = Some Sample.the_point)
    by (vm_compute; reflexivity).
  assert (Hm1 : MapComponent.map_current Sample.one_point
                = Some (Sample.map_of Sample.one_point))
    by (vm_compute; reflexivity).
  assert (HN : MapComponent.selectedFeature Sample.one_point = None)
    by (vm_compute; reflexivity).
  assert (Hother : GeoJSON.id Sample.the_point <> "uuid-1")
    by (apply String.eqb_neq; vm_compute; reflexivity).
  assert (Hhome : Home.selectedFeature Sample.home_selected <> Some "uuid-1").
  { intros H. vm_compute in H. discriminate H. }
  split; [exact Hm|]. split; [exact HF|].
  split; [|split; [|split; [|split]]].
  - exact (proj1 (proj2 (@C7_delete_clears_selection Sample.two_points_selected
                           (Sample.map_of Sample.two_points_selected) "uuid-0" Hm))
                 Sample.the_point HF eq_refl).
  - exact (proj1 (proj2 (proj2 (@C7_delete_clears_selection Sample.two_points_selected
                                  (Sample.map_of Sample.two_points_selected) "uuid-1" Hm)))
                 Sample.the_point HF Hother).
  - split; [exact HN|].
    exact (proj1 (proj1 (proj2 (proj2 (proj2
             (@C7_delete_clears_selection Sample.one_point
                (Sample.map_of Sample.one_point) "uuid-0" Hm1)))) HN)).
  - exact (proj1 (proj2 (proj2 (proj2 (proj2 (proj2
             (@C7_delete_clears_selection Sample.two_points_selected
                (Sample.map_of Sample.two_points_selected) "uuid-0" Hm))))
             Sample.home_selected)) eq_refl).
  - exact (proj2 (proj2 (proj2 (proj2 (proj2 (proj2
             (@C7_delete_clears_selection Sample.two_points_selected
                (Sample.map_of Sample.two_points_selected) "uuid-1" Hm))))
             Sample.home_selected)) Hhome).
Defined.

(** C8.  In the version with [MapFeature] records the line created by the
    first click has the id of that moment, and the second click replaces it
    by a line with the id of the later moment: the id of the feature in
    progress changes with every vertex.  In the earliest version one click
    under the Point tool, handled by its two listeners within one
    millisecond, leaves two features with one id. *)
Theorem C8_id_changes_on_append :
  map Drafts.id (Drafts.features Sample.draft2_line_one_click) = ["line-1000"] /\
  map Drafts.id (Drafts.features Sample.draft2_line_two_clicks) = ["line-2000"] /\
  map Drafts.id
    (Drafts.features (Draft1.click 1000%N (Sample.at_ 10 20) Sample.draft1_point_tool))
    = ["point-1000"; "point-1000"].
Proof.
  repeat split; vm_compute; reflexivity.
Qed.

(** C9.  Saving the edit form while a feature [F] with a non-empty id is
    selected (map mounted, no source called ["features"]) returns normally
    and rewrites the list entry by entry: the list keeps its length and order,
    every entry keeps its id and its geometry, the entries whose id is [F]'s
    get exactly the new name and description, and every other entry is the
    entry that was there. *)
Theorem C9_update_changes_properties_only :
  forall (st : MapComponent.State) (m : MapComponent.Map) (F : GeoJSON.Feature)
         (name description : string),
    MapComponent.map_current st = Some m ->
    Mapbox.getSource "features" m = false ->
    MapComponent.showProperties st = true ->
    MapComponent.selectedFeature st = Some F ->
    GeoJSON.id F <> "" ->
    exists st',
      MapComponent.save name description st = Normal st' /\
      List.length (MapComponent.features st') = List.length (MapComponent.features st) /\
      forall i f, nth_error (MapComponent.features st) i = Some f ->
        exists f',
          nth_error (MapComponent.features st') i = Some f' /\
          GeoJSON.id f' = GeoJSON.id f /\
          GeoJSON.geometry f' = GeoJSON.geometry f /\
          (GeoJSON.id f = GeoJSON.id F ->
             GeoJSON.properties f' =
               {| GeoJSON.name := name; GeoJSON.description := description |}) /\
          (GeoJSON.id f <> GeoJSON.id F -> f' = f).
Proof.
  intros st m F name description Hm Hsrc Hshow Hsel Hid.
  unfold MapComponent.save, FeatureProperties.handleSave. rewrite Hshow, Hsel.
  set (upd := GeoJSON.with_properties F
                {| GeoJSON.name := name; GeoJSON.description := description |}).
  destruct (@handleFeatureUpdate_features upd st m Hm Hid Hsrc)
    as (st1 & Hrun & Hfs & _ & _).
  rewrite Hrun. simpl.
  exists (MapComponent.onClose st1). split; [reflexivity|].
  rewrite onClose_features, Hfs.
  split; [apply length_map|].
  intros i f Hf. rewrite (map_update_nth upd _ _ Hf).
  eexists. split; [reflexivity|]. simpl.
  destruct (String.eqb_spec (GeoJSON.id f) (GeoJSON.id F)) as [E|E]; simpl.
  - repeat split; try reflexivity. intros HE. contradiction.
  - repeat split; try reflexivity. intros HE. contradiction.
Qed.

(** C9 on the sample run: the first of two points is selected and saved as
    "Cafe" / "Good coffee"; the list shows it with its id and geometry and
    the new properties, and the second point as it was. *)
Lemma C9_update_changes_properties_only_witness :
  exists st',
    MapComponent.save "Cafe" "Good coffee" Sample.two_points_selected = Normal st' /\
    nth_error (MapComponent.features st') 0 =
      Some {| GeoJSON.id := "uuid-0";
              GeoJSON.geometry := GeoJSON.Point (Sample.pos 10 20);
              GeoJSON.properties :=
                {| GeoJSON.name := "Cafe"; GeoJSON.description := "Good coffee" |} |} /\
    nth_error (MapComponent.features st') 1 =
      nth_error (MapComponent.features Sample.two_points_selected) 1.
Proof.
  assert (Hm : MapComponent.map_current Sample.two_points_selected
               = Some (Sample.map_of Sample.two_points_selected))
    by (vm_compute; reflexivity).
  assert (Hsrc : Mapbox.getSource "features"
                   (Sample.map_of Sample.two_points_selected) = false)
    by (vm_compute; reflexivity).
  assert (Hshow : MapComponent.showProperties Sample.two_points_selected = true)
    by (vm_compute; reflexivity).
  assert (HF : MapComponent.selectedFeature Sample.two_points_selected
               = Some Sample.the_point)
    by (vm_compute; reflexivity).
  assert (Hid : GeoJSON.id Sample.the_point <> "") by discriminate.
  destruct (@C9_update_changes_properties_only Sample.two_points_selected
              (Sample.map_of Sample.two_points_selected) Sample.the_point
              "Cafe" "Good coffee" Hm Hsrc Hshow HF Hid)
    as (st' & Hrun & _ & Hnth).
  exists st'. split; [exact Hrun|].
  assert (H0 : nth_error (MapComponent.features Sample.two_points_selected) 0
               = Some Sample.the_point) by (vm_compute; reflexivity).
  destruct (Hnth 0 Sample.the_point H0) as (f0 & Hf0 & Hid0 & Hgeo0 & Hprop0 & _).
  specialize (Hprop0 eq_refl).
  split.
  - rewrite Hf0. destruct f0 as [i g p]. simpl in Hid0, Hgeo0, Hprop0.
    rewrite Hid0, Hgeo0, Hprop0. reflexivity.
  - assert (H1 : exists f, nth_error (MapComponent.features Sample.two_points_selected) 1
                           = Some f /\ GeoJSON.id f = "uuid-1").
    { eexists. split; vm_compute; reflexivity. }
    destruct H1 as (f1 & Hf1 & Hid1).
    destruct (Hnth 1 f1 Hf1) as (f1' & Hf1' & _ & _ & _ & Hsame).
    rewrite Hf1', Hf1. f_equal. apply Hsame. rewrite Hid1.
    apply String.eqb_neq. vm_compute. reflexivity.
Defined.

(** C10.  On a mounted map the list after [handleFeatureDelete id0] is the
    list before it filtered on [f.id !== id0]: entries are neither changed nor
    reordered; when the ids in the list are pairwise distinct and [f] is the
    entry with id [id0], the result is the list with exactly that entry taken
    out, and when no entry has id [id0] it is the list itself.
    [removeFeature index] with [index] inside the list returns the list with
    exactly the entry at [index] taken out; past the end it throws before any
    cell is written. *)
Theorem C10_delete_preserves_order :
  forall (st : MapComponent.State) (m : MapComponent.Map),
    MapComponent.map_current st = Some m ->
    (forall id0,
       let after := MapComponent.features (MapComponent.handleFeatureDelete id0 st) in
       after = filter (other_id id0) (MapComponent.features st) /\
       (forall f, NoDup (map GeoJSON.id (MapComponent.features st)) ->
          In f (MapComponent.features st) -> GeoJSON.id f = id0 ->
          exists before_f after_f,
            MapComponent.features st = before_f ++ f :: after_f /\
            after = before_f ++ after_f) /\
       ((forall f, In f (MapComponent.features st) -> GeoJSON.id f <> id0) ->
          after = MapComponent.features st)) /\
    (forall index,
       (forall f, nth_error (MapComponent.features st) index = Some f ->
          exists st' before_f after_f,
            MapComponent.removeFeature index st = Normal st' /\
            MapComponent.features st = before_f ++ f :: after_f /\
            List.length before_f = index /\
            MapComponent.features st' = before_f ++ after_f) /\
       (List.length (MapComponent.features st) <= index ->
          MapComponent.removeFeature index st = Throw TypeError)).
Proof.
  intros st m Hm. split.
  - intros id0 after. subst after.
    rewrite (handleFeatureDelete_features id0 st Hm).
    split; [reflexivity|]. split.
    + intros f Hnd Hin Hid. apply filter_unique; assumption.
    + intros Habs. apply filter_absent. exact Habs.
  - intros index. split.
    + intros f Hf. unfold MapComponent.removeFeature. rewrite Hm, Hf.
      destruct (filter_index_split _ _ Hf) as (before_f & after_f & Hsplit & Hlen & Hrem).
      eexists. exists before_f, after_f. split; [reflexivity|].
      split; [exact Hsplit|]. split; [exact Hlen|].
      rewrite run_effects_features.
      destruct st as [mc dm cf fs sf sp lp pp ed ec fc uc]. simpl in Hm. subst mc.
      unfold MapComponent.on_map. simpl. exact Hrem.
    + intros Hlen. unfold MapComponent.removeFeature. rewrite Hm.
      apply nth_error_None in Hlen. rewrite Hlen. reflexivity.
Qed.

(** C10 on the sample run of two points with the ids ["uuid-0"] and
    ["uuid-1"]: deleting ["uuid-0"] takes the first point out, an id that is
    not in the list changes nothing, removing index 0 takes the first point
    out and removing index 2 throws. *)
Lemma C10_delete_preserves_order_witness :
  MapComponent.map_current Sample.two_points_selected
    = Some (Sample.map_of Sample.two_points_selected) /\
  map GeoJSON.id (MapComponent.features Sample.two_points_selected)
    = ["uuid-0"; "uuid-1"] /\
  MapComponent.features (MapComponent.handleFeatureDelete "uuid-0" Sample.two_points_selected)
    = filter (other_id "uuid-0") (MapComponent.features Sample.two_points_selected) /\
  (exists before_f after_f,
     MapComponent.features Sample.two_points_selected
       = before_f ++ Sample.the_point :: after_f /\
     MapComponent.features
       (MapComponent.handleFeatureDelete "uuid-0" Sample.two_points_selected)
       = before_f ++ after_f) /\
  MapComponent.features
    (MapComponent.handleFeatureDelete "nonexistent" Sample.two_points_selected)
    = MapComponent.features Sample.two_points_selected /\
  (exists st' before_f after_f,
     MapComponent.removeFeature 0 Sample.two_points_selected = Normal st' /\
     MapComponent.features Sample.two_points_selected
       = before_f ++ Sample.the_point :: after_f /\
     List.length before_f = 0 /\
     MapComponent.features st' = before_f ++ after_f) /\
  MapComponent.removeFeature 2 Sample.two_points_selected = Throw TypeError.
Proof.
  assert (Hm : MapComponent.map_current Sample.two_points_selected
               = Some (Sample.map_of Sample.two_points_selected))
    by (vm_compute; reflexivity).
  assert (Hids : map GeoJSON.id (MapComponent.features Sample.two_points_selected)
                 = ["uuid-0"; "uuid-1"])
    by (vm_compute; reflexivity).
  assert (Hnd : NoDup (map GeoJSON.id (MapComponent.features Sample.two_points_selected))).
  { rewrite Hids. constructor.
    - intros [H|[]]. apply String.eqb_eq in H. vm_compute in H. discriminate H.
    - constructor; [intros []|constructor]. }
  assert (H0 : nth_error (MapComponent.features Sample.two_points_selected) 0
               = Some Sample.the_point)
    by (vm_compute; reflexivity).
  assert (Hin : In Sample.the_point (MapComponent.features Sample.two_points_selected))
    by (apply (nth_error_In _ 0); exact H0).
  assert (Habs : forall f, In f (MapComponent.features Sample.two_points_selected) ->
                           GeoJSON.id f <> "nonexistent").
  { intros f Hf. apply (in_map GeoJSON.id) in Hf. rewrite Hids in Hf.
    destruct Hf as [<-|[<-|[]]]; apply String.eqb_neq; vm_compute; reflexivity. }
  split; [exact Hm|]. split; [exact Hids|].
  destruct (@C10_delete_preserves_order Sample.two_points_selected
              (Sample.map_of Sample.two_points_selected) Hm) as [Hdel Hrem].
  split; [exact (proj1 (Hdel "uuid-0"))|].
  split; [exact (proj1 (proj2 (Hdel "uuid-0")) Sample.the_point Hnd Hin eq_refl)|].
  split; [exact (proj2 (proj2 (Hdel "nonexistent")) Habs)|].
  split; [exact (proj1 (Hrem 0) Sample.the_point H0)|].
  apply (proj2 (Hrem 2)).
  rewrite <- (length_map GeoJSON.id), Hids. simpl. lia.
Defined.

(** * Further properties of the code *)

(** ** Strings and lists *)

Lemma mem_string_In (s : string) (xs : list string) :
  mem_string s xs = true <-> In s xs.
Proof.
  unfold mem_string. rewrite existsb_exists. split.
  - intros (x & Hx & E). apply String.eqb_eq in E. subst x. exact Hx.
  - intros H. exists s. split; [exact H|apply String.eqb_refl].
Qed.

Lemma mem_string_absent (s : string) (xs : list string) :
  ~ In s xs -> mem_string s xs = false.
Proof.
  intros H. destruct (mem_string s xs) eqn:E; [|reflexivity].
  exfalso. apply H. apply mem_string_In. exact E.
Qed.

Lemma remove_string_absent (s : string) (xs : list string) :
  ~ In s xs -> remove_string s xs = xs.
Proof.
  unfold remove_string. induction xs as [|x rest IH]; intros H; simpl; [reflexivity|].
  destruct (String.eqb_spec s x) as [E|E]; simpl.
  - exfalso. apply H. left. symmetry. exact E.
  - rewrite IH; [reflexivity|]. intros Hin. apply H. right. exact Hin.
Qed.

Lemma remove_string_snoc (s : string) (xs : list string) :
  ~ In s xs -> remove_string s (xs ++ [s]) = xs.
Proof.
  intros H. unfold remove_string. rewrite filter_app. simpl.
  rewrite String.eqb_refl. simpl. rewrite app_nil_r.
  apply remove_string_absent. exact H.
Qed.

Lemma filter_index_In (A : Type) (index : nat) (xs : list A) (x : A) :
  In x (filter_index index xs) -> In x xs.
Proof.
  revert index. induction xs as [|y rest IH]; intros [|i] H; simpl in *; auto.
  destruct H as [H|H]; [left; exact H|right; apply (IH i H)].
Qed.

Lemma filter_index_snoc (A : Type) (xs : list A) (x : A) :
  filter_index (List.length xs) (xs ++ [x]) = xs.
Proof.
  induction xs as [|y rest IH]; simpl; [reflexivity|]. rewrite IH. reflexivity.
Qed.

Section DistinctIds.
Import GeoJSON.

Lemma NoDup_ids_filter (p : Feature -> bool) (fs : list Feature) :
  NoDup (map id fs) -> NoDup (map id (filter p fs)).
Proof.
  induction fs as [|f rest IH]; intros H; simpl; [constructor|].
  simpl in H. inversion H as [|? ? Hnotin Hrest]; subst.
  destruct (p f); [|apply IH; exact Hrest].
  simpl. constructor; [|apply IH; exact Hrest].
  intros Hin. apply Hnotin. apply in_map_iff in Hin.
  destruct Hin as (g & Hg & Hin). apply in_map_iff. exists g.
  split; [exact Hg|]. apply filter_In in Hin. apply Hin.
Qed.

Lemma NoDup_ids_filter_index (index : nat) (fs : list Feature) :
  NoDup (map id fs) -> NoDup (map id (filter_index index fs)).
Proof.
  revert index. induction fs as [|f rest IH]; intros [|i] H; simpl; try constructor;
    simpl in H; inversion H as [|? ? Hnotin Hrest]; subst; auto.
  intros Hin. apply Hnotin. apply in_map_iff in Hin.
  destruct Hin as (g & Hg & Hin). apply in_map_iff. exists g.
  split; [exact Hg|]. apply (@filter_index_In _ i rest g Hin).
Qed.

Lemma map_update_ids (upd : Feature) (fs : list Feature) :
  map id (map (fun f => if (id f =? id upd)%string
                        then with_properties f (properties upd) else f) fs)
  = map id fs.
Proof.
  rewrite map_map. apply map_ext. intros f.
  destruct (id f =? id upd)%string; reflexivity.
Qed.
End DistinctIds.

(** ** [MapComponent.tsx]: what every handler keeps *)

Section MapComponentInvariant.
Import GeoJSON MapComponent.
Variable uuidv4 : nat -> string.

Lemma issued_later (prefix s : string) (st st' : State) :
  uuid_count st <= uuid_count st' ->
  issued uuidv4 st prefix s -> issued uuidv4 st' prefix s.
Proof.
  intros Hle (k & Hk & ->). exists k. split; [lia|reflexivity].
Qed.

Lemma bound_same_listeners (tool : option Tool) (sc : Scope) (st st' : State) :
  bound tool sc st -> same_listeners st' st -> drawingMode st' = drawingMode st ->
  bound tool sc st'.
Proof.
  intros (m & l0 & l1 & Hm & Hls & H0 & H1 & Hsc & Hmode & Hdeps & Hclean & Hne & Hlt0 & Hlt1)
         (Hl & Hnone & He & Hc & Hf) Hd.
  unfold listeners_of in Hl. rewrite Hm, Hls in Hl.
  destruct (map_current st') as [m'|] eqn:Hm'.
  - exists m', l0, l1. rewrite Hd, He, Hc, Hf. repeat split; assumption.
  - exfalso. destruct Hnone as [Hnone _]. specialize (Hnone eq_refl).
    rewrite Hm in Hnone. discriminate.
Qed.

Lemma removes_only_refl (st : State) : removes_only st st.
Proof.
  unfold removes_only, same_listeners. repeat split; auto; apply incl_refl.
Qed.

(** Taking a layer and its source off the map. *)
Lemma remove_layer_frame (cond : bool) (s : string) (m : Map) :
  Mapbox.click_listeners
    (if cond then Mapbox.removeSource s (Mapbox.removeLayer s m) else m)
    = Mapbox.click_listeners m /\
  incl (Mapbox.layers (if cond then Mapbox.removeSource s (Mapbox.removeLayer s m) else m))
       (Mapbox.layers m) /\
  incl (Mapbox.sources (if cond then Mapbox.removeSource s (Mapbox.removeLayer s m) else m))
       (Mapbox.sources m).
Proof.
  destruct m as [ls srcs lyrs]. destruct cond; simpl.
  - split; [reflexivity|]. split; apply incl_filter.
  - split; [reflexivity|]. split; apply incl_refl.
Qed.

Lemma handleFeatureDelete_frame (id0 : string) (st : State) :
  effect_deps st = drawingMode st ->
  removes_only (handleFeatureDelete id0 st) st.
Proof.
  intros Hd. destruct st as [[m|] dm cf fs sf sp lp pp ed ec fc uc]; simpl in Hd; subst ed;
    [|apply removes_only_refl].
  destruct (remove_layer_frame (Mapbox.getLayer id0 m) id0 m) as (Hl & Hly & Hsr).
  unfold handleFeatureDelete, on_map, selected_is. simpl.
  destruct (match sf with Some f => (id f =? id0)%string | None => false end);
    (rewrite run_effects_idle; [|reflexivity]);
    unfold removes_only, same_listeners, listeners_of, layers_of, sources_of; simpl;
    repeat split; try assumption; try reflexivity; discriminate.
Qed.

Lemma removeFeature_frame (index : nat) (st st' : State) (m : Map) :
  map_current st = Some m ->
  effect_deps st = drawingMode st ->
  removeFeature index st = Normal st' ->
  removes_only st' st /\
  features st' = filter_index index (features st) /\
  selectedFeature st' = selectedFeature st /\
  showProperties st' = showProperties st.
Proof.
  intros Hm Hd. destruct st as [mc dm cf fs sf sp lp pp ed ec fc uc].
  simpl in Hm, Hd. subst mc ed.
  unfold removeFeature. simpl.
  destruct (nth_error fs index) as [f|]; [|discriminate].
  set (cond := negb (id f =? "")%string && Mapbox.getLayer (id f) m).
  destruct (remove_layer_frame cond (id f) m) as (Hl & Hly & Hsr).
  unfold on_map. simpl. rewrite run_effects_idle; [|reflexivity].
  intros H. injection H as <-.
  unfold removes_only, same_listeners, listeners_of, layers_of, sources_of; simpl.
  repeat split; try assumption; try reflexivity; discriminate.
Qed.

Lemma handleFeatureSelect_frame (f : Feature) (st : State) :
  effect_deps st = drawingMode st ->
  removes_only (handleFeatureSelect f st) st /\
  features (handleFeatureSelect f st) = features st /\
  selectedFeature (handleFeatureSelect f st) = Some f /\
  showProperties (handleFeatureSelect f st) = true.
Proof.
  intros Hd. destruct st as [mc dm cf fs sf sp lp pp ed ec fc uc].
  simpl in Hd. subst ed.
  unfold handleFeatureSelect. simpl. rewrite run_effects_idle; [|reflexivity].
  split; [|repeat split; reflexivity].
  unfold removes_only, same_listeners, listeners_of, layers_of, sources_of; simpl.
  repeat split; auto; apply incl_refl.
Qed.

Lemma onClose_frame (st : State) :
  effect_deps st = drawingMode st ->
  removes_only (onClose st) st /\
  features (onClose st) = features st /\
  selectedFeature (onClose st) = None /\
  showProperties (onClose st) = false.
Proof.
  intros Hd. destruct st as [mc dm cf fs sf sp lp pp ed ec fc uc].
  simpl in Hd. subst ed.
  unfold onClose. simpl. rewrite run_effects_idle; [|reflexivity].
  split; [|repeat split; reflexivity].
  unfold removes_only, same_listeners, listeners_of, layers_of, sources_of; simpl.
  repeat split; auto; apply incl_refl.
Qed.

(** [handleFeatureUpdate], when it returns: the ids of the list are kept
    and the selection is cleared, or nothing is written at all. *)
Lemma handleFeatureUpdate_frame (upd : Feature) (st st' : State) :
  effect_deps st = drawingMode st ->
  handleFeatureUpdate upd st = Normal st' ->
  st' = st \/
  (removes_only st' st /\
   features st' =
     map (fun f => if (id f =? id upd)%string
                   then with_properties f (properties upd) else f) (features st) /\
   selectedFeature st' = None /\
   showProperties st' = false).
Proof.
  intros Hd. destruct st as [mc dm cf fs sf sp lp pp ed ec fc uc].
  simpl in Hd. subst ed.
  unfold handleFeatureUpdate. simpl.
  destruct mc as [m|]; [|intros H; injection H as <-; left; reflexivity].
  destruct (id upd =? "")%string; [intros H; injection H as <-; left; reflexivity|].
  destruct (Mapbox.getSource "features" m); [discriminate|].
  rewrite run_effects_idle; [|reflexivity].
  intros H. injection H as <-. right.
  split; [|repeat split; reflexivity].
  unfold removes_only, same_listeners, listeners_of, layers_of, sources_of; simpl.
  repeat split; auto; apply incl_refl.
Qed.

Lemma removes_only_trans (a b c : State) :
  removes_only a b -> removes_only b c -> removes_only a c.
Proof.
  intros ((Hl1 & Hn1 & He1 & Hc1 & Hf1) & Hd1 & Hu1 & Hly1 & Hsr1)
         ((Hl2 & Hn2 & He2 & Hc2 & Hf2) & Hd2 & Hu2 & Hly2 & Hsr2).
  unfold removes_only, same_listeners.
  rewrite Hl1, Hl2, He1, He2, Hc1, Hc2, Hf1, Hf2, Hd1, Hd2, Hu1, Hu2.
  repeat split; auto.
  - intros H. apply Hn2, Hn1, H.
  - intros H. apply Hn1, Hn2, H.
  - apply (incl_tran Hly1 Hly2).
  - apply (incl_tran Hsr1 Hsr2).
Qed.

Lemma add_to_map_incl (a b : string) (m : Map) :
  incl (Mapbox.layers (add_to_map a b m)) (Mapbox.layers m ++ [b]) /\
  incl (Mapbox.sources (add_to_map a b m)) (Mapbox.sources m ++ [a]).
Proof.
  destruct m as [ls srcs lyrs].
  unfold add_to_map, Mapbox.getSource, Mapbox.getLayer, Mapbox.addSource,
    Mapbox.addLayer. simpl.
  destruct (mem_string a srcs); simpl; destruct (mem_string b lyrs); simpl;
    split; try apply incl_refl; apply incl_appl, incl_refl.
Qed.

(** One call of a click listener: nothing is added, or one feature with the
    next uuid as its id, with at most its own source and layer. *)
Lemma handleDrawingClick_effect (sc : Scope) (e : MapMouseEvent) (st : State) :
  (features (handleDrawingClick uuidv4 sc e st) = features st /\
   uuid_count (handleDrawingClick uuidv4 sc e st) = uuid_count st /\
   layers_of (handleDrawingClick uuidv4 sc e st) = layers_of st /\
   sources_of (handleDrawingClick uuidv4 sc e st) = sources_of st) \/
  (exists f,
     id f = uuidv4 (uuid_count st) /\
     features (handleDrawingClick uuidv4 sc e st) = features st ++ [f] /\
     uuid_count (handleDrawingClick uuidv4 sc e st) = S (uuid_count st) /\
     incl (layers_of (handleDrawingClick uuidv4 sc e st))
          (layers_of st ++ [("layer-" ++ id f)%string]) /\
     incl (sources_of (handleDrawingClick uuidv4 sc e st))
          (sources_of st ++ [("source-" ++ id f)%string])).
Proof.
  destruct st as [[m|] dm cf fs sf sp lp pp ed ec fc uc].
  2:{ left. unfold handleDrawingClick. simpl.
      destruct (scope_drawingMode sc); repeat split; reflexivity. }
  unfold handleDrawingClick. simpl.
  destruct (scope_drawingMode sc) as [[]|].
  - right. unfold addPoint, on_map, call_uuidv4, layers_of, sources_of. simpl.
    eexists. split; [|split; [reflexivity|split; [reflexivity|]]]; [reflexivity|].
    apply add_to_map_incl.
  - unfold addLinePoint, on_map, call_uuidv4, layers_of, sources_of. simpl.
    destruct (0 <? List.length (scope_linePoints sc)); simpl.
    + right. eexists. split; [|split; [reflexivity|split; [reflexivity|]]]; [reflexivity|].
      apply add_to_map_incl.
    + left. repeat split; reflexivity.
  - unfold addPolygonPoint, on_map, call_uuidv4, layers_of, sources_of. simpl.
    destruct (0 <? List.length (scope_polygonPoints sc)); simpl.
    + right. eexists. split; [|split; [reflexivity|split; [reflexivity|]]]; [reflexivity|].
      apply add_to_map_incl.
    + left. repeat split; reflexivity.
  - left. repeat split; reflexivity.
Qed.

(** A run of the effect writes no layer and no source. *)
Lemma run_effects_map (st : State) :
  layers_of (run_effects st) = layers_of st /\
  sources_of (run_effects st) = sources_of st /\
  uuid_count (run_effects st) = uuid_count st.
Proof.
  destruct st as [[[ls srcs lyrs]|] dm cf fs sf sp lp pp ed ec fc uc];
    unfold run_effects, on_map, new_listener, layers_of, sources_of; simpl;
    destruct (deps_same dm ed); try (repeat split; reflexivity);
    destruct ec as [l|]; simpl; repeat split; reflexivity.
Qed.

(** After any handler that left the listeners alone, the render that
    follows binds one listener for the tool the component has then. *)
Lemma run_effects_bound (tool : option Tool) (sc : Scope) (st0 st : State) :
  bound tool sc st0 -> same_listeners st st0 ->
  exists sc', bound (drawingMode st) sc' (run_effects st).
Proof.
  intros (m & l0 & l1 & Hm & Hls & H0 & H1 & Hsc & Hmode & Hdeps & Hclean & Hne & Hlt0 & Hlt1)
         (Hl & Hnone & He & Hc & Hf).
  unfold listeners_of in Hl. rewrite Hm, Hls in Hl.
  rewrite Hdeps in He. rewrite Hclean in Hc. rewrite <- Hf in Hlt0, Hlt1.
  clear Hm Hls Hmode Hdeps Hclean Hf Hnone st0 m.
  destruct st as [mc dm cf fs sf sp lp pp ed ec fc uc]. simpl in *. subst ed ec.
  destruct mc as [[ls srcs lyrs]|]; [|discriminate]. simpl in Hl. subst ls.
  unfold run_effects. simpl.
  destruct (deps_same dm tool) eqn:Hs.
  - apply deps_same_eq in Hs. subst dm.
    exists sc. do 3 eexists. simpl. repeat split; try reflexivity; assumption.
  - assert (E01 : (Mapbox.fn l1 =? Mapbox.fn l0) = false)
      by (apply Nat.eqb_neq; auto).
    assert (Ec0 : (fc =? Mapbox.fn l0) = false) by (apply Nat.eqb_neq; lia).
    unfold on_map, new_listener. simpl.
    do 4 (unfold Mapbox.same_fn; simpl; rewrite ?E01, ?Nat.eqb_refl, ?Ec0; simpl).
    eexists. do 3 eexists. simpl.
    repeat split; try reflexivity; simpl; try assumption; lia.
Qed.

(** The loop of [clearAll] over the features. *)
Lemma clearAll_loop_frame (fs : list Feature) :
  forall s : State,
    let s' :=
      fold_left
        (fun (s : State) (feature : Feature) =>
           on_map (fun m =>
                     if negb (id feature =? "")%string && Mapbox.getLayer (id feature) m
                     then Mapbox.removeSource (id feature)
                            (Mapbox.removeLayer (id feature) m)
                     else m) s) fs s in
    removes_only s' s /\
    selectedFeature s' = selectedFeature s /\
    showProperties s' = showProperties s.
Proof.
  induction fs as [|f rest IH]; intros s; simpl.
  - split; [apply removes_only_refl|split; reflexivity].
  - destruct (IH (on_map (fun m =>
                     if negb (id f =? "")%string && Mapbox.getLayer (id f) m
                     then Mapbox.removeSource (id f) (Mapbox.removeLayer (id f) m)
                     else m) s)) as (Hr & Hsel & Hshow).
    simpl in Hr, Hsel, Hshow. rewrite Hsel, Hshow.
    assert (Hstep : removes_only
              (on_map (fun m =>
                     if negb (id f =? "")%string && Mapbox.getLayer (id f) m
                     then Mapbox.removeSource (id f) (Mapbox.removeLayer (id f) m)
                     else m) s) s /\
              selectedFeature (on_map (fun m =>
                     if negb (id f =? "")%string && Mapbox.getLayer (id f) m
                     then Mapbox.removeSource (id f) (Mapbox.removeLayer (id f) m)
                     else m) s) = selectedFeature s /\
              showProperties (on_map (fun m =>
                     if negb (id f =? "")%string && Mapbox.getLayer (id f) m
                     then Mapbox.removeSource (id f) (Mapbox.removeLayer (id f) m)
                     else m) s) = showProperties s).
    { destruct s as [[m|] dm cf fs0 sf sp lp pp ed ec fc uc]; unfold on_map; simpl.
      - destruct (remove_layer_frame
                    (negb (id f =? "")%string && Mapbox.getLayer (id f) m) (id f) m)
          as (Hl & Hly & Hsr).
        unfold removes_only, same_listeners, listeners_of, layers_of, sources_of; simpl.
        repeat split; try assumption; try reflexivity; discriminate.
      - split; [apply removes_only_refl|split; reflexivity]. }
    destruct Hstep as (Hr1 & Hsel1 & Hshow1).
    split; [apply (removes_only_trans Hr Hr1)|split; assumption].
Qed.

Lemma clearAll_frame (tool : option Tool) (sc : Scope) (st : State) :
  bound tool sc st ->
  (exists sc', bound None sc' (clearAll st)) /\
  features (clearAll st) = [] /\
  selectedFeature (clearAll st) = selectedFeature st /\
  showProperties (clearAll st) = showProperties st /\
  uuid_count (clearAll st) = uuid_count st /\
  incl (layers_of (clearAll st)) (layers_of st) /\
  incl (sources_of (clearAll st)) (sources_of st).
Proof.
  intros Hb.
  pose proof Hb as (m & l0 & l1 & Hm & _).
  unfold clearAll. rewrite Hm.
  destruct (clearAll_loop_frame (features st) st) as (Hr & Hsel & Hshow).
  simpl in Hr, Hsel, Hshow.
  set (st1 := fold_left _ (features st) st) in *.
  destruct (run_effects_map (setDrawingMode None (setFeatures (fun _ => []) st1)))
    as (Hly & Hsr & Huc).
  rewrite run_effects_features, run_effects_selectedFeature, run_effects_showProperties,
    Hly, Hsr, Huc.
  destruct Hr as (Hsl & Hd & Hu & Hly1 & Hsr1).
  assert (Hsame : same_listeners (setDrawingMode None (setFeatures (fun _ => []) st1)) st).
  { destruct st1 as [mc dm cf fs sf sp lp pp ed ec fc uc]. exact Hsl. }
  destruct (run_effects_bound Hb Hsame) as (sc' & Hb').
  split.
  { exists sc'. destruct st1 as [mc dm cf fs sf sp lp pp ed ec fc uc]. exact Hb'. }
  destruct st1 as [mc dm cf fs sf sp lp pp ed ec fc uc]. simpl in *.
  repeat split; assumption.
Qed.

Lemma handleToolSelect_frame (tool tool' : option Tool) (sc : Scope) (st : State) :
  bound tool sc st ->
  (exists sc', bound tool' sc' (handleToolSelect tool' st)) /\
  features (handleToolSelect tool' st) = features st /\
  selectedFeature (handleToolSelect tool' st) = selectedFeature st /\
  showProperties (handleToolSelect tool' st) = showProperties st /\
  uuid_count (handleToolSelect tool' st) = uuid_count st /\
  layers_of (handleToolSelect tool' st) = layers_of st /\
  sources_of (handleToolSelect tool' st) = sources_of st.
Proof.
  intros Hb.
  destruct (bound_handleToolSelect tool' Hb) as (sc' & Hb' & _ & _ & Hcells).
  destruct Hcells as (Hf & Hsel & Hshow & _ & _ & _ & Hu).
  split; [exists sc'; exact Hb'|].
  rewrite Hf, Hsel, Hshow, Hu.
  unfold handleToolSelect.
  destruct (run_effects_map (setCurrentFeature None (setDrawingMode tool' st)))
    as (Hly & Hsr & _).
  rewrite Hly, Hsr.
  destruct st as [mc dm cf fs sf sp lp pp ed ec fc uc]. repeat split; reflexivity.
Qed.

Lemma bound_deps (tool : option Tool) (sc : Scope) (st : State) :
  bound tool sc st ->
  effect_deps st = drawingMode st /\ exists m, map_current st = Some m.
Proof.
  intros (m & l0 & l1 & Hm & _ & _ & _ & _ & Hmode & Hdeps & _).
  split; [rewrite Hmode, Hdeps; reflexivity|exists m; exact Hm].
Qed.

Lemma removes_only_invariant (st st' : State) :
  ui_invariant uuidv4 st ->
  removes_only st' st ->
  (showProperties st' = true <-> selectedFeature st' <> None) ->
  (forall f, In f (features st') -> exists g, In g (features st) /\ id g = id f) ->
  (NoDup (map id (features st)) -> NoDup (map id (features st'))) ->
  ui_invariant uuidv4 st'.
Proof.
  intros [(tool & sc & Hb) Hp Hi Hd Hl Hs] (Hsl & Hdm & Hu & Hly & Hsr) Hp' Hin Hnd.
  constructor.
  - exists tool, sc. apply (bound_same_listeners Hb Hsl Hdm).
  - exact Hp'.
  - intros f Hf. destruct (Hin f Hf) as (g & Hg & E). rewrite <- E.
    apply (@issued_later "" (id g) st st'); [lia|]. apply Hi. exact Hg.
  - intros Hdist. apply Hnd, Hd, Hdist.
  - intros s Hs'. apply (@issued_later "layer-" s st st'); [lia|]. apply Hl, Hly, Hs'.
  - intros s Hs'. apply (@issued_later "source-" s st st'); [lia|]. apply Hs, Hsr, Hs'.
Qed.

Lemma panel_closed (st : State) :
  selectedFeature st = None -> showProperties st = false ->
  (showProperties st = true <-> selectedFeature st <> None).
Proof.
  intros -> ->. split; [discriminate|intros H; exfalso; apply H; reflexivity].
Qed.

(** Every state the handlers reach satisfies the invariant. *)
Lemma ui_run_invariant (st : State) : ui_run uuidv4 st -> ui_invariant uuidv4 st.
Proof.
  unfold ui_run. induction 1 as [|tool st _ IH|e st _ IH|f st _ IH Hf|id0 st _ IH
                  |name description st st' _ IH Hsave|st _ IH|st _ IH
                  |index st st' _ IH Hrem].
  - (* mount *)
    constructor.
    + exists None, (scope_of initial). apply bound_mount.
    + split; [discriminate|intros H; exfalso; apply H; reflexivity].
    + intros f [].
    + intros _. constructor.
    + intros s [].
    + intros s [].
  - (* handleToolSelect *)
    destruct IH as [(tool0 & sc & Hb) Hp Hi Hd Hl Hs].
    destruct (handleToolSelect_frame tool Hb)
      as ((sc' & Hb') & Hfs & Hsel & Hshow & Hu & Hly & Hsr).
    constructor.
    + exists tool, sc'. exact Hb'.
    + rewrite Hsel, Hshow. exact Hp.
    + intros f Hf. rewrite Hfs in Hf.
      apply (@issued_later "" (id f) st _); [lia|]. apply Hi, Hf.
    + rewrite Hfs. exact Hd.
    + intros s Hin. rewrite Hly in Hin.
      apply (@issued_later "layer-" s st _); [lia|]. apply Hl, Hin.
    + intros s Hin. rewrite Hsr in Hin.
      apply (@issued_later "source-" s st _); [lia|]. apply Hs, Hin.
  - (* click *)
    destruct IH as [(tool0 & sc & Hb) Hp Hi Hd Hl Hs].
    destruct (click_bound uuidv4 e Hb) as [Hclick Hb'].
    destruct (handleDrawingClick_binding uuidv4 sc e st)
      as (_ & _ & _ & _ & _ & _ & Hsel & Hshow).
    constructor.
    + exists tool0, sc. exact Hb'.
    + rewrite Hclick, Hsel, Hshow. exact Hp.
    + rewrite Hclick.
      destruct (handleDrawingClick_effect sc e st)
        as [(Hfs & Hu & _)|(g & Hg & Hfs & Hu & _)]; intros f Hf; rewrite Hfs in Hf.
      * apply (@issued_later "" (id f) st _); [lia|]. apply Hi, Hf.
      * apply in_app_or in Hf. destruct Hf as [Hf|[<-|[]]].
        -- apply (@issued_later "" (id f) st _); [lia|]. apply Hi, Hf.
        -- exists (uuid_count st). split; [lia|exact Hg].
    + intros Hdist. rewrite Hclick.
      destruct (handleDrawingClick_effect sc e st)
        as [(Hfs & Hu & _)|(g & Hg & Hfs & Hu & _)]; rewrite Hfs; [apply Hd, Hdist|].
      rewrite map_app. apply NoDup_app; [apply Hd, Hdist|repeat constructor; intros []|].
      intros a Ha [E|[]]. apply in_map_iff in Ha. destruct Ha as (f & <- & Hf).
      destruct (Hi f Hf) as (k & Hk & Ek). simpl in E, Ek.
      rewrite Hg, Ek in E. apply Hdist in E. lia.
    + rewrite Hclick.
      destruct (handleDrawingClick_effect sc e st)
        as [(_ & Hu & Hly & _)|(g & Hg & _ & Hu & Hly & _)]; intros s Hin.
      * rewrite Hly in Hin. apply (@issued_later "layer-" s st _); [lia|]. apply Hl, Hin.
      * apply Hly in Hin. apply in_app_or in Hin. destruct Hin as [Hin|[<-|[]]].
        -- apply (@issued_later "layer-" s st _); [lia|]. apply Hl, Hin.
        -- exists (uuid_count st). split; [lia|rewrite Hg; reflexivity].
    + rewrite Hclick.
      destruct (handleDrawingClick_effect sc e st)
        as [(_ & Hu & _ & Hsr)|(g & Hg & _ & Hu & _ & Hsr)]; intros s Hin.
      * rewrite Hsr in Hin. apply (@issued_later "source-" s st _); [lia|]. apply Hs, Hin.
      * apply Hsr in Hin. apply in_app_or in Hin. destruct Hin as [Hin|[<-|[]]].
        -- apply (@issued_later "source-" s st _); [lia|]. apply Hs, Hin.
        -- exists (uuid_count st). split; [lia|rewrite Hg; reflexivity].
  - (* handleFeatureSelect *)
    pose proof IH as [(tool0 & sc & Hb) _ _ _ _ _].
    destruct (bound_deps Hb) as (Hdeps & _).
    destruct (handleFeatureSelect_frame f st Hdeps) as (Hr & Hfs & Hsel & Hshow).
    apply (removes_only_invariant IH Hr).
    + rewrite Hsel, Hshow. split; [discriminate|reflexivity].
    + rewrite Hfs. intros g Hg. exists g. split; [exact Hg|reflexivity].
    + rewrite Hfs. auto.
  - (* handleFeatureDelete *)
    pose proof IH as [(tool0 & sc & Hb) Hp _ _ _ _].
    destruct (bound_deps Hb) as (Hdeps & m & Hm).
    apply (removes_only_invariant IH (handleFeatureDelete_frame id0 st Hdeps)).
    + destruct (handleFeatureDelete_selection id0 st Hm) as [Hyes Hno].
      destruct (selected_is id0 st).
      * destruct (Hyes eq_refl) as [Hsel Hshow]. apply (panel_closed _ Hsel Hshow).
      * destruct (Hno eq_refl) as [Hsel Hshow]. rewrite Hsel, Hshow. exact Hp.
    + rewrite (handleFeatureDelete_features id0 st Hm). intros g Hg.
      apply filter_In in Hg. exists g. split; [apply Hg|reflexivity].
    + rewrite (handleFeatureDelete_features id0 st Hm). apply NoDup_ids_filter.
  - (* save *)
    pose proof IH as [(tool0 & sc & Hb) Hp _ _ _ _].
    destruct (bound_deps Hb) as (Hdeps & m & Hm).
    unfold save in Hsave.
    destruct (showProperties st); [|injection Hsave as <-; exact IH].
    unfold FeatureProperties.handleSave in Hsave.
    destruct (selectedFeature st) as [sel|]; [|injection Hsave as <-; exact IH].
    destruct (handleFeatureUpdate _ st) as [st1|] eqn:Hupd; [|discriminate].
    simpl in Hsave. injection Hsave as <-.
    assert (IH1 : ui_invariant uuidv4 st1).
    { destruct (handleFeatureUpdate_frame _ _ Hdeps Hupd)
        as [->|(Hr & Hfs & Hsel & Hshow)]; [exact IH|].
      apply (removes_only_invariant IH Hr).
      - apply (panel_closed _ Hsel Hshow).
      - rewrite Hfs. intros g Hg. apply in_map_iff in Hg.
        destruct Hg as (g0 & <- & Hg0). exists g0. split; [exact Hg0|].
        destruct (id g0 =? _)%string; reflexivity.
      - rewrite Hfs, map_update_ids. auto. }
    pose proof IH1 as [(tool1 & sc1 & Hb1) _ _ _ _ _].
    destruct (bound_deps Hb1) as (Hdeps1 & _).
    destruct (onClose_frame st1 Hdeps1) as (Hr & Hfs & Hsel & Hshow).
    apply (removes_only_invariant IH1 Hr).
    + apply (panel_closed _ Hsel Hshow).
    + rewrite Hfs. intros g Hg. exists g. split; [exact Hg|reflexivity].
    + rewrite Hfs. auto.
  - (* onClose *)
    pose proof IH as [(tool0 & sc & Hb) _ _ _ _ _].
    destruct (bound_deps Hb) as (Hdeps & _).
    destruct (onClose_frame st Hdeps) as (Hr & Hfs & Hsel & Hshow).
    apply (removes_only_invariant IH Hr).
    + apply (panel_closed _ Hsel Hshow).
    + rewrite Hfs. intros g Hg. exists g. split; [exact Hg|reflexivity].
    + rewrite Hfs. auto.
  - (* clearAll *)
    destruct IH as [(tool0 & sc & Hb) Hp Hi Hd Hl Hs].
    destruct (clearAll_frame Hb) as ((sc' & Hb') & Hfs & Hsel & Hshow & Hu & Hly & Hsr).
    constructor.
    + exists None, sc'. exact Hb'.
    + rewrite Hsel, Hshow. exact Hp.
    + rewrite Hfs. intros f [].
    + rewrite Hfs. intros _. constructor.
    + intros s Hin. apply (@issued_later "layer-" s st _); [lia|]. apply Hl, Hly, Hin.
    + intros s Hin. apply (@issued_later "source-" s st _); [lia|]. apply Hs, Hsr, Hin.
  - (* removeFeature *)
    pose proof IH as [(tool0 & sc & Hb) Hp _ _ _ _].
    destruct (bound_deps Hb) as (Hdeps & m & Hm).
    destruct (removeFeature_frame index st Hm Hdeps Hrem) as (Hr & Hfs & Hsel & Hshow).
    apply (removes_only_invariant IH Hr).
    + rewrite Hsel, Hshow. exact Hp.
    + rewrite Hfs. intros g Hg. exists g.
      split; [apply (@filter_index_In _ index _ g Hg)|reflexivity].
    + rewrite Hfs. apply NoDup_ids_filter_index.
Qed.
End MapComponentInvariant.

(** ** The sample generator *)

Lemma append_prefix_injective (p a b : string) :
  (p ++ a)%string = (p ++ b)%string -> a = b.
Proof.
  induction p as [|c p IH]; simpl; intros H; [exact H|].
  injection H as H. apply IH. exact H.
Qed.

Lemma decimal_injective (j k : nat) : decimal j = decimal k -> j = k.
Proof.
  unfold decimal. intros H.
  apply DecimalNat.Unsigned.to_uint_inj.
  assert (E : Some (Nat.to_uint j) = Some (Nat.to_uint k)).
  { rewrite <- (NilEmpty.usu (Nat.to_uint j)), <- (NilEmpty.usu (Nat.to_uint k)), H.
    reflexivity. }
  injection E as E. exact E.
Qed.

Lemma sample_uuidv4_distinct : distinct_uuids Sample.uuidv4.
Proof.
  intros j k H. unfold Sample.uuidv4 in H.
  apply append_prefix_injective in H. apply decimal_injective. exact H.
Qed.

Lemma sample_uuidv4_unlike_layer_ids : uuids_unlike_layer_ids Sample.uuidv4.
Proof.
  intros j k H. unfold Sample.uuidv4 in H.
  change ("uuid-" ++ decimal j)%string
    with (String "u" ("uid-" ++ decimal j)%string) in H.
  change ("layer-" ++ ("uuid-" ++ decimal k))%string
    with (String "l" ("ayer-" ++ ("uuid-" ++ decimal k))%string) in H.
  injection H as H _. discriminate H.
Qed.

Lemma sample_two_points_selected_features :
  MapComponent.features
    (MapComponent.click Sample.uuidv4 (Sample.at_ 30 40) Sample.one_point)
  = [Sample.the_point;
     {| GeoJSON.id := "uuid-1";
        GeoJSON.geometry := GeoJSON.Point (Sample.pos 30 40);
        GeoJSON.properties :=
          {| GeoJSON.name := "Point 1";
             GeoJSON.description := "New point feature" |} |}].
Proof. vm_compute. reflexivity. Qed.

Lemma sample_one_point_run : ui_run Sample.uuidv4 Sample.one_point.
Proof.
  unfold Sample.one_point. apply ui_click, ui_handleToolSelect, ui_start.
Qed.

Lemma sample_two_points_selected_run :
  ui_run Sample.uuidv4 Sample.two_points_selected.
Proof.
  unfold Sample.two_points_selected. apply ui_handleFeatureSelect.
  - apply ui_click, sample_one_point_run.
  - rewrite sample_two_points_selected_features. left. reflexivity.
Qed.

(** ** [MapComponent.tsx]: the properties of every reachable state *)

Section MapComponentReachable.
Import GeoJSON MapComponent.
Variable uuidv4 : nat -> string.

Lemma empty_prefix (s : string) : ("" ++ s)%string = s.
Proof. reflexivity. Qed.

Lemma features_source_not_issued (st : State) :
  ui_run uuidv4 st -> ~ In "features" (sources_of st).
Proof.
  intros Hrun Hin. destruct (ui_run_invariant Hrun) as [_ _ _ _ _ Hs].
  destruct (Hs _ Hin) as (k & _ & E).
  change ("source-" ++ uuidv4 k)%string
    with (String "s" ("ource-" ++ uuidv4 k)%string) in E.
  injection E as E _. discriminate E.
Qed.

Lemma listed_id_is_no_layer (st : State) (f : Feature) (m : Map) :
  uuids_unlike_layer_ids uuidv4 ->
  ui_run uuidv4 st -> In f (features st) -> map_current st = Some m ->
  Mapbox.getLayer (id f) m = false.
Proof.
  intros Hunlike Hrun Hf Hm.
  destruct (ui_run_invariant Hrun) as [_ _ Hi _ Hl _].
  apply mem_string_absent. intros Hin.
  destruct (Hi f Hf) as (j & _ & Ej). rewrite empty_prefix in Ej.
  assert (Hin' : In (id f) (layers_of st)) by (unfold layers_of; rewrite Hm; exact Hin).
  destruct (Hl _ Hin') as (k & _ & Ek).
  apply (Hunlike j k). rewrite <- Ej. exact Ek.
Qed.

Lemma handleFeatureDelete_no_layer (id0 : string) (st : State) (m : Map) :
  map_current st = Some m -> effect_deps st = drawingMode st ->
  Mapbox.getLayer id0 m = false ->
  map_current (handleFeatureDelete id0 st) = Some m.
Proof.
  intros Hm Hd Hl. destruct st as [mc dm cf fs sf sp lp pp ed ec fc uc].
  simpl in Hm, Hd. subst mc ed.
  unfold handleFeatureDelete, on_map, selected_is. simpl. rewrite Hl.
  destruct (match sf with Some f => (id f =? id0)%string | None => false end);
    (rewrite run_effects_idle; [|reflexivity]); reflexivity.
Qed.

Lemma click_count_bound (tool : option Tool) (sc : Scope) (e : MapMouseEvent)
    (st : State) :
  bound tool sc st ->
  List.length (listeners_of st) = 2 /\
  exists added,
    features (click uuidv4 e st) = features st ++ added /\
    match drawingMode st with
    | None => added = []
    | Some point => List.length added = 1
    | Some _ => List.length added <= 1
    end.
Proof.
  intros Hb. destruct (click_bound uuidv4 e Hb) as [Hclick _].
  destruct Hb as (m & l0 & l1 & Hm & Hls & _ & _ & Hsc & Hmode & _).
  split; [unfold listeners_of; rewrite Hm, Hls; reflexivity|].
  rewrite Hclick, Hmode. unfold handleDrawingClick. rewrite Hsc, Hm.
  destruct tool as [[]|].
  - eexists. split; [apply (addPoint_features uuidv4 sc e st Hm)|reflexivity].
  - eexists. split; [apply (addLinePoint_cells uuidv4 sc e st Hm)|].
    destruct (scope_linePoints sc); simpl; lia.
  - eexists. split; [apply (addPolygonPoint_cells uuidv4 sc e st Hm)|].
    destruct (scope_polygonPoints sc); simpl; lia.
  - exists []. split; [rewrite app_nil_r; reflexivity|reflexivity].
Qed.

(** With pairwise distinct ids, two entries of the list with the same id
    are the same entry. *)
Lemma same_id_same_feature (fs : list Feature) (f g : Feature) :
  NoDup (map id fs) -> In f fs -> In g fs -> id f = id g -> f = g.
Proof.
  induction fs as [|h rest IH]; intros Hnd Hf Hg E; [destruct Hf|].
  simpl in Hnd. inversion Hnd as [|? ? Hnotin Hrest]; subst.
  destruct Hf as [->|Hf], Hg as [->|Hg].
  - reflexivity.
  - exfalso. apply Hnotin. rewrite E. apply in_map. exact Hg.
  - exfalso. apply Hnotin. rewrite <- E. apply in_map. exact Hf.
  - apply (IH Hrest Hf Hg E).
Qed.

Lemma map_update_same (F : Feature) (fs : list Feature) :
  NoDup (map id fs) -> In F fs ->
  map (fun f => if (id f =? id F)%string
                then with_properties f (properties F) else f) fs
  = fs.
Proof.
  intros Hnd HF. rewrite <- (map_id fs) at 2. apply map_ext_in. intros f Hf.
  destruct (String.eqb_spec (id f) (id F)) as [E|_]; [|reflexivity].
  rewrite (@same_id_same_feature fs f F Hnd Hf HF E).
  destruct F as [i g p]. reflexivity.
Qed.

Lemma js_or_empty (s : string) : js_or s "" = s.
Proof.
  unfold js_or. destruct (String.eqb_spec s "") as [->|_]; reflexivity.
Qed.
End MapComponentReachable.

(** ** [MapComponent.tsx]: the handlers, the list and the map *)

(** In every state the handlers of [MapComponent] reach, the edit panel is
    asked for exactly when a feature is selected: [showProperties] is true
    if and only if [selectedFeature] is not [null]. *)
Theorem panel_open_exactly_when_selected (uuidv4 : nat -> string)
    (st : MapComponent.State) :
  ui_run uuidv4 st ->
  MapComponent.showProperties st = true <-> MapComponent.selectedFeature st <> None.
Proof.
  intros Hrun. apply (ui_run_invariant Hrun).
Qed.

Lemma panel_open_exactly_when_selected_witness :
  ui_run Sample.uuidv4 Sample.two_points_selected /\
  (MapComponent.showProperties Sample.two_points_selected = true <->
   MapComponent.selectedFeature Sample.two_points_selected <> None).
Proof.
  split; [exact sample_two_points_selected_run|].
  exact (@panel_open_exactly_when_selected Sample.uuidv4 Sample.two_points_selected
           sample_two_points_selected_run).
Defined.

(** When [uuidv4] never repeats a result, the ids of the features are
    pairwise distinct in every state the handlers reach, and each is the
    result of a call of [uuidv4] the component made. *)
Theorem feature_ids_distinct (uuidv4 : nat -> string) (st : MapComponent.State) :
  distinct_uuids uuidv4 ->
  ui_run uuidv4 st ->
  NoDup (map GeoJSON.id (MapComponent.features st)) /\
  forall f, In f (MapComponent.features st) ->
    exists k, k < MapComponent.uuid_count st /\ GeoJSON.id f = uuidv4 k.
Proof.
  intros Hdist Hrun. destruct (ui_run_invariant Hrun) as [_ _ Hi Hd _ _].
  split; [apply Hd, Hdist|]. intros f Hf. apply (Hi f Hf).
Qed.

Lemma feature_ids_distinct_witness :
  distinct_uuids Sample.uuidv4 /\
  ui_run Sample.uuidv4 Sample.two_points_selected /\
  NoDup (map GeoJSON.id (MapComponent.features Sample.two_points_selected)) /\
  forall f, In f (MapComponent.features Sample.two_points_selected) ->
    exists k, k < MapComponent.uuid_count Sample.two_points_selected /\
              GeoJSON.id f = Sample.uuidv4 k.
Proof.
  split; [exact sample_uuidv4_distinct|].
  split; [exact sample_two_points_selected_run|].
  exact (@feature_ids_distinct Sample.uuidv4 Sample.two_points_selected
           sample_uuidv4_distinct sample_two_points_selected_run).
Defined.

(** The component never registers a source named ["features"], so in every
    state its handlers reach [handleFeatureUpdate] skips the branch that
    rewrites that source and returns normally, whatever feature it is
    given. *)
Theorem handleFeatureUpdate_returns (uuidv4 : nat -> string)
    (st : MapComponent.State) (updatedFeature : GeoJSON.Feature) :
  ui_run uuidv4 st ->
  ~ In "features" (sources_of st) /\
  exists st', MapComponent.handleFeatureUpdate updatedFeature st = Normal st'.
Proof.
  intros Hrun. pose proof (features_source_not_issued Hrun) as Hno.
  split; [exact Hno|].
  unfold MapComponent.handleFeatureUpdate.
  destruct (MapComponent.map_current st) as [m|] eqn:Hm; [|eexists; reflexivity].
  destruct (GeoJSON.id updatedFeature =? "")%string; [eexists; reflexivity|].
  unfold Mapbox.getSource. rewrite mem_string_absent; [eexists; reflexivity|].
  unfold sources_of in Hno. rewrite Hm in Hno. exact Hno.
Qed.

Lemma handleFeatureUpdate_returns_witness :
  ui_run Sample.uuidv4 Sample.two_points_selected /\
  ~ In "features" (sources_of Sample.two_points_selected) /\
  exists st',
    MapComponent.handleFeatureUpdate Sample.the_point Sample.two_points_selected
    = Normal st'.
Proof.
  split; [exact sample_two_points_selected_run|].
  exact (@handleFeatureUpdate_returns Sample.uuidv4 Sample.two_points_selected
           Sample.the_point sample_two_points_selected_run).
Defined.

(** Whatever handlers ran before (tool selections, clicks, selections,
    deletions, edits, [clearAll], [removeFeature]), the map of [MapComponent]
    holds two click listeners and one click adds the features of one tool:
    none without a tool, one with the Point tool, at most one with the Line
    or Polygon tool, after the features that were there. *)
Theorem click_adds_at_most_one_feature (uuidv4 : nat -> string)
    (st : MapComponent.State) (e : MapMouseEvent) :
  ui_run uuidv4 st ->
  List.length (listeners_of st) = 2 /\
  exists added,
    MapComponent.features (MapComponent.click uuidv4 e st)
      = MapComponent.features st ++ added /\
    match MapComponent.drawingMode st with
    | None => added = []
    | Some point => List.length added = 1
    | Some _ => List.length added <= 1
    end.
Proof.
  intros Hrun. destruct (ui_run_invariant Hrun) as [(tool & sc & Hb) _ _ _ _ _].
  apply (click_count_bound uuidv4 e Hb).
Qed.

Lemma click_adds_at_most_one_feature_witness :
  ui_run Sample.uuidv4 Sample.two_points_selected /\
  List.length (listeners_of Sample.two_points_selected) = 2 /\
  exists added,
    MapComponent.features
      (MapComponent.click Sample.uuidv4 (Sample.at_ 50 60) Sample.two_points_selected)
      = MapComponent.features Sample.two_points_selected ++ added /\
    List.length added = 1.
Proof.
  assert (Hmode : MapComponent.drawingMode Sample.two_points_selected = Some point)
    by (vm_compute; reflexivity).
  split; [exact sample_two_points_selected_run|].
  pose proof (@click_adds_at_most_one_feature Sample.uuidv4 Sample.two_points_selected
                (Sample.at_ 50 60) sample_two_points_selected_run) as H.
  rewrite Hmode in H. exact H.
Defined.

(** [handleFeatureDelete] looks the layer up under the feature's id, while
    the layers are registered as [layer-<id>]: when no result of [uuidv4]
    reads like a layer id, deleting a feature of the list leaves the map as
    it is, with all its layers and sources. *)
Theorem delete_leaves_map_untouched (uuidv4 : nat -> string)
    (st : MapComponent.State) (f : GeoJSON.Feature) :
  uuids_unlike_layer_ids uuidv4 ->
  ui_run uuidv4 st ->
  In f (MapComponent.features st) ->
  MapComponent.map_current (MapComponent.handleFeatureDelete (GeoJSON.id f) st)
    = MapComponent.map_current st.
Proof.
  intros Hunlike Hrun Hf.
  destruct (ui_run_invariant Hrun) as [(tool & sc & Hb) _ _ _ _ _].
  destruct (bound_deps Hb) as (Hdeps & m & Hm).
  rewrite Hm. apply (handleFeatureDelete_no_layer _ st Hm Hdeps).
  apply (@listed_id_is_no_layer uuidv4 st f m Hunlike Hrun Hf Hm).
Qed.

Lemma delete_leaves_map_untouched_witness :
  uuids_unlike_layer_ids Sample.uuidv4 /\
  ui_run Sample.uuidv4 Sample.two_points_selected /\
  In Sample.the_point (MapComponent.features Sample.two_points_selected) /\
  MapComponent.map_current
    (MapComponent.handleFeatureDelete (GeoJSON.id Sample.the_point)
       Sample.two_points_selected)
  = MapComponent.map_current Sample.two_points_selected.
Proof.
  assert (Hin : In Sample.the_point (MapComponent.features Sample.two_points_selected)).
  { assert (E : MapComponent.features Sample.two_points_selected
                = MapComponent.features
                    (MapComponent.click Sample.uuidv4 (Sample.at_ 30 40) Sample.one_point))
      by (vm_compute; reflexivity).
    rewrite E, sample_two_points_selected_features. left. reflexivity. }
  split; [exact sample_uuidv4_unlike_layer_ids|].
  split; [exact sample_two_points_selected_run|].
  split; [exact Hin|].
  exact (@delete_leaves_map_untouched Sample.uuidv4 Sample.two_points_selected
           Sample.the_point sample_uuidv4_unlike_layer_ids
           sample_two_points_selected_run Hin).
Defined.

Section MapComponentLayers.
Import GeoJSON MapComponent.
Variable uuidv4 : nat -> string.

Lemma add_to_map_has_layer (a b : string) (m : Map) :
  In b (Mapbox.layers (add_to_map a b m)).
Proof.
  destruct m as [ls srcs lyrs].
  unfold add_to_map, Mapbox.getSource, Mapbox.getLayer, Mapbox.addSource,
    Mapbox.addLayer. simpl.
  destruct (mem_string a srcs); simpl; destruct (mem_string b lyrs) eqn:E; simpl;
    try (apply mem_string_In; exact E); apply in_or_app; right; left; reflexivity.
Qed.

(** What a click under the Point tool writes, on the map as well. *)
Lemma addPoint_map (sc : Scope) (e : MapMouseEvent) (st : State) (m : Map) :
  map_current st = Some m ->
  map_current (addPoint uuidv4 sc e st) =
    Some (add_to_map ("source-" ++ uuidv4 (uuid_count st))
                     ("layer-" ++ uuidv4 (uuid_count st)) m).
Proof.
  intros Hm. destruct st as [mc dm cf fs sf sp lp pp ed ec fc uc].
  simpl in Hm. subst mc. reflexivity.
Qed.

Lemma clearAll_loop_no_layer (fs : list Feature) (st : State) (m : Map) :
  map_current st = Some m ->
  (forall f, In f fs -> Mapbox.getLayer (id f) m = false) ->
  fold_left
    (fun (s : State) (feature : Feature) =>
       on_map (fun m =>
                 if negb (id feature =? "")%string && Mapbox.getLayer (id feature) m
                 then Mapbox.removeSource (id feature)
                        (Mapbox.removeLayer (id feature) m)
                 else m) s) fs st
  = st.
Proof.
  intros Hm. induction fs as [|f rest IH]; intros Hno; simpl; [reflexivity|].
  assert (Hstep : on_map (fun m0 =>
                 if negb (id f =? "")%string && Mapbox.getLayer (id f) m0
                 then Mapbox.removeSource (id f) (Mapbox.removeLayer (id f) m0)
                 else m0) st = st).
  { destruct st as [mc dm cf fs0 sf sp lp pp ed ec fc uc]. simpl in Hm. subst mc.
    unfold on_map. simpl. rewrite (Hno f (or_introl eq_refl)), andb_false_r.
    reflexivity. }
  rewrite Hstep. apply IH. intros g Hg. apply Hno. right. exact Hg.
Qed.

Lemma mem_remove_string (s : string) (xs : list string) :
  mem_string s (remove_string s xs) = false.
Proof.
  apply mem_string_absent. unfold remove_string. intros H.
  apply filter_In in H. destruct H as [_ H]. rewrite String.eqb_refl in H.
  discriminate H.
Qed.

Lemma filter_twice (A : Type) (p : A -> bool) (xs : list A) :
  filter p (filter p xs) = filter p xs.
Proof.
  induction xs as [|x rest IH]; simpl; [reflexivity|].
  destruct (p x) eqn:E; simpl; rewrite ?E, IH; reflexivity.
Qed.

(** Under the Point tool, each click of a run adds one point named after
    the length of the list the bound listener saw. *)
Lemma clicks_point_names (sc : Scope) (es : list MapMouseEvent) :
  forall st : State,
    bound (Some point) sc st ->
    exists added,
      features (clicks uuidv4 es st) = features st ++ added /\
      List.length added = List.length es /\
      forall f, In f added ->
        name (properties f)
        = ("Point " ++ decimal (List.length (scope_features sc) + 1))%string.
Proof.
  induction es as [|e rest IH]; intros st Hb.
  - exists []. simpl. rewrite app_nil_r. repeat split. intros f [].
  - destruct (click_bound uuidv4 e Hb) as [Hclick Hb'].
    destruct (IH _ Hb') as (added & Hfs & Hlen & Hnames).
    pose proof Hb as (m & l0 & l1 & Hm & _ & _ & _ & Hsc & _).
    change (clicks uuidv4 (e :: rest) st)
      with (clicks uuidv4 rest (click uuidv4 e st)).
    rewrite Hfs, Hclick. unfold handleDrawingClick. rewrite Hsc, Hm.
    rewrite (addPoint_features uuidv4 sc e st Hm), <- app_assoc.
    eexists. split; [reflexivity|]. split; [simpl; rewrite Hlen; reflexivity|].
    intros f [<-|Hf]; [reflexivity|apply Hnames, Hf].
Qed.
End MapComponentLayers.

(** A point placed and then deleted: the list is what it was before the
    click, and the delete takes nothing off the map, so that whatever layer
    and source the click registered for the point are still there. *)
Theorem deleted_point_stays_drawn (uuidv4 : nat -> string)
    (st : MapComponent.State) (e : MapMouseEvent) :
  distinct_uuids uuidv4 ->
  uuids_unlike_layer_ids uuidv4 ->
  ui_run uuidv4 st ->
  MapComponent.drawingMode st = Some point ->
  let new_id := uuidv4 (MapComponent.uuid_count st) in
  let st1 := MapComponent.click uuidv4 e st in
  let st2 := MapComponent.handleFeatureDelete new_id st1 in
  MapComponent.features st2 = MapComponent.features st /\
  layers_of st2 = layers_of st1 /\
  sources_of st2 = sources_of st1.
Proof.
  intros Hdist Hunlike Hrun Hmode new_id st1 st2.
  destruct (ui_run_invariant Hrun) as [(tool & sc & Hb) _ Hi _ _ _].
  destruct (click_bound uuidv4 e Hb) as [Hclick Hb1].
  pose proof Hb as (m & l0 & l1 & Hm & _ & _ & _ & Hsc & Hmode' & _).
  rewrite Hmode in Hmode'. rewrite <- Hmode' in Hsc, Hb, Hb1. clear Hmode' tool.
  assert (Hst1 : st1 = MapComponent.addPoint uuidv4 sc e st).
  { unfold st1. rewrite Hclick. unfold MapComponent.handleDrawingClick.
    rewrite Hsc, Hm. reflexivity. }
  assert (Hfs1 : MapComponent.features st1 =
                 MapComponent.features st ++
                 [{| GeoJSON.id := new_id;
                     GeoJSON.geometry := GeoJSON.Point (lngLat e);
                     GeoJSON.properties :=
                       {| GeoJSON.name :=
                            ("Point " ++ decimal (List.length (MapComponent.scope_features sc) + 1))%string;
                          GeoJSON.description := "New point feature" |} |}]).
  { rewrite Hst1. apply (addPoint_features uuidv4 sc e st Hm). }
  assert (Hm1 : MapComponent.map_current st1 =
                Some (MapComponent.add_to_map ("source-" ++ new_id) ("layer-" ++ new_id) m)).
  { rewrite Hst1. apply (addPoint_map uuidv4 sc e st Hm). }
  assert (Hrun1 : ui_run uuidv4 st1) by (apply ui_click; exact Hrun).
  destruct (bound_deps Hb1) as (Hdeps1 & _). fold st1 in Hdeps1.
  assert (Hnew : exists f, In f (MapComponent.features st1) /\ GeoJSON.id f = new_id).
  { eexists. split; [rewrite Hfs1; apply in_or_app; right; left; reflexivity|reflexivity]. }
  destruct Hnew as (f & Hf & Hid).
  assert (Hmap2 : MapComponent.map_current st2 = MapComponent.map_current st1).
  { unfold st2. rewrite <- Hid, Hm1.
    apply (handleFeatureDelete_no_layer _ st1 Hm1 Hdeps1).
    apply (@listed_id_is_no_layer uuidv4 st1 f _ Hunlike Hrun1 Hf Hm1). }
  split; [|unfold layers_of, sources_of; rewrite Hmap2; split; reflexivity].
  - unfold st2. rewrite (handleFeatureDelete_features new_id st1 Hm1), Hfs1.
    rewrite filter_app. simpl. unfold other_id at 2. simpl.
    rewrite String.eqb_refl. simpl. rewrite app_nil_r.
    apply filter_absent. intros g Hg E.
    destruct (Hi g Hg) as (k & Hk & Ek). rewrite empty_prefix in Ek.
    unfold new_id in E. rewrite Ek in E. apply Hdist in E. lia.
Qed.

Lemma deleted_point_stays_drawn_witness :
  distinct_uuids Sample.uuidv4 /\
  uuids_unlike_layer_ids Sample.uuidv4 /\
  ui_run Sample.uuidv4 Sample.point_tool /\
  MapComponent.drawingMode Sample.point_tool = Some point /\
  MapComponent.features
    (MapComponent.handleFeatureDelete
       (Sample.uuidv4 (MapComponent.uuid_count Sample.point_tool))
       (MapComponent.click Sample.uuidv4 (Sample.at_ 10 20) Sample.point_tool))
  = MapComponent.features Sample.point_tool /\
  layers_of
    (MapComponent.handleFeatureDelete
       (Sample.uuidv4 (MapComponent.uuid_count Sample.point_tool))
       (MapComponent.click Sample.uuidv4 (Sample.at_ 10 20) Sample.point_tool))
  = layers_of (MapComponent.click Sample.uuidv4 (Sample.at_ 10 20) Sample.point_tool) /\
  sources_of
    (MapComponent.handleFeatureDelete
       (Sample.uuidv4 (MapComponent.uuid_count Sample.point_tool))
       (MapComponent.click Sample.uuidv4 (Sample.at_ 10 20) Sample.point_tool))
  = sources_of (MapComponent.click Sample.uuidv4 (Sample.at_ 10 20) Sample.point_tool).
Proof.
  assert (Hrun : ui_run Sample.uuidv4 Sample.point_tool)
    by (unfold Sample.point_tool; apply ui_handleToolSelect, ui_start).
  assert (Hmode : MapComponent.drawingMode Sample.point_tool = Some point)
    by (vm_compute; reflexivity).
  split; [exact sample_uuidv4_distinct|].
  split; [exact sample_uuidv4_unlike_layer_ids|].
  split; [exact Hrun|]. split; [exact Hmode|].
  exact (@deleted_point_stays_drawn Sample.uuidv4 Sample.point_tool (Sample.at_ 10 20)
           sample_uuidv4_distinct sample_uuidv4_unlike_layer_ids Hrun Hmode).
Defined.

(** [clearAll] and [removeFeature] look the layers up under the feature's
    id as well: when no result of [uuidv4] reads like a layer id, [clearAll]
    empties the list and leaves every layer and source on the map, and
    [removeFeature] leaves the map as it is. *)
Theorem clearAll_leaves_layers (uuidv4 : nat -> string) (st : MapComponent.State) :
  uuids_unlike_layer_ids uuidv4 ->
  ui_run uuidv4 st ->
  MapComponent.features (MapComponent.clearAll st) = [] /\
  layers_of (MapComponent.clearAll st) = layers_of st /\
  sources_of (MapComponent.clearAll st) = sources_of st /\
  forall index st',
    MapComponent.removeFeature index st = Normal st' ->
    MapComponent.map_current st' = MapComponent.map_current st.
Proof.
  intros Hunlike Hrun.
  destruct (ui_run_invariant Hrun) as [(tool & sc & Hb) _ _ _ _ _].
  destruct (bound_deps Hb) as (Hdeps & m & Hm).
  split; [apply (clearAll_cells st Hm)|].
  assert (Hno : forall f, In f (MapComponent.features st) ->
                          Mapbox.getLayer (GeoJSON.id f) m = false).
  { intros f Hf. apply (@listed_id_is_no_layer uuidv4 st f m Hunlike Hrun Hf Hm). }
  split; [|split].
  - unfold MapComponent.clearAll. rewrite Hm.
    rewrite (clearAll_loop_no_layer (MapComponent.features st) st Hm Hno).
    destruct (run_effects_map
                (MapComponent.setDrawingMode None
                   (MapComponent.setFeatures (fun _ => []) st))) as (Hly & _).
    rewrite Hly. destruct st as [mc dm cf fs sf sp lp pp ed ec fc uc]. reflexivity.
  - unfold MapComponent.clearAll. rewrite Hm.
    rewrite (clearAll_loop_no_layer (MapComponent.features st) st Hm Hno).
    destruct (run_effects_map
                (MapComponent.setDrawingMode None
                   (MapComponent.setFeatures (fun _ => []) st))) as (_ & Hsr & _).
    rewrite Hsr. destruct st as [mc dm cf fs sf sp lp pp ed ec fc uc]. reflexivity.
  - intros index st'. unfold MapComponent.removeFeature. rewrite Hm.
    destruct (nth_error (MapComponent.features st) index) as [f|] eqn:Hnth;
      [|discriminate].
    apply nth_error_In in Hnth. rewrite <- Hm.
    destruct st as [mc dm cf fs sf sp lp pp ed ec fc uc].
    simpl in Hm, Hdeps, Hno, Hnth. subst mc ed.
    unfold MapComponent.on_map. simpl. rewrite (Hno f Hnth), andb_false_r.
    rewrite run_effects_idle; [|reflexivity].
    intros H. injection H as <-. reflexivity.
Qed.

Lemma clearAll_leaves_layers_witness :
  uuids_unlike_layer_ids Sample.uuidv4 /\
  ui_run Sample.uuidv4 Sample.two_points_selected /\
  MapComponent.features (MapComponent.clearAll Sample.two_points_selected) = [] /\
  layers_of (MapComponent.clearAll Sample.two_points_selected)
    = layers_of Sample.two_points_selected /\
  sources_of (MapComponent.clearAll Sample.two_points_selected)
    = sources_of Sample.two_points_selected /\
  forall index st',
    MapComponent.removeFeature index Sample.two_points_selected = Normal st' ->
    MapComponent.map_current st' = MapComponent.map_current Sample.two_points_selected.
Proof.
  split; [exact sample_uuidv4_unlike_layer_ids|].
  split; [exact sample_two_points_selected_run|].
  exact (@clearAll_leaves_layers Sample.uuidv4 Sample.two_points_selected
           sample_uuidv4_unlike_layer_ids sample_two_points_selected_run).
Defined.

(** Opening the edit form on the selected feature and saving it without an
    edit is a round trip: when ids are distinct and the selected feature is
    still in the list, the list after Save is the list before, and the panel
    is closed. *)
Theorem save_unedited_keeps_list (uuidv4 : nat -> string)
    (st : MapComponent.State) (F : GeoJSON.Feature) :
  distinct_uuids uuidv4 ->
  ui_run uuidv4 st ->
  MapComponent.selectedFeature st = Some F ->
  In F (MapComponent.features st) ->
  let form := FeatureProperties.load (Some F) FeatureProperties.initial_form in
  exists st',
    MapComponent.save (FeatureProperties.form_name form)
      (FeatureProperties.form_description form) st = Normal st' /\
    MapComponent.features st' = MapComponent.features st /\
    MapComponent.selectedFeature st' = None /\
    MapComponent.showProperties st' = false.
Proof.
  intros Hdist Hrun Hsel HF form.
  pose proof (ui_run_invariant Hrun) as [(tool & sc & Hb) Hp _ Hd _ _].
  destruct (bound_deps Hb) as (Hdeps & m & Hm).
  assert (Hshow : MapComponent.showProperties st = true).
  { apply Hp. rewrite Hsel. discriminate. }
  assert (Hupd : GeoJSON.with_properties F
                   {| GeoJSON.name := FeatureProperties.form_name form;
                      GeoJSON.description := FeatureProperties.form_description form |}
                 = F).
  { unfold form. simpl. rewrite !js_or_empty. destruct F as [i g [n d]]. reflexivity. }
  unfold MapComponent.save. rewrite Hshow, Hsel.
  unfold FeatureProperties.handleSave. rewrite Hupd.
  unfold MapComponent.handleFeatureUpdate. rewrite Hm.
  destruct (GeoJSON.id F =? "")%string.
  - simpl. eexists. split; [reflexivity|].
    destruct (onClose_frame st Hdeps) as (_ & Hfs & Hs & Hsp).
    repeat split; assumption.
  - unfold Mapbox.getSource. rewrite mem_string_absent.
    2:{ pose proof (features_source_not_issued Hrun) as Hno.
        unfold sources_of in Hno. rewrite Hm in Hno. exact Hno. }
    simpl. eexists. split; [reflexivity|].
    rewrite run_effects_idle.
    2:{ destruct st as [mc dm cf fs sf sp lp pp ed ec fc uc]. exact Hdeps. }
    assert (Hdeps' : MapComponent.effect_deps
                       (MapComponent.setShowProperties false
                          (MapComponent.setSelectedFeature None
                             (MapComponent.setFeatures
                                (map (fun f => if (GeoJSON.id f =? GeoJSON.id F)%string
                                               then GeoJSON.with_properties f (GeoJSON.properties F)
                                               else f)) st)))
                     = MapComponent.drawingMode
                       (MapComponent.setShowProperties false
                          (MapComponent.setSelectedFeature None
                             (MapComponent.setFeatures
                                (map (fun f => if (GeoJSON.id f =? GeoJSON.id F)%string
                                               then GeoJSON.with_properties f (GeoJSON.properties F)
                                               else f)) st)))).
    { destruct st as [mc dm cf fs sf sp lp pp ed ec fc uc]. exact Hdeps. }
    destruct (onClose_frame _ Hdeps') as (_ & Hfs & Hs & Hsp).
    rewrite Hfs, Hs, Hsp. split; [|split; reflexivity].
    destruct st as [mc dm cf fs sf sp lp pp ed ec fc uc]. simpl in *.
    apply (map_update_same F fs (Hd Hdist) HF).
Qed.

Lemma save_unedited_keeps_list_witness :
  distinct_uuids Sample.uuidv4 /\
  ui_run Sample.uuidv4 Sample.two_points_selected /\
  MapComponent.selectedFeature Sample.two_points_selected = Some Sample.the_point /\
  In Sample.the_point (MapComponent.features Sample.two_points_selected) /\
  exists st',
    MapComponent.save "Point 1" "New point feature" Sample.two_points_selected
      = Normal st' /\
    MapComponent.features st' = MapComponent.features Sample.two_points_selected /\
    MapComponent.selectedFeature st' = None /\
    MapComponent.showProperties st' = false.
Proof.
  assert (Hsel : MapComponent.selectedFeature Sample.two_points_selected
                 = Some Sample.the_point) by (vm_compute; reflexivity).
  assert (Hin : In Sample.the_point (MapComponent.features Sample.two_points_selected)).
  { assert (E : MapComponent.features Sample.two_points_selected
                = MapComponent.features
                    (MapComponent.click Sample.uuidv4 (Sample.at_ 30 40) Sample.one_point))
      by (vm_compute; reflexivity).
    rewrite E, sample_two_points_selected_features. left. reflexivity. }
  split; [exact sample_uuidv4_distinct|].
  split; [exact sample_two_points_selected_run|].
  split; [exact Hsel|]. split; [exact Hin|].
  exact (@save_unedited_keeps_list Sample.uuidv4 Sample.two_points_selected
           Sample.the_point sample_uuidv4_distinct sample_two_points_selected_run
           Hsel Hin).
Defined.

(** After its render, the effect has run for the tool the component has. *)
Lemma run_effects_settled (st : MapComponent.State) :
  MapComponent.effect_deps (MapComponent.run_effects st) = MapComponent.drawingMode st /\
  MapComponent.drawingMode (MapComponent.run_effects st) = MapComponent.drawingMode st /\
  MapComponent.currentFeature (MapComponent.run_effects st)
    = MapComponent.currentFeature st.
Proof.
  destruct st as [mc dm cf fs sf sp lp pp ed ec fc uc].
  unfold MapComponent.run_effects. simpl.
  destruct (deps_same dm ed) eqn:Hs.
  - apply deps_same_eq in Hs. subst ed. repeat split; reflexivity.
  - destruct ec as [l|]; destruct mc as [[ls srcs lyrs]|];
      unfold MapComponent.on_map, MapComponent.new_listener; simpl;
      repeat split; reflexivity.
Qed.

Lemma draft2_run_effects_settled (st : Drafts.State) :
  Drafts.effect_deps (Draft2.run_effects st) = Drafts.drawingMode st /\
  Drafts.drawingMode (Draft2.run_effects st) = Drafts.drawingMode st /\
  Drafts.currentFeature (Draft2.run_effects st) = Drafts.currentFeature st.
Proof.
  destruct st as [mc dm cf fs ed ec fc uc].
  unfold Draft2.run_effects. simpl.
  destruct (deps_same dm ed) eqn:Hs.
  - apply deps_same_eq in Hs. subst ed. repeat split; reflexivity.
  - destruct ec as [l|]; destruct mc as [[ls srcs lyrs]|];
      unfold Drafts.on_map, Drafts.new_listener; simpl;
      repeat split; reflexivity.
Qed.

Lemma draft1_run_effects_settled (st : Drafts.State) :
  Drafts.effect_deps (Draft1.run_effects st) = Drafts.drawingMode st /\
  Drafts.drawingMode (Draft1.run_effects st) = Drafts.drawingMode st /\
  Drafts.currentFeature (Draft1.run_effects st) = Drafts.currentFeature st.
Proof.
  destruct st as [mc dm cf fs ed ec fc uc].
  unfold Draft1.run_effects. simpl.
  destruct (deps_same dm ed) eqn:Hs.
  - apply deps_same_eq in Hs. subst ed. repeat split; reflexivity.
  - destruct ec as [l|]; destruct mc as [[ls srcs lyrs]|];
      unfold Draft1.tool_switching_effect, Draft1.drawing_mode_effect,
        Drafts.on_map, Drafts.new_listener; simpl;
      repeat split; reflexivity.
Qed.

Lemma draft1_run_effects_idle (st : Drafts.State) :
  Drafts.effect_deps st = Drafts.drawingMode st -> Draft1.run_effects st = st.
Proof.
  intros H. unfold Draft1.run_effects. rewrite H, deps_same_refl. reflexivity.
Qed.

(** Selecting the tool that is selected already changes nothing, in any of
    the three versions: the second of two selections of the same tool leaves
    the whole state, listeners included, as the first one left it. *)
Theorem handleToolSelect_twice (tool : option Tool) :
  (forall st : MapComponent.State,
     MapComponent.handleToolSelect tool (MapComponent.handleToolSelect tool st)
     = MapComponent.handleToolSelect tool st) /\
  (forall st : Drafts.State,
     Draft2.handleToolSelect tool (Draft2.handleToolSelect tool st)
     = Draft2.handleToolSelect tool st) /\
  (forall st : Drafts.State,
     Draft1.handleToolSelect tool (Draft1.handleToolSelect tool st)
     = Draft1.handleToolSelect tool st).
Proof.
  split; [|split]; intros st.
  - destruct (run_effects_settled
                (MapComponent.setCurrentFeature None (MapComponent.setDrawingMode tool st)))
      as (Hd & Hm & Hc).
    fold (MapComponent.handleToolSelect tool st) in Hd, Hm, Hc.
    assert (Hd0 : MapComponent.drawingMode
                    (MapComponent.setCurrentFeature None
                       (MapComponent.setDrawingMode tool st)) = tool)
      by (destruct st; reflexivity).
    assert (Hc0 : MapComponent.currentFeature
                    (MapComponent.setCurrentFeature None
                       (MapComponent.setDrawingMode tool st)) = None)
      by (destruct st; reflexivity).
    rewrite Hd0 in Hd, Hm. rewrite Hc0 in Hc.
    unfold MapComponent.handleToolSelect at 1.
    destruct (MapComponent.handleToolSelect tool st)
      as [mc dm cf fs sf sp lp pp ed ec fc uc].
    simpl in Hd, Hm, Hc. subst ed dm cf. simpl.
    apply run_effects_idle. reflexivity.
  - destruct (draft2_run_effects_settled (Drafts.handleToolSelect_cells tool st))
      as (Hd & Hm & Hc).
    fold (Draft2.handleToolSelect tool st) in Hd, Hm, Hc.
    assert (Hd0 : Drafts.drawingMode (Drafts.handleToolSelect_cells tool st) = tool)
      by (destruct st; reflexivity).
    assert (Hc0 : Drafts.currentFeature (Drafts.handleToolSelect_cells tool st) = None)
      by (destruct st; reflexivity).
    rewrite Hd0 in Hd, Hm. rewrite Hc0 in Hc.
    unfold Draft2.handleToolSelect at 1.
    destruct (Draft2.handleToolSelect tool st) as [mc dm cf fs ed ec fc uc].
    simpl in Hd, Hm, Hc. subst ed dm cf. unfold Drafts.handleToolSelect_cells. simpl.
    apply draft2_run_effects_idle. reflexivity.
  - destruct (draft1_run_effects_settled (Drafts.handleToolSelect_cells tool st))
      as (Hd & Hm & Hc).
    fold (Draft1.handleToolSelect tool st) in Hd, Hm, Hc.
    assert (Hd0 : Drafts.drawingMode (Drafts.handleToolSelect_cells tool st) = tool)
      by (destruct st; reflexivity).
    assert (Hc0 : Drafts.currentFeature (Drafts.handleToolSelect_cells tool st) = None)
      by (destruct st; reflexivity).
    rewrite Hd0 in Hd, Hm. rewrite Hc0 in Hc.
    unfold Draft1.handleToolSelect at 1.
    destruct (Draft1.handleToolSelect tool st) as [mc dm cf fs ed ec fc uc].
    simpl in Hd, Hm, Hc. subst ed dm cf. unfold Drafts.handleToolSelect_cells. simpl.
    apply draft1_run_effects_idle. reflexivity.
Qed.

(** The name of a point is numbered from the list its listener saw when it
    was bound: all the points placed after one selection of the Point tool
    carry the same name, numbered one more than the length of the list at
    the moment of the selection. *)
Theorem points_of_one_selection_share_name (uuidv4 : nat -> string)
    (st : MapComponent.State) (es : list MapMouseEvent) :
  ui_run uuidv4 st ->
  MapComponent.drawingMode st <> Some point ->
  exists added,
    MapComponent.features
      (clicks uuidv4 es (MapComponent.handleToolSelect (Some point) st))
      = MapComponent.features st ++ added /\
    List.length added = List.length es /\
    forall f, In f added ->
      GeoJSON.name (GeoJSON.properties f)
      = ("Point " ++ decimal (List.length (MapComponent.features st) + 1))%string.
Proof.
  intros Hrun Hmode.
  destruct (ui_run_invariant Hrun) as [(tool & sc & Hb) _ _ _ _ _].
  destruct (bound_handleToolSelect (Some point) Hb) as (sc' & Hb' & _ & Hsc' & Hcells).
  assert (Hne : Some point <> tool).
  { destruct Hb as (m & l0 & l1 & _ & _ & _ & _ & _ & Hm & _).
    rewrite <- Hm. intros E. apply Hmode. symmetry. exact E. }
  destruct (Hsc' Hne) as (_ & _ & Hfs').
  destruct (@clicks_point_names uuidv4 sc' es _ Hb') as (added & Hfs & Hlen & Hnames).
  exists added. rewrite Hfs, Hfs' in *.
  destruct Hcells as (Hf & _). rewrite Hf.
  split; [|split; [exact Hlen|exact Hnames]].
  destruct st as [mc dm cf fs sf sp lp pp ed ec fc uc]. reflexivity.
Qed.

Lemma points_of_one_selection_share_name_witness :
  ui_run Sample.uuidv4 (MapComponent.mount MapComponent.initial) /\
  MapComponent.drawingMode (MapComponent.mount MapComponent.initial) <> Some point /\
  exists added,
    MapComponent.features
      (clicks Sample.uuidv4 [Sample.at_ 10 20; Sample.at_ 30 40]
         (MapComponent.handleToolSelect (Some point)
            (MapComponent.mount MapComponent.initial)))
      = MapComponent.features (MapComponent.mount MapComponent.initial) ++ added /\
    List.length added = 2 /\
    forall f, In f added -> GeoJSON.name (GeoJSON.properties f) = "Point 1".
Proof.
  assert (Hmode : MapComponent.drawingMode (MapComponent.mount MapComponent.initial)
                  <> Some point) by (simpl; discriminate).
  split; [apply ui_start|]. split; [exact Hmode|].
  exact (@points_of_one_selection_share_name Sample.uuidv4
           (MapComponent.mount MapComponent.initial)
           [Sample.at_ 10 20; Sample.at_ 30 40] (ui_start Sample.uuidv4 _) Hmode).
Defined.

Section ListRows.
Import GeoJSON.

Lemma highlighted_rows (f : Feature) (before after : list Feature) :
  NoDup (map id (before ++ f :: after)) ->
  map FeatureList.highlighted (map (FeatureList.row (Some f)) (before ++ f :: after))
  = repeat false (List.length before) ++ true :: repeat false (List.length after).
Proof.
  intros Hnd. rewrite map_app in Hnd. simpl in Hnd.
  pose proof (NoDup_remove_2 _ _ _ Hnd) as Hnotin.
  assert (Hother : forall gs, (forall g, In g gs -> id g <> id f) ->
            map FeatureList.highlighted (map (FeatureList.row (Some f)) gs)
            = repeat false (List.length gs)).
  { induction gs as [|g rest IH]; intros H; simpl; [reflexivity|].
    rewrite IH by (intros h Hh; apply H; right; exact Hh).
    destruct (String.eqb_spec (id f) (id g)) as [E|_]; [|reflexivity].
    exfalso. apply (H g); [left; reflexivity|symmetry; exact E]. }
  rewrite !map_app. simpl. rewrite String.eqb_refl.
  rewrite !Hother; [reflexivity| |].
  - intros g Hg E. apply Hnotin. apply in_or_app. right. rewrite <- E.
    apply in_map. exact Hg.
  - intros g Hg E. apply Hnotin. apply in_or_app. left. rewrite <- E.
    apply in_map. exact Hg.
Qed.
End ListRows.

(** After a feature of the list is selected, [FeatureList] shows one row per
    feature, in the order of the list and keyed by the ids, and with
    distinct ids it highlights the row of the selected feature and no
    other. *)
Theorem list_highlights_selected_row (uuidv4 : nat -> string)
    (st : MapComponent.State) (f : GeoJSON.Feature) :
  distinct_uuids uuidv4 ->
  ui_run uuidv4 st ->
  In f (MapComponent.features st) ->
  let st' := MapComponent.handleFeatureSelect f st in
  let view :=
    FeatureList.render (MapComponent.features st') (MapComponent.selectedFeature st') in
  FeatureList.header_count view = List.length (MapComponent.features st) /\
  map FeatureList.key (FeatureList.rows view) = map GeoJSON.id (MapComponent.features st) /\
  exists before after,
    MapComponent.features st = before ++ f :: after /\
    map FeatureList.highlighted (FeatureList.rows view)
    = repeat false (List.length before) ++ true :: repeat false (List.length after).
Proof.
  intros Hdist Hrun Hf st' view.
  pose proof (ui_run_invariant Hrun) as [(tool & sc & Hb) _ _ Hd _ _].
  destruct (bound_deps Hb) as (Hdeps & _).
  destruct (handleFeatureSelect_frame f st Hdeps) as (_ & Hfs & Hsel & _).
  unfold view, st', FeatureList.render. simpl. rewrite Hfs, Hsel.
  split; [reflexivity|]. split; [rewrite map_map; reflexivity|].
  destruct (in_split f _ Hf) as (before & after & E).
  exists before, after. split; [exact E|].
  rewrite E. apply highlighted_rows. rewrite <- E. apply Hd, Hdist.
Qed.

Lemma list_highlights_selected_row_witness :
  distinct_uuids Sample.uuidv4 /\
  ui_run Sample.uuidv4 Sample.one_point /\
  In Sample.the_point (MapComponent.features Sample.one_point) /\
  FeatureList.header_count
    (FeatureList.render
       (MapComponent.features (MapComponent.handleFeatureSelect Sample.the_point Sample.one_point))
       (MapComponent.selectedFeature
          (MapComponent.handleFeatureSelect Sample.the_point Sample.one_point)))
    = List.length (MapComponent.features Sample.one_point) /\
  map FeatureList.key
    (FeatureList.rows
       (FeatureList.render
          (MapComponent.features (MapComponent.handleFeatureSelect Sample.the_point Sample.one_point))
          (MapComponent.selectedFeature
             (MapComponent.handleFeatureSelect Sample.the_point Sample.one_point))))
    = map GeoJSON.id (MapComponent.features Sample.one_point) /\
  exists before after,
    MapComponent.features Sample.one_point = before ++ Sample.the_point :: after /\
    map FeatureList.highlighted
      (FeatureList.rows
         (FeatureList.render
            (MapComponent.features (MapComponent.handleFeatureSelect Sample.the_point Sample.one_point))
            (MapComponent.selectedFeature
               (MapComponent.handleFeatureSelect Sample.the_point Sample.one_point))))
    = repeat false (List.length before) ++ true :: repeat false (List.length after).
Proof.
  assert (Hin : In Sample.the_point (MapComponent.features Sample.one_point)).
  { assert (E : MapComponent.features Sample.one_point = [Sample.the_point])
      by (vm_compute; reflexivity).
    rewrite E. left. reflexivity. }
  split; [exact sample_uuidv4_distinct|].
  split; [exact sample_one_point_run|]. split; [exact Hin|].
  exact (@list_highlights_selected_row Sample.uuidv4 Sample.one_point Sample.the_point
           sample_uuidv4_distinct sample_one_point_run Hin).
Defined.

(** Deleting an id twice is deleting it once: in every state the handlers
    reach, the second [handleFeatureDelete] of the same id leaves the whole
    state as the first one left it. *)
Theorem handleFeatureDelete_twice (uuidv4 : nat -> string)
    (st : MapComponent.State) (id0 : string) :
  ui_run uuidv4 st ->
  MapComponent.handleFeatureDelete id0 (MapComponent.handleFeatureDelete id0 st)
  = MapComponent.handleFeatureDelete id0 st.
Proof.
  intros Hrun.
  destruct (ui_run_invariant Hrun) as [(tool & sc & Hb) _ _ _ _ _].
  destruct (bound_deps Hb) as (Hdeps & m & Hm).
  destruct st as [mc dm cf fs sf sp lp pp ed ec fc uc]. simpl in Hm, Hdeps. subst mc ed.
  destruct m as [ls srcs lyrs].
  assert (Hgone : forall srcs', Mapbox.getLayer id0
            (if mem_string id0 lyrs
             then Mapbox.Build_Map ls srcs' (remove_string id0 lyrs)
             else Mapbox.Build_Map ls srcs lyrs) = false).
  { intros srcs'. destruct (mem_string id0 lyrs) eqn:E; unfold Mapbox.getLayer; simpl;
      [apply mem_remove_string|exact E]. }
  unfold MapComponent.handleFeatureDelete at 2.
  unfold MapComponent.on_map, MapComponent.selected_is, Mapbox.getLayer. simpl.
  destruct (match sf with Some f => (GeoJSON.id f =? id0)%string | None => false end) eqn:Hsel;
    (rewrite run_effects_idle; [|reflexivity]);
    unfold MapComponent.handleFeatureDelete, MapComponent.on_map,
      MapComponent.selected_is; simpl;
    destruct (mem_string id0 lyrs) eqn:E; unfold Mapbox.getLayer; simpl;
    rewrite ?mem_remove_string, ?E, ?Hsel, filter_twice;
    (rewrite run_effects_idle; [|reflexivity]); reflexivity.
Qed.

Lemma handleFeatureDelete_twice_witness :
  ui_run Sample.uuidv4 Sample.two_points_selected /\
  MapComponent.handleFeatureDelete "uuid-0"
    (MapComponent.handleFeatureDelete "uuid-0" Sample.two_points_selected)
  = MapComponent.handleFeatureDelete "uuid-0" Sample.two_points_selected.
Proof.
  split; [exact sample_two_points_selected_run|].
  exact (@handleFeatureDelete_twice Sample.uuidv4 Sample.two_points_selected "uuid-0"
           sample_two_points_selected_run).
Defined.

(** ** The two earlier versions: what the list handlers leave alone *)

Section DraftsFrames.
Import Drafts.

Lemma drafts_same_listeners_refl (st : State) : drafts_same_listeners st st.
Proof. unfold drafts_same_listeners. repeat split; auto. Qed.

Lemma drafts_same_listeners_trans (a b c : State) :
  drafts_same_listeners a b -> drafts_same_listeners b c -> drafts_same_listeners a c.
Proof.
  intros (Hl1 & Hn1 & He1 & Hc1 & Hf1) (Hl2 & Hn2 & He2 & Hc2 & Hf2).
  unfold drafts_same_listeners.
  rewrite Hl1, Hl2, He1, He2, Hc1, Hc2, Hf1, Hf2. repeat split; auto.
  - intros H. apply Hn2, Hn1, H.
  - intros H. apply Hn1, Hn2, H.
Qed.

Lemma drafts_remove_layer_frame (cond : bool) (s : string) (st : State) :
  drafts_same_listeners
    (on_map (fun m => if cond then Mapbox.removeSource s (Mapbox.removeLayer s m) else m) st)
    st /\
  drawingMode
    (on_map (fun m => if cond then Mapbox.removeSource s (Mapbox.removeLayer s m) else m) st)
    = drawingMode st /\
  features
    (on_map (fun m => if cond then Mapbox.removeSource s (Mapbox.removeLayer s m) else m) st)
    = features st.
Proof.
  destruct st as [[[ls srcs lyrs]|] dm cf fs ed ec fc uc]; unfold on_map; simpl.
  - destruct cond; unfold drafts_same_listeners, drafts_listeners_of; simpl;
      repeat split; try reflexivity; discriminate.
  - split; [apply drafts_same_listeners_refl|split; reflexivity].
Qed.


(** The loop of [clearAll] over the features. *)
Lemma drafts_clearAll_loop_frame (fs : list MapFeature) :
  forall s : State,
    drafts_same_listeners
      (fold_left
         (fun (s : State) (feature : MapFeature) =>
            on_map (fun m =>
                      if negb (id feature =? "")%string && Mapbox.getLayer (id feature) m
                      then Mapbox.removeSource (id feature)
                             (Mapbox.removeLayer (id feature) m)
                      else m) s) fs s) s.
Proof.
  induction fs as [|f rest IH]; intros s; simpl.
  - apply drafts_same_listeners_refl.
  - apply (drafts_same_listeners_trans (IH _)).
    destruct s as [[[ls srcs lyrs]|] dm cf fs0 ed ec fc uc]; unfold on_map; simpl.
    + destruct (negb (id f =? "")%string && _);
        unfold drafts_same_listeners, drafts_listeners_of; simpl;
        repeat split; try reflexivity; discriminate.
    + apply drafts_same_listeners_refl.
Qed.

Lemma clearAll_cells_frame (st : State) (m : Map) :
  map_current st = Some m ->
  drafts_same_listeners (clearAll_cells st) st /\
  features (clearAll_cells st) = [] /\
  drawingMode (clearAll_cells st) = None.
Proof.
  intros Hm. unfold clearAll_cells. rewrite Hm.
  pose proof (drafts_clearAll_loop_frame (features st) st) as Hl.
  destruct (fold_left _ (features st) st) as [mc dm cf fs ed ec fc uc].
  split; [exact Hl|split; reflexivity].
Qed.

Lemma removeFeature_cells_frame (index : nat) (st st' : State) (m : Map) :
  map_current st = Some m ->
  removeFeature_cells index st = Normal st' ->
  drafts_same_listeners st' st /\
  features st' = filter_index index (features st) /\
  drawingMode st' = drawingMode st.
Proof.
  intros Hm. unfold removeFeature_cells. rewrite Hm.
  destruct (nth_error (features st) index) as [f|]; [|discriminate].
  intros H. injection H as <-.
  destruct st as [mc dm cf fs ed ec fc uc]. simpl in Hm. subst mc.
  destruct m as [ls srcs lyrs]. unfold on_map. simpl.
  destruct (negb (id f =? "")%string && _);
    unfold drafts_same_listeners, drafts_listeners_of; simpl;
    repeat split; try reflexivity; discriminate.
Qed.

(** After a handler that left the listeners alone, the render that follows
    binds one listener for the tool the component has then. *)
Lemma draft2_run_effects_bound (tool : option Tool) (st0 st : State) :
  drafts_bound tool st0 -> drafts_same_listeners st st0 ->
  drafts_bound (drawingMode st) (Draft2.run_effects st).
Proof.
  intros (m & l0 & l1 & Hm & Hls & H0 & H1 & Hmode & Hdeps & Hclean & Hne & Hlt0 & Hlt1)
         (Hl & Hnone & He & Hc & Hf).
  unfold drafts_listeners_of in Hl. rewrite Hm, Hls in Hl.
  rewrite Hdeps in He. rewrite Hclean in Hc. rewrite <- Hf in Hlt0, Hlt1.
  clear Hm Hls Hmode Hdeps Hclean Hf Hnone st0 m.
  destruct st as [mc dm cf fs ed ec fc uc]. simpl in *. subst ed ec.
  destruct mc as [[ls srcs lyrs]|]; [|discriminate]. simpl in Hl. subst ls.
  unfold Draft2.run_effects. simpl.
  destruct (deps_same dm tool) eqn:Hs.
  - apply deps_same_eq in Hs. subst dm.
    do 3 eexists. simpl. repeat split; try reflexivity; assumption.
  - assert (E01 : (Mapbox.fn l1 =? Mapbox.fn l0) = false)
      by (apply Nat.eqb_neq; auto).
    assert (Ec0 : (fc =? Mapbox.fn l0) = false) by (apply Nat.eqb_neq; lia).
    unfold on_map, new_listener. simpl.
    do 4 (unfold Mapbox.same_fn; simpl; rewrite ?E01, ?Nat.eqb_refl, ?Ec0; simpl).
    do 3 eexists. simpl. repeat split; try reflexivity; simpl; try assumption; lia.
Qed.

Lemma draft2_clearAll_bound (tool : option Tool) (st : State) :
  drafts_bound tool st ->
  drafts_bound None (Draft2.clearAll st) /\ features (Draft2.clearAll st) = [].
Proof.
  intros Hb. pose proof Hb as (m & l0 & l1 & Hm & _).
  destruct (clearAll_cells_frame st Hm) as (Hsl & Hfs & Hd).
  unfold Draft2.clearAll. split.
  - rewrite <- Hd. apply (draft2_run_effects_bound Hb Hsl).
  - destruct (clearAll_cells st) as [mc dm cf fs ed ec fc uc]. simpl in Hfs. subst fs.
    unfold Draft2.run_effects, on_map, new_listener. simpl.
    destruct (deps_same dm ed); [reflexivity|].
    destruct ec as [l|]; destruct mc as [mm|]; reflexivity.
Qed.
End DraftsFrames.

(** ** The version with [MapFeature] records: [clearAll] and [removeFeature] *)

(** After [clearAll] the next line starts afresh: whatever was drawn before,
    [clearAll], the Line tool and one click that draws its line, so that
    the layer ["line-<now>"] is on the map afterwards (the style of the map
    has loaded), leave a list with one line, made of the clicked point
    alone. *)
Theorem draft2_clearAll_starts_fresh (uuidv4 : nat -> string) (st : Drafts.State)
    (now : N) (e : MapMouseEvent) :
  draft2_run uuidv4 st ->
  In ("line-" ++ decimalN now)%string
     (drafts_layers_of
        (Draft2.click uuidv4 now e
           (Draft2.handleToolSelect (Some line) (Draft2.clearAll st)))) ->
  Drafts.features
    (Draft2.click uuidv4 now e
       (Draft2.handleToolSelect (Some line) (Draft2.clearAll st)))
  = [Drafts.line_feature [lngLat e] ("line-" ++ decimalN now)%string].
Proof.
  intros Hrun _. destruct (draft2_run_bound Hrun) as (tool & Hb).
  destruct (draft2_clearAll_bound Hb) as (Hb1 & Hfs1).
  pose proof (drafts_bound_handleToolSelect (Some line) Hb1) as Hb2.
  pose proof (draft2_handleToolSelect_features (Some line) (Draft2.clearAll st)) as Hfs2.
  rewrite Hfs1 in Hfs2.
  rewrite (draft2_line_starts uuidv4 now e Hb2).
  - rewrite Hfs2. reflexivity.
  - rewrite Hfs2. intros cs i H. discriminate H.
Qed.

Lemma draft2_clearAll_starts_fresh_witness :
  draft2_run Sample.uuidv4 Sample.draft2_line_two_clicks /\
  In ("line-" ++ decimalN 3000)%string
     (drafts_layers_of
        (Draft2.click Sample.uuidv4 3000%N (Sample.at_ 5 5)
           (Draft2.handleToolSelect (Some line)
              (Draft2.clearAll Sample.draft2_line_two_clicks)))) /\
  Drafts.features
    (Draft2.click Sample.uuidv4 3000%N (Sample.at_ 5 5)
       (Draft2.handleToolSelect (Some line)
          (Draft2.clearAll Sample.draft2_line_two_clicks)))
  = [Drafts.line_feature [Sample.pos 5 5] "line-3000"].
Proof.
  assert (Hrun : draft2_run Sample.uuidv4 Sample.draft2_line_two_clicks).
  { unfold Sample.draft2_line_two_clicks, Sample.draft2_line_one_click,
      Sample.draft2_line_tool.
    apply draft2_run_click, draft2_run_click, draft2_run_handleToolSelect,
      draft2_run_mount. }
  assert (Hdrawn :
            In ("line-" ++ decimalN 3000)%string
               (drafts_layers_of
                  (Draft2.click Sample.uuidv4 3000%N (Sample.at_ 5 5)
                     (Draft2.handleToolSelect (Some line)
                        (Draft2.clearAll Sample.draft2_line_two_clicks))))).
  { vm_compute. right. left. reflexivity. }
  split; [exact Hrun|]. split; [exact Hdrawn|].
  exact (@draft2_clearAll_starts_fresh Sample.uuidv4 Sample.draft2_line_two_clicks
           3000%N (Sample.at_ 5 5) Hrun Hdrawn).
Defined.

(** A point placed and then removed is a round trip: with the Point tool, a
    click that draws its point, so that the layer called by the id [uuidv4]
    returned is on the map afterwards (the style of the map has loaded),
    followed by [removeFeature] of the new entry gives back the list and
    the map, layers and sources included, when that id is not empty and was
    not on the map before the click. *)
Theorem draft2_point_added_then_removed (uuidv4 : nat -> string) (st : Drafts.State)
    (now : N) (e : MapMouseEvent) :
  draft2_run uuidv4 st ->
  Drafts.drawingMode st = Some point ->
  uuidv4 (Drafts.uuid_count st) <> "" ->
  ~ In (uuidv4 (Drafts.uuid_count st)) (drafts_layers_of st) ->
  ~ In (uuidv4 (Drafts.uuid_count st)) (drafts_sources_of st) ->
  In (uuidv4 (Drafts.uuid_count st)) (drafts_layers_of (Draft2.click uuidv4 now e st)) ->
  Drafts.features (Draft2.click uuidv4 now e st)
    = Drafts.features st
      ++ [Drafts.point_feature (lngLat e) (uuidv4 (Drafts.uuid_count st))] /\
  exists st',
    Draft2.removeFeature (List.length (Drafts.features st)) (Draft2.click uuidv4 now e st)
      = Normal st' /\
    Drafts.features st' = Drafts.features st /\
    Drafts.map_current st' = Drafts.map_current st.
Proof.
  intros Hrun Hmode Hid Hly Hsr _.
  destruct (draft2_run_bound Hrun) as (tool & Hb).
  destruct (draft2_click_bound uuidv4 now e Hb) as [Hclick _].
  destruct Hb as (m & l0 & l1 & Hm & Hls & H0 & H1 & Hmode' & Hdeps & _).
  assert (Et : tool = Some point) by (rewrite <- Hmode'; exact Hmode).
  rewrite Et in Hdeps, Hclick. rewrite Hclick. clear Et Hmode' H1 H0 Hls Hclick.
  destruct st as [mc dm cf fs ed ec fc uc]. simpl in *. subst mc dm ed.
  destruct m as [ls srcs lyrs]. unfold drafts_layers_of, drafts_sources_of in *.
  simpl in *.
  unfold Draft2.handleDrawingClick, Draft2.addPoint, Drafts.on_map,
    Mapbox.addLayer_inline. simpl.
  rewrite (mem_string_absent _ _ Hly). simpl.
  split; [reflexivity|].
  unfold Draft2.removeFeature, Drafts.removeFeature_cells. simpl.
  rewrite nth_error_app2, Nat.sub_diag by lia. simpl.
  unfold Drafts.on_map, Mapbox.getLayer. simpl.
  assert (Hmem : mem_string (uuidv4 uc) (lyrs ++ [uuidv4 uc]) = true).
  { apply mem_string_In. apply in_or_app. right. left. reflexivity. }
  rewrite Hmem.
  destruct (String.eqb_spec (uuidv4 uc) "") as [E|_]; [contradiction|]. simpl.
  rewrite filter_index_snoc, !remove_string_snoc by assumption.
  eexists. split; [reflexivity|].
  rewrite draft2_run_effects_idle by reflexivity. split; reflexivity.
Qed.

Lemma sample_draft2_point_tool_run :
  draft2_run Sample.uuidv4
    (Draft2.handleToolSelect (Some point) (Draft2.mount Drafts.initial)).
Proof. apply draft2_run_handleToolSelect, draft2_run_mount. Qed.

Lemma draft2_point_added_then_removed_witness :
  draft2_run Sample.uuidv4
    (Draft2.handleToolSelect (Some point) (Draft2.mount Drafts.initial)) /\
  In (Sample.uuidv4
        (Drafts.uuid_count
           (Draft2.handleToolSelect (Some point) (Draft2.mount Drafts.initial))))
     (drafts_layers_of
        (Draft2.click Sample.uuidv4 1000%N (Sample.at_ 10 20)
           (Draft2.handleToolSelect (Some point) (Draft2.mount Drafts.initial)))) /\
  Drafts.features
    (Draft2.click Sample.uuidv4 1000%N (Sample.at_ 10 20)
       (Draft2.handleToolSelect (Some point) (Draft2.mount Drafts.initial)))
    = [Drafts.point_feature (Sample.pos 10 20) "uuid-0"] /\
  exists st',
    Draft2.removeFeature 0
      (Draft2.click Sample.uuidv4 1000%N (Sample.at_ 10 20)
         (Draft2.handleToolSelect (Some point) (Draft2.mount Drafts.initial)))
      = Normal st' /\
    Drafts.features st' = [] /\
    Drafts.map_current st'
    = Drafts.map_current
        (Draft2.handleToolSelect (Some point) (Draft2.mount Drafts.initial)).
Proof.
  assert (Hmode : Drafts.drawingMode
                    (Draft2.handleToolSelect (Some point) (Draft2.mount Drafts.initial))
                  = Some point) by reflexivity.
  assert (Hid : Sample.uuidv4
                  (Drafts.uuid_count
                     (Draft2.handleToolSelect (Some point) (Draft2.mount Drafts.initial)))
                <> "") by (simpl; discriminate).
  assert (Hly : ~ In (Sample.uuidv4
                        (Drafts.uuid_count
                           (Draft2.handleToolSelect (Some point)
                              (Draft2.mount Drafts.initial))))
                     (drafts_layers_of
                        (Draft2.handleToolSelect (Some point)
                           (Draft2.mount Drafts.initial)))) by (simpl; tauto).
  assert (Hsr : ~ In (Sample.uuidv4
                        (Drafts.uuid_count
                           (Draft2.handleToolSelect (Some point)
                              (Draft2.mount Drafts.initial))))
                     (drafts_sources_of
                        (Draft2.handleToolSelect (Some point)
                           (Draft2.mount Drafts.initial)))) by (simpl; tauto).
  assert (Hdrawn :
            In (Sample.uuidv4
                  (Drafts.uuid_count
                     (Draft2.handleToolSelect (Some point)
                        (Draft2.mount Drafts.initial))))
               (drafts_layers_of
                  (Draft2.click Sample.uuidv4 1000%N (Sample.at_ 10 20)
                     (Draft2.handleToolSelect (Some point)
                        (Draft2.mount Drafts.initial))))).
  { vm_compute. left. reflexivity. }
  split; [exact sample_draft2_point_tool_run|]. split; [exact Hdrawn|].
  exact (@draft2_point_added_then_removed Sample.uuidv4 _ 1000%N (Sample.at_ 10 20)
           sample_draft2_point_tool_run Hmode Hid Hly Hsr Hdrawn).
Defined.



(** ** The earliest version: the listeners its effects leave on the map *)

Section Draft1Listeners.
Import Drafts.

Lemma remove_first_newest (Scope : Type) (l : Mapbox.Listener Scope)
    (xs : list (Mapbox.Listener Scope)) :
  (forall x, In x xs -> Mapbox.fn x < Mapbox.fn l) ->
  Mapbox.remove_first l (xs ++ [l]) = xs.
Proof.
  induction xs as [|x rest IH]; intros H; simpl.
  - unfold Mapbox.same_fn. rewrite Nat.eqb_refl. reflexivity.
  - assert (E : Mapbox.same_fn l x = false).
    { unfold Mapbox.same_fn. apply Nat.eqb_neq.
      specialize (H x (or_introl eq_refl)). lia. }
    rewrite E, IH; [reflexivity|]. intros y Hy. apply H. right. exact Hy.
Qed.

Lemma not_registered (Scope : Type) (l : Mapbox.Listener Scope)
    (xs : list (Mapbox.Listener Scope)) :
  (forall x, In x xs -> Mapbox.fn x < Mapbox.fn l) ->
  existsb (Mapbox.same_fn l) xs = false.
Proof.
  induction xs as [|x rest IH]; intros H; simpl; [reflexivity|].
  rewrite IH by (intros y Hy; apply H; right; exact Hy).
  unfold Mapbox.same_fn. rewrite orb_false_r. apply Nat.eqb_neq.
  specialize (H x (or_introl eq_refl)). lia.
Qed.

Lemma draft1_listening_mount : draft1_listening (Draft1.mount initial).
Proof.
  unfold draft1_listening. eexists.
  exists [{| Mapbox.fn := 0; Mapbox.scope := None |}]. do 2 eexists. simpl.
  split; [reflexivity|]. split; [reflexivity|].
  repeat split; try reflexivity; simpl; [|lia].
  intros l [<-|[<-|[]]]; simpl; lia.
Qed.

Lemma draft1_listening_same (st st' : State) :
  draft1_listening st -> drafts_same_listeners st' st -> draft1_listening st'.
Proof.
  intros (m & older & la & lh & Hm & Hls & Ha & Hh & Hc & Hlt & Hfc)
         (Hl & Hnone & He & Hcl & Hf).
  unfold drafts_listeners_of in Hl. rewrite Hm, Hls in Hl.
  destruct (map_current st') as [m'|] eqn:Hm'.
  - exists m', older, la, lh. rewrite He, Hcl, Hf. repeat split; assumption.
  - exfalso. destruct older; discriminate Hl.
Qed.

(** A render after which the effects run again takes one listener off the
    map and puts two on it. *)
Lemma draft1_run_effects_listening (st : State) :
  draft1_listening st ->
  draft1_listening (Draft1.run_effects st) /\
  (drawingMode st <> effect_deps st ->
   List.length (drafts_listeners_of (Draft1.run_effects st))
   = S (List.length (drafts_listeners_of st))).
Proof.
  intros (m & older & la & lh & Hm & Hls & Ha & Hh & Hc & Hlt & Hfc).
  destruct st as [mc dm cf fs ed ec fc uc]. simpl in *. subst mc ec.
  destruct m as [ls srcs lyrs]. simpl in Hls. subst ls.
  unfold Draft1.run_effects. simpl.
  destruct (deps_same dm ed) eqn:Hs.
  - split.
    + exists (Mapbox.Build_Map (older ++ [la; lh]) srcs lyrs), older, la, lh.
      simpl. repeat split; assumption.
    + intros Hne. apply deps_same_eq in Hs. contradiction.
  - unfold Draft1.tool_switching_effect, Draft1.drawing_mode_effect, on_map,
      new_listener, Mapbox.off_click_no_listener. simpl.
    replace (older ++ [la; lh]) with ((older ++ [la]) ++ [lh])
      by (rewrite <- app_assoc; reflexivity).
    rewrite (remove_first_newest lh (older ++ [la]) Hlt).
    rewrite (@not_registered _ {| Mapbox.fn := fc; Mapbox.scope := dm |} (older ++ [la]))
      by (simpl; intros x Hx; specialize (Hlt x Hx); lia).
    rewrite not_registered.
    2:{ simpl. intros x Hx. apply in_app_or in Hx. destruct Hx as [Hx|[<-|[]]].
        - specialize (Hlt x Hx). lia.
        - simpl. lia. }
    split.
    + eexists. exists (older ++ [la]). do 2 eexists. simpl.
      split; [reflexivity|]. split; [rewrite <- app_assoc; reflexivity|].
      repeat split; try reflexivity; simpl; [|lia].
      intros x Hx. apply in_app_or in Hx. destruct Hx as [Hx|[<-|[]]].
      * specialize (Hlt x Hx). lia.
      * simpl. lia.
    + intros _. unfold drafts_listeners_of. simpl.
      rewrite !length_app. simpl. lia.
Qed.
End Draft1Listeners.

(** ** The earliest version: what one call of a click listener writes *)

Section Draft1Click.
Import Drafts.

Lemma last_element_split (A : Type) (xs : list A) (x : A) :
  last_element xs = Some x -> exists ys, xs = ys ++ [x].
Proof.
  unfold last_element. intros H. destruct (rev xs) as [|y rest] eqn:E; [discriminate|].
  injection H as ->. exists (rev rest).
  rewrite <- (rev_involutive xs), E. reflexivity.
Qed.

Lemma addLinePoint_updater_length (now : N) (c : LngLat) (prev : list MapFeature)
    (m : option Map) :
  List.length prev <= List.length (fst (addLinePoint_updater now c prev m)).
Proof.
  unfold addLinePoint_updater.
  destruct (last_element prev) as [[? ?|cs i|? ?]|] eqn:E; simpl;
    rewrite ?length_app; simpl; try lia.
  destruct (last_element_split _ E) as (ys & ->).
  rewrite slice_0_minus1_snoc, !length_app. simpl. lia.
Qed.

Lemma addPolygonPoint_updater_length (now : N) (c : LngLat) (prev : list MapFeature)
    (m : option Map) :
  List.length prev <= List.length (fst (addPolygonPoint_updater now c prev m)).
Proof.
  unfold addPolygonPoint_updater.
  destruct (last_element prev) as [[? ?|? ?|cs i]|] eqn:E; simpl;
    rewrite ?length_app; simpl; try lia.
  destruct (last_element_split _ E) as (ys & ->).
  rewrite slice_0_minus1_snoc, !length_app. simpl. lia.
Qed.

(** A call of a click listener leaves the listeners alone and removes no
    feature; a listener bound under the Point tool adds one. *)
Lemma draft1_handleClick_frame (sc : option Tool) (now : N) (e : MapMouseEvent)
    (st : State) :
  drafts_same_listeners (Draft1.handleClick sc now e st) st /\
  drawingMode (Draft1.handleClick sc now e st) = drawingMode st /\
  List.length (features st) <= List.length (features (Draft1.handleClick sc now e st)) /\
  (sc = Some point -> map_current st <> None ->
   List.length (features (Draft1.handleClick sc now e st))
   = S (List.length (features st))).
Proof.
  destruct st as [[m|] dm cf fs ed ec fc uc].
  2:{ unfold Draft1.handleClick. simpl. destruct sc; simpl;
      (split; [apply drafts_same_listeners_refl|]); repeat split; auto;
      intros _ H; exfalso; apply H; reflexivity. }
  unfold Draft1.handleClick. simpl. destruct sc as [[]|]; simpl.
  - unfold Draft1.addPoint, on_map. simpl.
    unfold drafts_same_listeners, drafts_listeners_of. simpl.
    rewrite addLayer_inline_listeners, length_app. simpl.
    repeat split; try reflexivity; try discriminate; lia.
  - unfold addLinePoint, setFeatures. simpl.
    pose proof (addLinePoint_updater_length now (lngLat e) fs (Some m)) as Hlen.
    destruct (addLinePoint_updater_map now (lngLat e) fs m) as (m' & Hm' & Hls').
    destruct (addLinePoint_updater now (lngLat e) fs (Some m)) as [fs' om'].
    simpl in Hm', Hlen. subst om'. simpl.
    unfold drafts_same_listeners, drafts_listeners_of. simpl.
    repeat split; try assumption; try reflexivity; discriminate.
  - unfold addPolygonPoint, setFeatures. simpl.
    pose proof (addPolygonPoint_updater_length now (lngLat e) fs (Some m)) as Hlen.
    destruct (addPolygonPoint_updater_map now (lngLat e) fs m) as (m' & Hm' & Hls').
    destruct (addPolygonPoint_updater now (lngLat e) fs (Some m)) as [fs' om'].
    simpl in Hm', Hlen. subst om'. simpl.
    unfold drafts_same_listeners, drafts_listeners_of. simpl.
    repeat split; try assumption; try reflexivity; discriminate.
  - split; [apply drafts_same_listeners_refl|]. repeat split; auto. discriminate.
Qed.

(** The listeners of one click, called in order. *)
Lemma draft1_listeners_frame (now : N) (e : MapMouseEvent) (ls : list Listener) :
  forall st : State,
    drafts_same_listeners (fold_left (Draft1.call_listener now e) ls st) st /\
    drawingMode (fold_left (Draft1.call_listener now e) ls st) = drawingMode st /\
    List.length (features st)
      <= List.length (features (fold_left (Draft1.call_listener now e) ls st)).
Proof.
  induction ls as [|l rest IH]; intros st; simpl.
  - split; [apply drafts_same_listeners_refl|]. split; [reflexivity|lia].
  - destruct (IH (Draft1.call_listener now e st l)) as (Hsl & Hd & Hlen).
    destruct (draft1_handleClick_frame (Mapbox.scope l) now e st)
      as (Hsl1 & Hd1 & Hlen1 & _).
    fold (Draft1.call_listener now e st l) in Hsl1, Hd1, Hlen1.
    split; [apply (drafts_same_listeners_trans Hsl Hsl1)|].
    split; [rewrite Hd; exact Hd1|lia].
Qed.

Lemma draft1_run_effects_features (st : State) :
  features (Draft1.run_effects st) = features st.
Proof.
  destruct st as [mc dm cf fs ed ec fc uc].
  unfold Draft1.run_effects, Draft1.tool_switching_effect,
    Draft1.drawing_mode_effect, on_map, new_listener. simpl.
  destruct (deps_same dm ed); [reflexivity|].
  destruct ec as [l|]; destruct mc as [m|]; reflexivity.
Qed.

Lemma drafts_same_listeners_mounted (st st' : State) (m : Map) :
  drafts_same_listeners st' st -> map_current st = Some m -> map_current st' <> None.
Proof.
  intros (_ & Hnone & _) Hm H. apply Hnone in H. rewrite Hm in H. discriminate.
Qed.

Lemma handleToolSelect_cells_listeners (tool : option Tool) (st : State) :
  drafts_same_listeners (handleToolSelect_cells tool st) st.
Proof.
  destruct st as [mc dm cf fs ed ec fc uc].
  unfold drafts_same_listeners, drafts_listeners_of. simpl. repeat split; auto.
Qed.

(** What the handlers of the earliest version keep between two events. *)
Lemma draft1_run_listening (st : State) :
  draft1_run st -> draft1_listening st /\ effect_deps st = drawingMode st.
Proof.
  induction 1 as [|tool st _ (IH & _)|now e st _ (IH & Hd)|st _ (IH & _)
                  |index st st' _ (IH & Hd) Hrem].
  - split; [apply draft1_listening_mount|reflexivity].
  - unfold Draft1.handleToolSelect.
    assert (Hl : draft1_listening (handleToolSelect_cells tool st)).
    { apply (draft1_listening_same IH), handleToolSelect_cells_listeners. }
    split; [apply (draft1_run_effects_listening Hl)|].
    destruct (draft1_run_effects_settled (handleToolSelect_cells tool st)) as (He & Hm & _).
    rewrite He, Hm. reflexivity.
  - pose proof IH as (m & _ & _ & _ & Hm & _).
    unfold Draft1.click. rewrite Hm.
    destruct (draft1_listeners_frame now e (Mapbox.click_listeners m) st)
      as (Hsl & Hdm & _).
    pose proof (draft1_listening_same IH Hsl) as Hl.
    split; [apply (draft1_run_effects_listening Hl)|].
    destruct (draft1_run_effects_settled
                (fold_left (Draft1.call_listener now e) (Mapbox.click_listeners m) st))
      as (He & Hm' & _).
    rewrite He, Hm'. reflexivity.
  - pose proof IH as (m & _ & _ & _ & Hm & _).
    unfold Draft1.clearAll.
    destruct (clearAll_cells_frame st Hm) as (Hsl & _).
    pose proof (draft1_listening_same IH Hsl) as Hl.
    split; [apply (draft1_run_effects_listening Hl)|].
    destruct (draft1_run_effects_settled (clearAll_cells st)) as (He & Hm' & _).
    rewrite He, Hm'. reflexivity.
  - pose proof IH as (m & _ & _ & _ & Hm & _).
    unfold Draft1.removeFeature in Hrem.
    destruct (removeFeature_cells index st) as [st1|] eqn:Hcells; [|discriminate].
    simpl in Hrem. injection Hrem as <-.
    destruct (removeFeature_cells_frame index st Hm Hcells) as (Hsl & _).
    pose proof (draft1_listening_same IH Hsl) as Hl.
    split; [apply (draft1_run_effects_listening Hl)|].
    destruct (draft1_run_effects_settled st1) as (He & Hm' & _).
    rewrite He, Hm'. reflexivity.
Qed.
End Draft1Click.

(** ** The earliest version: what one click adds *)

(** In the earliest version, whatever buttons were used before, one click
    under the Point tool that draws its point, so that the layer
    ["point-<now>"] is on the map afterwards (the style of the map has
    loaded), adds at least two features: the two listeners its effects
    registered in their last run are both on the map, and each adds a
    point. *)
Theorem draft1_point_click_adds_two (st : Drafts.State) (now : N) (e : MapMouseEvent) :
  draft1_run st ->
  Drafts.drawingMode st = Some point ->
  In ("point-" ++ decimalN now)%string (drafts_layers_of (Draft1.click now e st)) ->
  List.length (Drafts.features st) + 2
    <= List.length (Drafts.features (Draft1.click now e st)).
Proof.
  intros Hrun Hmode _.
  destruct (draft1_run_listening Hrun)
    as ((m & older & la & lh & Hm & Hls & Ha & Hh & _) & Hdeps).
  rewrite Hdeps, Hmode in Ha, Hh.
  unfold Draft1.click. rewrite Hm, Hls, draft1_run_effects_features.
  rewrite fold_left_app. simpl.
  match goal with
  | |- context [Draft1.call_listener now e (Draft1.call_listener now e ?s la) lh] =>
      set (s1 := s)
  end.
  destruct (draft1_listeners_frame now e older st) as (Hsl & _ & Hlen).
  change (fold_left (Draft1.call_listener now e) older st) with s1 in Hsl, Hlen.
  pose proof (drafts_same_listeners_mounted Hsl Hm) as Hm1.
  change (Draft1.call_listener now e s1 la)
    with (Draft1.handleClick (Mapbox.scope la) now e s1).
  rewrite Ha.
  destruct (draft1_handleClick_frame (Some point) now e s1) as (Hsl2 & _ & _ & Hone).
  specialize (Hone eq_refl Hm1).
  set (s2 := Draft1.handleClick (Some point) now e s1) in *.
  assert (Hm2 : Drafts.map_current s2 <> None).
  { destruct (Drafts.map_current s1) as [m1|] eqn:E; [|contradiction].
    apply (drafts_same_listeners_mounted Hsl2 E). }
  change (Draft1.call_listener now e s2 lh)
    with (Draft1.handleClick (Mapbox.scope lh) now e s2).
  rewrite Hh.
  destruct (draft1_handleClick_frame (Some point) now e s2) as (_ & _ & _ & Htwo).
  specialize (Htwo eq_refl Hm2). lia.
Qed.

Lemma draft1_point_click_adds_two_witness :
  draft1_run Sample.draft1_point_line_point /\
  Drafts.drawingMode Sample.draft1_point_line_point = Some point /\
  In ("point-" ++ decimalN 1000)%string
     (drafts_layers_of
        (Draft1.click 1000%N (Sample.at_ 10 20) Sample.draft1_point_line_point)) /\
  List.length (Drafts.features Sample.draft1_point_line_point) + 2
    <= List.length
         (Drafts.features
            (Draft1.click 1000%N (Sample.at_ 10 20) Sample.draft1_point_line_point)).
Proof.
  assert (Hrun : draft1_run Sample.draft1_point_line_point).
  { unfold Sample.draft1_point_line_point, Sample.draft1_point_tool.
    apply draft1_run_handleToolSelect, draft1_run_handleToolSelect,
      draft1_run_handleToolSelect, draft1_run_mount. }
  assert (Hmode : Drafts.drawingMode Sample.draft1_point_line_point = Some point)
    by (vm_compute; reflexivity).
  assert (Hdrawn :
            In ("point-" ++ decimalN 1000)%string
               (drafts_layers_of
                  (Draft1.click 1000%N (Sample.at_ 10 20)
                     Sample.draft1_point_line_point))).
  { vm_compute. left. reflexivity. }
  split; [exact Hrun|]. split; [exact Hmode|]. split; [exact Hdrawn|].
  exact (@draft1_point_click_adds_two Sample.draft1_point_line_point 1000%N
           (Sample.at_ 10 20) Hrun Hmode Hdrawn).
Defined.

(** In the earliest version every change of tool leaves one more click
    listener on the map than there was: the cleanup removes one listener
    and the two effects register two. *)
Theorem draft1_tool_change_leaks_listener (st : Drafts.State) (tool : option Tool) :
  draft1_run st ->
  tool <> Drafts.drawingMode st ->
  List.length (drafts_listeners_of (Draft1.handleToolSelect tool st))
  = S (List.length (drafts_listeners_of st)).
Proof.
  intros Hrun Hne.
  destruct (draft1_run_listening Hrun) as (Hl & Hdeps).
  assert (Hl' : draft1_listening (Drafts.handleToolSelect_cells tool st)).
  { apply (draft1_listening_same Hl), handleToolSelect_cells_listeners. }
  destruct (draft1_run_effects_listening Hl') as (_ & Hgrow).
  unfold Draft1.handleToolSelect. rewrite Hgrow.
  - destruct st as [mc dm cf fs ed ec fc uc]. reflexivity.
  - destruct st as [mc dm cf fs ed ec fc uc]. simpl in *. subst ed. exact Hne.
Qed.

Lemma draft1_tool_change_leaks_listener_witness :
  draft1_run Sample.draft1_point_tool /\
  Some line <> Drafts.drawingMode Sample.draft1_point_tool /\
  List.length (drafts_listeners_of (Draft1.handleToolSelect (Some line) Sample.draft1_point_tool))
  = S (List.length (drafts_listeners_of Sample.draft1_point_tool)).
Proof.
  assert (Hrun : draft1_run Sample.draft1_point_tool).
  { unfold Sample.draft1_point_tool.
    apply draft1_run_handleToolSelect, draft1_run_mount. }
  assert (Hne : Some line <> Drafts.drawingMode Sample.draft1_point_tool).
  { assert (E : Drafts.drawingMode Sample.draft1_point_tool = Some point)
      by (vm_compute; reflexivity).
    rewrite E. discriminate. }
  split; [exact Hrun|]. split; [exact Hne|].
  exact (@draft1_tool_change_leaks_listener Sample.draft1_point_tool (Some line) Hrun Hne).
Defined.

(** ** [MapComponent.tsx]: the points of the shapes in progress *)

Section PointsInProgress.
Import GeoJSON MapComponent.
Variable uuidv4 : nat -> string.

Lemma grows_from_refl (A : Type) (xs : list A) : grows_from xs xs.
Proof. exists []. rewrite app_nil_r. reflexivity. Qed.

Lemma grows_from_trans (A : Type) (xs ys zs : list A) :
  grows_from xs ys -> grows_from ys zs -> grows_from xs zs.
Proof.
  intros (m1 & ->) (m2 & ->). exists (m1 ++ m2). rewrite app_assoc. reflexivity.
Qed.

Lemma grows_from_eq (A : Type) (xs ys : list A) : ys = xs -> grows_from xs ys.
Proof. intros ->. apply grows_from_refl. Qed.

Lemma handleDrawingClick_points (sc : Scope) (e : MapMouseEvent) (st : State) :
  grows_from (linePoints st) (linePoints (handleDrawingClick uuidv4 sc e st)) /\
  grows_from (polygonPoints st) (polygonPoints (handleDrawingClick uuidv4 sc e st)).
Proof.
  unfold handleDrawingClick.
  destruct (scope_drawingMode sc) as [[]|]; destruct (map_current st) as [m|] eqn:Hm;
    try (split; apply grows_from_refl).
  - destruct st as [mc dm cf fs sf sp lp pp ed ec fc uc]. simpl in Hm. subst mc.
    split; apply grows_from_refl.
  - destruct (addLinePoint_cells uuidv4 sc e st Hm) as (Hl & Hp & _).
    rewrite Hl, Hp. split; [eexists; reflexivity|apply grows_from_refl].
  - destruct (addPolygonPoint_cells uuidv4 sc e st Hm) as (Hp & Hl & _).
    rewrite Hl, Hp. split; [apply grows_from_refl|eexists; reflexivity].
Qed.

Lemma listeners_points (e : MapMouseEvent) (ls : list Listener) :
  forall st : State,
    grows_from (linePoints st) (linePoints (fold_left (call_listener uuidv4 e) ls st)) /\
    grows_from (polygonPoints st)
               (polygonPoints (fold_left (call_listener uuidv4 e) ls st)).
Proof.
  induction ls as [|l rest IH]; intros st; simpl.
  - split; apply grows_from_refl.
  - destruct (IH (call_listener uuidv4 e st l)) as (Hl & Hp).
    destruct (handleDrawingClick_points (Mapbox.scope l) e st) as (Hl1 & Hp1).
    split; [apply (grows_from_trans Hl1 Hl)|apply (grows_from_trans Hp1 Hp)].
Qed.

Lemma click_points (e : MapMouseEvent) (st : State) :
  grows_from (linePoints st) (linePoints (click uuidv4 e st)) /\
  grows_from (polygonPoints st) (polygonPoints (click uuidv4 e st)).
Proof.
  unfold click. destruct (map_current st) as [m|]; [|split; apply grows_from_refl].
  rewrite run_effects_linePoints, run_effects_polygonPoints.
  apply listeners_points.
Qed.

(** The handlers that are not clicks write neither cell. *)
Lemma handleToolSelect_points (tool : option Tool) (st : State) :
  linePoints (handleToolSelect tool st) = linePoints st /\
  polygonPoints (handleToolSelect tool st) = polygonPoints st.
Proof.
  unfold handleToolSelect. rewrite run_effects_linePoints, run_effects_polygonPoints.
  destruct st; split; reflexivity.
Qed.

Lemma handleFeatureSelect_points (f : Feature) (st : State) :
  linePoints (handleFeatureSelect f st) = linePoints st /\
  polygonPoints (handleFeatureSelect f st) = polygonPoints st.
Proof.
  unfold handleFeatureSelect. rewrite run_effects_linePoints, run_effects_polygonPoints.
  destruct st; split; reflexivity.
Qed.

Lemma handleFeatureDelete_points (id0 : string) (st : State) :
  linePoints (handleFeatureDelete id0 st) = linePoints st /\
  polygonPoints (handleFeatureDelete id0 st) = polygonPoints st.
Proof.
  unfold handleFeatureDelete. destruct (map_current st) as [m|] eqn:Hm;
    [|split; reflexivity].
  rewrite run_effects_linePoints, run_effects_polygonPoints.
  destruct st as [mc dm cf fs sf sp lp pp ed ec fc uc]. simpl in Hm. subst mc.
  unfold on_map, selected_is. simpl.
  destruct (match sf with Some f => (id f =? id0)%string | None => false end);
    split; reflexivity.
Qed.

Lemma onClose_points (st : State) :
  linePoints (onClose st) = linePoints st /\
  polygonPoints (onClose st) = polygonPoints st.
Proof.
  unfold onClose. rewrite run_effects_linePoints, run_effects_polygonPoints.
  destruct st; split; reflexivity.
Qed.

Lemma handleFeatureUpdate_points (upd : Feature) (st st' : State) :
  handleFeatureUpdate upd st = Normal st' ->
  linePoints st' = linePoints st /\ polygonPoints st' = polygonPoints st.
Proof.
  unfold handleFeatureUpdate.
  destruct (map_current st) as [m|]; [|intros H; injection H as <-; split; reflexivity].
  destruct (id upd =? "")%string; [intros H; injection H as <-; split; reflexivity|].
  destruct (Mapbox.getSource "features" m); [discriminate|].
  intros H. injection H as <-.
  rewrite run_effects_linePoints, run_effects_polygonPoints.
  destruct st; split; reflexivity.
Qed.

Lemma save_points (name description : string) (st st' : State) :
  save name description st = Normal st' ->
  linePoints st' = linePoints st /\ polygonPoints st' = polygonPoints st.
Proof.
  unfold save. destruct (showProperties st); [|intros H; injection H as <-; split; reflexivity].
  unfold FeatureProperties.handleSave.
  destruct (selectedFeature st) as [sel|]; [|intros H; injection H as <-; split; reflexivity].
  destruct (handleFeatureUpdate _ st) as [st1|] eqn:Hupd; [|discriminate].
  simpl. intros H. injection H as <-.
  destruct (handleFeatureUpdate_points _ _ Hupd) as (Hl & Hp).
  destruct (onClose_points st1) as (Hl1 & Hp1).
  rewrite Hl1, Hp1. split; assumption.
Qed.

Lemma clearAll_points (st : State) :
  linePoints (clearAll st) = linePoints st /\
  polygonPoints (clearAll st) = polygonPoints st.
Proof.
  destruct (map_current st) as [m|] eqn:Hm.
  - apply (clearAll_cells st Hm).
  - unfold clearAll. rewrite Hm. split; reflexivity.
Qed.

Lemma removeFeature_points (index : nat) (st st' : State) :
  removeFeature index st = Normal st' ->
  linePoints st' = linePoints st /\ polygonPoints st' = polygonPoints st.
Proof.
  unfold removeFeature.
  destruct (map_current st) as [m|] eqn:Hm; [|intros H; injection H as <-; split; reflexivity].
  destruct (nth_error (features st) index) as [f|]; [|discriminate].
  intros H. injection H as <-.
  rewrite run_effects_linePoints, run_effects_polygonPoints.
  destruct st as [mc dm cf fs sf sp lp pp ed ec fc uc]. simpl in Hm. subst mc.
  split; reflexivity.
Qed.
End PointsInProgress.

(** No handler of [MapComponent] ever takes a point out of [linePoints] or
    [polygonPoints]: from any state, whatever handlers run (tool selections,
    [clearAll], deletions, edits, clicks), both cells keep what they held
    and only gain points at their end. *)
Theorem points_never_dropped (uuidv4 : nat -> string) (st0 st : MapComponent.State) :
  ui_from uuidv4 st0 st ->
  grows_from (MapComponent.linePoints st0) (MapComponent.linePoints st) /\
  grows_from (MapComponent.polygonPoints st0) (MapComponent.polygonPoints st).
Proof.
  induction 1 as [|tool st _ (IHl & IHp)|e st _ (IHl & IHp)|f st _ (IHl & IHp) Hf
                  |id0 st _ (IHl & IHp)|name description st st' _ (IHl & IHp) Hsave
                  |st _ (IHl & IHp)|st _ (IHl & IHp)|index st st' _ (IHl & IHp) Hrem].
  - split; apply grows_from_refl.
  - destruct (handleToolSelect_points tool st) as (Hl & Hp). rewrite Hl, Hp.
    split; assumption.
  - destruct (click_points uuidv4 e st) as (Hl & Hp).
    split; [apply (grows_from_trans IHl Hl)|apply (grows_from_trans IHp Hp)].
  - destruct (handleFeatureSelect_points f st) as (Hl & Hp). rewrite Hl, Hp.
    split; assumption.
  - destruct (handleFeatureDelete_points id0 st) as (Hl & Hp). rewrite Hl, Hp.
    split; assumption.
  - destruct (save_points _ _ _ Hsave) as (Hl & Hp). rewrite Hl, Hp.
    split; assumption.
  - destruct (onClose_points st) as (Hl & Hp). rewrite Hl, Hp. split; assumption.
  - destruct (clearAll_points st) as (Hl & Hp). rewrite Hl, Hp. split; assumption.
  - destruct (removeFeature_points _ _ Hrem) as (Hl & Hp). rewrite Hl, Hp.
    split; assumption.
Qed.

Lemma points_never_dropped_witness :
  ui_from Sample.uuidv4 Sample.line_two_clicks Sample.click_after_clearAll /\
  grows_from (MapComponent.linePoints Sample.line_two_clicks)
             (MapComponent.linePoints Sample.click_after_clearAll) /\
  grows_from (MapComponent.polygonPoints Sample.line_two_clicks)
             (MapComponent.polygonPoints Sample.click_after_clearAll).
Proof.
  assert (Hrun : ui_from Sample.uuidv4 Sample.line_two_clicks Sample.click_after_clearAll).
  { unfold Sample.click_after_clearAll, Sample.cleared.
    apply ui_click, ui_handleToolSelect, ui_clearAll, ui_start. }
  split; [exact Hrun|].
  exact (@points_never_dropped Sample.uuidv4 Sample.line_two_clicks
           Sample.click_after_clearAll Hrun).
Defined.

(** [removeFeature] and [clearAll] never write the selection: removing the
    selected feature by its index takes it out of the list and leaves it
    selected, with the edit panel open, and so does [clearAll]. *)
Theorem removal_by_index_keeps_selection (uuidv4 : nat -> string)
    (st : MapComponent.State) (index : nat) (f : GeoJSON.Feature) :
  distinct_uuids uuidv4 ->
  ui_run uuidv4 st ->
  MapComponent.selectedFeature st = Some f ->
  nth_error (MapComponent.features st) index = Some f ->
  (exists st',
     MapComponent.removeFeature index st = Normal st' /\
     ~ In f (MapComponent.features st') /\
     MapComponent.selectedFeature st' = Some f /\
     MapComponent.showProperties st' = true) /\
  MapComponent.features (MapComponent.clearAll st) = [] /\
  MapComponent.selectedFeature (MapComponent.clearAll st) = Some f /\
  MapComponent.showProperties (MapComponent.clearAll st) = true.
Proof.
  intros Hdist Hrun Hsel Hnth.
  pose proof (ui_run_invariant Hrun) as [(tool & sc & Hb) Hp _ Hd _ _].
  destruct (bound_deps Hb) as (Hdeps & m & Hm).
  assert (Hshow : MapComponent.showProperties st = true).
  { apply Hp. rewrite Hsel. discriminate. }
  split.
  - destruct (MapComponent.removeFeature index st) as [st'|] eqn:Hrem.
    2:{ unfold MapComponent.removeFeature in Hrem. rewrite Hm, Hnth in Hrem.
        discriminate. }
    exists st'. split; [reflexivity|].
    destruct (removeFeature_frame index st Hm Hdeps Hrem) as (_ & Hfs & Hs & Hsp).
    rewrite Hfs, Hs, Hsp. split; [|split; assumption].
    destruct (filter_index_split _ _ Hnth) as (before & after & E & _ & Hrest).
    rewrite Hrest. intros Hin.
    pose proof (Hd Hdist) as Hnd. rewrite E, map_app in Hnd. simpl in Hnd.
    apply NoDup_remove_2 in Hnd. apply Hnd. rewrite <- map_app.
    apply in_map. exact Hin.
  - destruct (clearAll_frame Hb) as (_ & Hfs & Hs & Hsp & _).
    rewrite Hfs, Hs, Hsp. repeat split; assumption.
Qed.

Lemma removal_by_index_keeps_selection_witness :
  distinct_uuids Sample.uuidv4 /\
  ui_run Sample.uuidv4 Sample.two_points_selected /\
  MapComponent.selectedFeature Sample.two_points_selected = Some Sample.the_point /\
  nth_error (MapComponent.features Sample.two_points_selected) 0 = Some Sample.the_point /\
  (exists st',
     MapComponent.removeFeature 0 Sample.two_points_selected = Normal st' /\
     ~ In Sample.the_point (MapComponent.features st') /\
     MapComponent.selectedFeature st' = Some Sample.the_point /\
     MapComponent.showProperties st' = true) /\
  MapComponent.features (MapComponent.clearAll Sample.two_points_selected) = [] /\
  MapComponent.selectedFeature (MapComponent.clearAll Sample.two_points_selected)
    = Some Sample.the_point /\
  MapComponent.showProperties (MapComponent.clearAll Sample.two_points_selected) = true.
Proof.
  assert (Hsel : MapComponent.selectedFeature Sample.two_points_selected
                 = Some Sample.the_point) by (vm_compute; reflexivity).
  assert (Hnth : nth_error (MapComponent.features Sample.two_points_selected) 0
                 = Some Sample.the_point) by (vm_compute; reflexivity).
  split; [exact sample_uuidv4_distinct|].
  split; [exact sample_two_points_selected_run|].
  split; [exact Hsel|]. split; [exact Hnth|].
  exact (@removal_by_index_keeps_selection Sample.uuidv4 Sample.two_points_selected 0
           Sample.the_point sample_uuidv4_distinct sample_two_points_selected_run
           Hsel Hnth).
Defined.

(** ** [page.tsx] *)

(** In [Home], adding a feature whose id is not in the list and deleting
    that id again gives back the list; the selection is kept unless it was
    that id. *)
Theorem home_add_then_delete (f : GeoJSON.Feature) (st : Home.State) :
  (forall g, In g (Home.features st) -> GeoJSON.id g <> GeoJSON.id f) ->
  Home.features (Home.handleFeatureDelete (GeoJSON.id f) (Home.handleFeatureAdd f st))
    = Home.features st /\
  Home.selectedFeature
    (Home.handleFeatureDelete (GeoJSON.id f) (Home.handleFeatureAdd f st))
    = (if Home.selected_is (GeoJSON.id f) st then None else Home.selectedFeature st).
Proof.
  intros Hfresh. destruct st as [fs sel]. simpl in *. split; [|reflexivity].
  rewrite filter_app. simpl. rewrite String.eqb_refl. simpl. rewrite app_nil_r.
  apply (@filter_absent (GeoJSON.id f) fs Hfresh).
Qed.

(** On the list that holds the point ["uuid-0"], selected: a second point
    ["uuid-1"] is added and deleted again; the list holds the first point
    and the selection is still ["uuid-0"]. *)
Lemma home_add_then_delete_witness :
  (forall g, In g (Home.features Sample.home_selected) ->
             GeoJSON.id g <> GeoJSON.id Sample.second_point) /\
  Home.features
    (Home.handleFeatureDelete (GeoJSON.id Sample.second_point)
       (Home.handleFeatureAdd Sample.second_point Sample.home_selected))
    = [Sample.the_point] /\
  Home.selectedFeature
    (Home.handleFeatureDelete (GeoJSON.id Sample.second_point)
       (Home.handleFeatureAdd Sample.second_point Sample.home_selected))
    = Some "uuid-0".
Proof.
  assert (H : forall g, In g (Home.features Sample.home_selected) ->
                        GeoJSON.id g <> GeoJSON.id Sample.second_point).
  { intros g [<-|[]]. apply String.eqb_neq. vm_compute. reflexivity. }
  split; [exact H|].
  exact (@home_add_then_delete Sample.second_point Sample.home_selected H).
Defined.

(** ** The earliest version: a click under the Line tool *)

Section Draft1Line.
Import Drafts.

Lemma draft1_handleClick_line (now : N) (e : MapMouseEvent) (st : State) (m : Map) :
  map_current st = Some m ->
  features (Draft1.handleClick (Some line) now e st)
  = fst (addLinePoint_updater now (lngLat e) (features st) (map_current st)).
Proof.
  intros Hm. destruct st as [mc dm cf fs ed ec fc uc]. simpl in Hm. subst mc.
  unfold Draft1.handleClick, addLinePoint, setFeatures. simpl.
  destruct (addLinePoint_updater now (lngLat e) fs (Some m)) as [fs' om']. reflexivity.
Qed.

(** However the list ends, the updater leaves it ending with a line whose
    last point is the clicked one. *)
Lemma addLinePoint_updater_ends (now : N) (c : LngLat) (prev : list MapFeature)
    (m : option Map) :
  exists before cs,
    fst (addLinePoint_updater now c prev m)
    = before ++ [line_feature (cs ++ [c]) ("line-" ++ decimalN now)%string].
Proof.
  unfold addLinePoint_updater.
  destruct (last_element prev) as [[? ?|cs i|? ?]|]; simpl;
    try (exists prev, []; reflexivity).
  exists (slice_0_minus1 prev), cs. reflexivity.
Qed.
End Draft1Line.

(** In the earliest version, whatever buttons were used before, one click
    under the Line tool that draws its line, so that the layer
    ["line-<now>"] is on the map afterwards (the style of the map has
    loaded), records the clicked point twice: the list then ends with a
    line whose last two points are both the clicked one. *)
Theorem draft1_line_click_records_point_twice (st : Drafts.State) (now : N)
    (e : MapMouseEvent) :
  draft1_run st ->
  Drafts.drawingMode st = Some line ->
  In ("line-" ++ decimalN now)%string (drafts_layers_of (Draft1.click now e st)) ->
  exists before cs i,
    Drafts.features (Draft1.click now e st)
    = before ++ [Drafts.line_feature (cs ++ [lngLat e; lngLat e]) i].
Proof.
  intros Hrun Hmode _.
  destruct (draft1_run_listening Hrun)
    as ((m & older & la & lh & Hm & Hls & Ha & Hh & _) & Hdeps).
  rewrite Hdeps, Hmode in Ha, Hh.
  unfold Draft1.click. rewrite Hm, Hls, draft1_run_effects_features.
  rewrite fold_left_app. simpl.
  match goal with
  | |- context [Draft1.call_listener now e (Draft1.call_listener now e ?s la) lh] =>
      set (s1 := s)
  end.
  destruct (draft1_listeners_frame now e older st) as (Hsl & _ & _).
  change (fold_left (Draft1.call_listener now e) older st) with s1 in Hsl.
  pose proof (drafts_same_listeners_mounted Hsl Hm) as Hm1.
  change (Draft1.call_listener now e s1 la)
    with (Draft1.handleClick (Mapbox.scope la) now e s1).
  rewrite Ha.
  destruct (draft1_handleClick_frame (Some line) now e s1) as (Hsl2 & _).
  set (s2 := Draft1.handleClick (Some line) now e s1) in *.
  change (Draft1.call_listener now e s2 lh)
    with (Draft1.handleClick (Mapbox.scope lh) now e s2).
  rewrite Hh.
  destruct (Drafts.map_current s1) as [m1|] eqn:E1; [|contradiction].
  pose proof (drafts_same_listeners_mounted Hsl2 E1) as Hm2.
  destruct (Drafts.map_current s2) as [m2|] eqn:E2; [|contradiction].
  rewrite (draft1_handleClick_line now e s2 E2).
  assert (Hs2 : Drafts.features s2
                = fst (Drafts.addLinePoint_updater now (lngLat e) (Drafts.features s1)
                         (Drafts.map_current s1))).
  { unfold s2. apply (draft1_handleClick_line now e s1 E1). }
  destruct (addLinePoint_updater_ends now (lngLat e) (Drafts.features s1)
              (Drafts.map_current s1)) as (before & cs & Hends).
  rewrite Hends in Hs2. rewrite Hs2.
  exists before, cs. eexists. unfold Drafts.addLinePoint_updater.
  rewrite last_element_snoc, slice_0_minus1_snoc. simpl.
  rewrite <- app_assoc. reflexivity.
Qed.

Lemma draft1_line_click_records_point_twice_witness :
  draft1_run (Draft1.handleToolSelect (Some line) (Draft1.mount Drafts.initial)) /\
  In ("line-" ++ decimalN 1000)%string
     (drafts_layers_of
        (Draft1.click 1000%N (Sample.at_ 10 20)
           (Draft1.handleToolSelect (Some line) (Draft1.mount Drafts.initial)))) /\
  exists before cs i,
    Drafts.features
      (Draft1.click 1000%N (Sample.at_ 10 20)
         (Draft1.handleToolSelect (Some line) (Draft1.mount Drafts.initial)))
    = before ++ [Drafts.line_feature (cs ++ [Sample.pos 10 20; Sample.pos 10 20]) i].
Proof.
  assert (Hrun : draft1_run
                   (Draft1.handleToolSelect (Some line) (Draft1.mount Drafts.initial)))
    by (apply draft1_run_handleToolSelect, draft1_run_mount).
  assert (Hdrawn :
            In ("line-" ++ decimalN 1000)%string
               (drafts_layers_of
                  (Draft1.click 1000%N (Sample.at_ 10 20)
                     (Draft1.handleToolSelect (Some line)
                        (Draft1.mount Drafts.initial))))).
  { vm_compute. left. reflexivity. }
  split; [exact Hrun|]. split; [exact Hdrawn|].
  exact (@draft1_line_click_records_point_twice _ 1000%N (Sample.at_ 10 20) Hrun
           eq_refl Hdrawn).
Defined.

(** ** [MapComponent.tsx]: the first session of the Line or Polygon tool *)

Section FirstSession.
Import GeoJSON MapComponent.
Variable uuidv4 : nat -> string.

(** A listener bound while [linePoints] was empty creates no line, however
    many clicks it handles. *)
Lemma clicks_line_nothing (sc : Scope) (es : list MapMouseEvent) :
  forall st : State,
    bound (Some line) sc st ->
    scope_linePoints sc = [] ->
    features (clicks uuidv4 es st) = features st.
Proof.
  induction es as [|e rest IH]; intros st Hb Hsc; [reflexivity|].
  destruct (click_bound uuidv4 e Hb) as [Hclick Hb'].
  change (clicks uuidv4 (e :: rest) st) with (clicks uuidv4 rest (click uuidv4 e st)).
  rewrite (IH _ Hb' Hsc), Hclick.
  pose proof Hb as (m & l0 & l1 & Hm & _ & _ & _ & Hmode & _).
  unfold handleDrawingClick. rewrite Hmode, Hm.
  destruct (addLinePoint_cells uuidv4 sc e st Hm) as (_ & _ & Hfs).
  rewrite Hfs, Hsc. apply app_nil_r.
Qed.

Lemma clicks_polygon_nothing (sc : Scope) (es : list MapMouseEvent) :
  forall st : State,
    bound (Some polygon) sc st ->
    scope_polygonPoints sc = [] ->
    features (clicks uuidv4 es st) = features st.
Proof.
  induction es as [|e rest IH]; intros st Hb Hsc; [reflexivity|].
  destruct (click_bound uuidv4 e Hb) as [Hclick Hb'].
  change (clicks uuidv4 (e :: rest) st) with (clicks uuidv4 rest (click uuidv4 e st)).
  rewrite (IH _ Hb' Hsc), Hclick.
  pose proof Hb as (m & l0 & l1 & Hm & _ & _ & _ & Hmode & _).
  unfold handleDrawingClick. rewrite Hmode, Hm.
  destruct (addPolygonPoint_cells uuidv4 sc e st Hm) as (_ & _ & Hfs).
  rewrite Hfs, Hsc. apply app_nil_r.
Qed.
End FirstSession.

(** The listener of a tool sees the [linePoints] of the render it was bound
    in.  When the Line tool is selected while [linePoints] is empty, no
    click creates a feature until another tool is selected, however many
    clicks follow; the same holds for the Polygon tool and
    [polygonPoints]. *)
Theorem first_session_draws_nothing (uuidv4 : nat -> string)
    (st : MapComponent.State) (es : list MapMouseEvent) :
  ui_run uuidv4 st ->
  (MapComponent.drawingMode st <> Some line ->
   MapComponent.linePoints st = [] ->
   MapComponent.features
     (clicks uuidv4 es (MapComponent.handleToolSelect (Some line) st))
   = MapComponent.features st) /\
  (MapComponent.drawingMode st <> Some polygon ->
   MapComponent.polygonPoints st = [] ->
   MapComponent.features
     (clicks uuidv4 es (MapComponent.handleToolSelect (Some polygon) st))
   = MapComponent.features st).
Proof.
  intros Hrun.
  destruct (ui_run_invariant Hrun) as [(tool & sc & Hb) _ _ _ _ _].
  assert (Htool : MapComponent.drawingMode st = tool).
  { destruct Hb as (m & l0 & l1 & _ & _ & _ & _ & _ & Hm & _). exact Hm. }
  split; intros Hmode Hempty.
  - destruct (bound_handleToolSelect (Some line) Hb) as (sc' & Hb' & _ & Hsc' & Hcells).
    assert (Hne : Some line <> tool).
    { rewrite <- Htool. intros E. apply Hmode. symmetry. exact E. }
    destruct (Hsc' Hne) as (Hlp & _ & _).
    rewrite (@clicks_line_nothing uuidv4 sc' es _ Hb'); [|rewrite Hlp; exact Hempty].
    destruct Hcells as (Hf & _). rewrite Hf.
    destruct st as [mc dm cf fs sf sp lp pp ed ec fc uc]. reflexivity.
  - destruct (bound_handleToolSelect (Some polygon) Hb) as (sc' & Hb' & _ & Hsc' & Hcells).
    assert (Hne : Some polygon <> tool).
    { rewrite <- Htool. intros E. apply Hmode. symmetry. exact E. }
    destruct (Hsc' Hne) as (_ & Hpp & _).
    rewrite (@clicks_polygon_nothing uuidv4 sc' es _ Hb'); [|rewrite Hpp; exact Hempty].
    destruct Hcells as (Hf & _). rewrite Hf.
    destruct st as [mc dm cf fs sf sp lp pp ed ec fc uc]. reflexivity.
Qed.

Lemma first_session_draws_nothing_witness :
  ui_run Sample.uuidv4 (MapComponent.mount MapComponent.initial) /\
  MapComponent.drawingMode (MapComponent.mount MapComponent.initial) <> Some line /\
  MapComponent.linePoints (MapComponent.mount MapComponent.initial) = [] /\
  MapComponent.features
    (clicks Sample.uuidv4 [Sample.at_ 0 0; Sample.at_ 1 1; Sample.at_ 2 2]
       (MapComponent.handleToolSelect (Some line)
          (MapComponent.mount MapComponent.initial)))
  = MapComponent.features (MapComponent.mount MapComponent.initial).
Proof.
  assert (Hmode : MapComponent.drawingMode (MapComponent.mount MapComponent.initial)
                  <> Some line) by (simpl; discriminate).
  assert (Hempty : MapComponent.linePoints (MapComponent.mount MapComponent.initial) = [])
    by reflexivity.
  split; [apply ui_start|]. split; [exact Hmode|]. split; [exact Hempty|].
  exact (proj1 (@first_session_draws_nothing Sample.uuidv4
                  (MapComponent.mount MapComponent.initial)
                  [Sample.at_ 0 0; Sample.at_ 1 1; Sample.at_ 2 2]
                  (ui_start Sample.uuidv4 _)) Hmode Hempty).
Defined.

(** ** The version with [MapFeature] records: listeners and features per click *)

Section Draft2PerClick.
Import Drafts.

Lemma addLinePoint_updater_at_most_one (now : N) (c : LngLat) (prev : list MapFeature)
    (m : option Map) :
  List.length (fst (addLinePoint_updater now c prev m)) <= S (List.length prev).
Proof.
  unfold addLinePoint_updater.
  destruct (last_element prev) as [[? ?|cs i|? ?]|] eqn:E; simpl;
    rewrite ?length_app; simpl; try lia.
  destruct (last_element_split _ E) as (ys & ->).
  rewrite slice_0_minus1_snoc, !length_app. simpl. lia.
Qed.

Lemma addPolygonPoint_updater_at_most_one (now : N) (c : LngLat)
    (prev : list MapFeature) (m : option Map) :
  List.length (fst (addPolygonPoint_updater now c prev m)) <= S (List.length prev).
Proof.
  unfold addPolygonPoint_updater.
  destruct (last_element prev) as [[? ?|? ?|cs i]|] eqn:E; simpl;
    rewrite ?length_app; simpl; try lia.
  destruct (last_element_split _ E) as (ys & ->).
  rewrite slice_0_minus1_snoc, !length_app. simpl. lia.
Qed.

Lemma draft2_handleDrawingClick_count (uuidv4 : nat -> string) (tool : option Tool)
    (now : N) (e : MapMouseEvent) (st : State) (m : Map) :
  map_current st = Some m ->
  List.length (features st)
    <= List.length (features (Draft2.handleDrawingClick uuidv4 tool now e st)) /\
  List.length (features (Draft2.handleDrawingClick uuidv4 tool now e st))
    <= S (List.length (features st)) /\
  (tool = Some point ->
   List.length (features (Draft2.handleDrawingClick uuidv4 tool now e st))
   = S (List.length (features st))) /\
  (tool = None ->
   features (Draft2.handleDrawingClick uuidv4 tool now e st) = features st).
Proof.
  intros Hm. destruct st as [mc dm cf fs ed ec fc uc]. simpl in Hm. subst mc.
  unfold Draft2.handleDrawingClick. destruct tool as [[]|]; simpl.
  - unfold Draft2.addPoint, on_map. simpl. rewrite length_app. simpl.
    repeat split; try lia. discriminate.
  - unfold addLinePoint, setFeatures. simpl.
    pose proof (addLinePoint_updater_length now (lngLat e) fs (Some m)) as Hlo.
    pose proof (addLinePoint_updater_at_most_one now (lngLat e) fs (Some m)) as Hhi.
    destruct (addLinePoint_updater now (lngLat e) fs (Some m)) as [fs' om'].
    simpl in *. repeat split; try assumption; discriminate.
  - unfold addPolygonPoint, setFeatures. simpl.
    pose proof (addPolygonPoint_updater_length now (lngLat e) fs (Some m)) as Hlo.
    pose proof (addPolygonPoint_updater_at_most_one now (lngLat e) fs (Some m)) as Hhi.
    destruct (addPolygonPoint_updater now (lngLat e) fs (Some m)) as [fs' om'].
    simpl in *. repeat split; try assumption; discriminate.
  - repeat split; try lia; try reflexivity. discriminate.
Qed.
End Draft2PerClick.



(** ** [MapComponent.tsx]: [clearAll] in every reachable state *)


